(** * Mission Control model pages: a shallow embedding of the form and table logic

    The development follows the React client components of the model
    registry screens:

    - [ModelsWorkspace]        the provider-auth, catalog and routing tables;
    - [AgentRoutingEditPage]   the per-agent routing editor;
    - [ModelsSyncPage]         the gateway pull/push page;
    - [CatalogModelFormPage]   the catalog model create/edit form;
    - [ProviderAuthFormPage]   the provider auth create/edit form.

    Component state ([useState]) is threaded explicitly, event handlers
    return the next state together with the requests they hand to the
    generated REST client, and the values a component derives while
    rendering are functions of the props, the fetched data and the state. *)

From Stdlib Require Import ZArith QArith String Ascii List Lia.
From stdpp Require Import base option list gmap strings sorting pretty.

Local Open Scope string_scope.

(** ** The JavaScript runtime the components rely on *)

(** Values produced by [JSON.parse]. Numbers are the rational value of the
    parsed double. *)
#[warnings="-register-all"]
Inductive JsonValue :=
| JNull
| JBool (b : bool)
| JNumber (q : Q)
| JString (s : string)
| JArray (items : list JsonValue)
| JObject (entries : list (string * JsonValue)).

(** The built-ins whose behaviour is fixed by the engine and its locale
    data rather than by this repository. [localeCompare] is a consistent
    comparison function (ECMA-402): zero on equal arguments, sign-symmetric
    and transitive. [JSON_parse] answers [None] where [JSON.parse] throws;
    [JSON_stringify v] is [JSON.stringify(v, null, 2)];
    [Date_getTime] answers [None] where [new Date(s).getTime()] is [NaN]. *)
Class JsRuntime := {
  localeCompare : string → string → Z;
  toLowerCase : string → string;
  trim : string → string;
  JSON_parse : string → option JsonValue;
  JSON_stringify : JsonValue → string;
  Date_getTime : string → option Z;
  localeCompare_refl : ∀ a, localeCompare a a = 0%Z;
  localeCompare_sym : ∀ a b, (localeCompare a b < 0 ↔ 0 < localeCompare b a)%Z;
  localeCompare_trans : ∀ a b c,
    (localeCompare a b ≤ 0 → localeCompare b c ≤ 0 → localeCompare a c ≤ 0)%Z;
  toLowerCase_empty : ∀ s, toLowerCase s = "" ↔ s = "";
}.

(** [Boolean(s)] / [!s] on a string: only the empty string is falsy. *)
Definition truthy (s : string) : bool := negb (bool_decide (s = "")).

(** Truthiness of a [string | null | undefined] field. *)
Definition truthyOpt (s : option string) : bool :=
  match s with
  | Some v => truthy v
  | None => false
  end.

(** [!parsed] for a parsed JSON value. *)
Definition toBoolean (v : JsonValue) : bool :=
  match v with
  | JNull => false
  | JBool b => b
  | JNumber q => negb (Qeq_bool q 0)
  | JString s => truthy s
  | JArray _ | JObject _ => true
  end.

(** [typeof v === "object"]. *)
Definition typeofObject (v : JsonValue) : bool :=
  match v with
  | JNull | JArray _ | JObject _ => true
  | JBool _ | JNumber _ | JString _ => false
  end.

(** [Array.isArray(v)]. *)
Definition isArray (v : JsonValue) : bool :=
  match v with
  | JArray _ => true
  | _ => false
  end.

(** ** Arrays *)

Section arrays.
Context {A : Type}.

(** [Array.prototype.sort(cmp)] on a copy. The engine's sort is stable, and
    for a consistent comparison function every stable sort returns the same
    array; it is written here as a stable insertion sort. [x] is inserted
    in front of a run it preceded in the input, so it stays in front of
    every element it ties with. *)
Fixpoint sortInsert (cmp : A → A → Z) (x : A) (l : list A) : list A :=
  match l with
  | [] => [x]
  | y :: l' => if (cmp x y <=? 0)%Z then x :: y :: l' else y :: sortInsert cmp x l'
  end.

Definition sort (cmp : A → A → Z) (l : list A) : list A :=
  foldr (sortInsert cmp) [] l.

(** [list.indexOf(v)]: the first position holding [v], or [-1]. *)
Fixpoint indexOf `{EqDecision A} (l : list A) (v : A) : Z :=
  match l with
  | [] => (-1)%Z
  | x :: l' =>
      if decide (x = v) then 0%Z
      else let i := indexOf l' v in if (i <? 0)%Z then (-1)%Z else (i + 1)%Z
  end.

(** [list.filter((value, index, list) => p(value, index, list))]. *)
Fixpoint filterFrom (p : A → Z → list A → bool) (whole : list A) (index : Z)
    (l : list A) : list A :=
  match l with
  | [] => []
  | x :: l' =>
      if p x index whole then x :: filterFrom p whole (index + 1)%Z l'
      else filterFrom p whole (index + 1)%Z l'
  end.

Definition filterIndexed (p : A → Z → list A → bool) (l : list A) : list A :=
  filterFrom p l 0%Z l.

(** [new Map(list.map((item) => [key(item), item]))]: entries are set in
    array order, so a later item replaces an earlier one with the same key. *)
Definition mapOfList (key : A → string) (l : list A) : gmap string A :=
  foldl (λ m item, <[key item := item]> m) ∅ l.

End arrays.

(** ** API records *)

Module GatewayRead.
Record t := mk { id : string; name : string }.
End GatewayRead.

Module BoardRead.
Record t := mk { id : string; name : string }.
End BoardRead.

Module LlmModelRead.
Record t := mk {
  id : string;
  gateway_id : string;
  provider : string;
  model_id : string;
  display_name : string;
  settings : option (list (string * JsonValue));
  created_at : string;
  updated_at : string;
}.
End LlmModelRead.

Module LlmProviderAuthRead.
Record t := mk {
  id : string;
  gateway_id : string;
  provider : string;
  config_path : string;
  has_secret : bool;
  updated_at : string;
}.
End LlmProviderAuthRead.

Module AgentRead.
(** [identity_profile_role] is [agent.identity_profile?.role] when that is a
    string, [None] otherwise. *)
Record t := mk {
  id : string;
  name : string;
  gateway_id : string;
  board_id : option string;
  primary_model_id : option string;
  fallback_model_ids : option (list string);
  identity_profile_role : option string;
}.
End AgentRead.

(** [gateways.some((gateway) => gateway.id === candidate)]. *)
Definition someGateway (gateways : list GatewayRead.t) (candidate : string) : bool :=
  existsb (λ gateway, bool_decide (GatewayRead.id gateway = candidate)) gateways.

(** The error object a failed request rejects with. *)
Module ApiError.
Record t := mk { message : string }.
End ApiError.

Module RoutingStatus.
Inductive t := override | default | unconfigured.

Definition routingStatusLabel (status : t) : string :=
  match status with
  | override => "Primary override"
  | default => "Using default"
  | unconfigured => "No primary"
  end.
End RoutingStatus.

Inductive SortDirection := asc | desc.

(** [err.message || fallback]. *)
Definition messageOr (err : ApiError.t) (fallback : string) : string :=
  if truthy (ApiError.message err) then ApiError.message err else fallback.

(** The options object given to a mutation hook. Only the failure path is
    modelled: [onError] is absent when the component passes none, and the
    hook then leaves the component state alone. A handler returns the next
    state and the requests it issues. *)
Record MutationOptions (State Request : Type) := {
  onError : option (ApiError.t → State → State * list Request);
}.
Arguments onError {State Request} _.

Definition settleError {State Request} (options : MutationOptions State Request)
    (err : ApiError.t) (st : State) : State * list Request :=
  match onError options with
  | Some handler => handler err st
  | None => (st, [])
  end.

(** [agentRoleLabel]: the trimmed role, [null] when missing or blank. *)
Definition agentRoleLabel `{JsRuntime} (agent : AgentRead.t) : option string :=
  match AgentRead.identity_profile_role agent with
  | None => None
  | Some role => if truthy (trim role) then Some (trim role) else None
  end.

(** ** ModelsWorkspace: the three tables *)

Module ModelsWorkspace.

Module ProviderSortKey.
Inductive t := gateway | provider | config_path | secret | updated.
#[global] Instance providerSortKey_eq_dec : EqDecision t.
Proof. solve_decision. Defined.
End ProviderSortKey.

Module ModelSortKey.
Inductive t := gateway | display_name | model_id | provider | settings | updated.
#[global] Instance modelSortKey_eq_dec : EqDecision t.
Proof. solve_decision. Defined.
End ModelSortKey.

Module RoutingSortKey.
Inductive t := agent | role | gateway | board | primary | status.
#[global] Instance routingSortKey_eq_dec : EqDecision t.
Proof. solve_decision. Defined.
End RoutingSortKey.

(** The component's [useState] cells: it keeps the three sort selections
    and nothing else. *)
Record State := mkState {
  providerSortKey : ProviderSortKey.t;
  providerSortDirection : SortDirection;
  modelSortKey : ModelSortKey.t;
  modelSortDirection : SortDirection;
  routingSortKey : RoutingSortKey.t;
  routingSortDirection : SortDirection;
}.

(** The payload of the five list queries (empty while a query has not
    answered with status 200). *)
Record Fetched := mkFetched {
  gateways : list GatewayRead.t;
  models : list LlmModelRead.t;
  boards : list BoardRead.t;
  providerAuth : list LlmProviderAuthRead.t;
  agents : list AgentRead.t;
}.

Inductive Request :=
| DeleteProviderAuth (providerAuthId : string)
| DeleteModel (modelId : string).

(** Both delete mutations are created with an [onSuccess] callback only. *)
Definition deleteProviderMutation : MutationOptions State Request :=
  {| onError := None |}.

Definition deleteModelMutation : MutationOptions State Request :=
  {| onError := None |}.

Record RoutingRow := mkRow {
  agent : AgentRead.t;
  board : option BoardRead.t;
  role : string;
  primary : option LlmModelRead.t;
  effectivePrimary : option LlmModelRead.t;
  fallbackCount : nat;
  gatewayName : string;
  status : RoutingStatus.t;
}.

Section render.
Context `{JsRuntime} (d : Fetched) (st : State).

Definition gatewaysById : gmap string GatewayRead.t :=
  mapOfList GatewayRead.id (gateways d).

Definition boardsById : gmap string BoardRead.t :=
  mapOfList BoardRead.id (boards d).

Definition modelsById : gmap string LlmModelRead.t :=
  mapOfList LlmModelRead.id (models d).

(** The first loop of [gatewayDefaultById]: models bucketed by gateway, in
    fetch order. *)
Definition grouped : gmap string (list LlmModelRead.t) :=
  foldl
    (λ g model,
       let bucket := default [] (g !! LlmModelRead.gateway_id model) in
       <[LlmModelRead.gateway_id model := (bucket ++ [model])%list]> g)
    ∅ (models d).

Definition createdAtCompare (a b : LlmModelRead.t) : Z :=
  localeCompare (LlmModelRead.created_at a) (LlmModelRead.created_at b).

(** The second loop: each bucket sorted by [created_at], its first element
    kept. *)
Definition gatewayDefaultById : gmap string LlmModelRead.t :=
  omap (λ bucket, head (sort createdAtCompare bucket)) grouped.

Definition gatewayNameOf (gateway_id : string) : string :=
  match gatewaysById !! gateway_id with
  | Some gateway => GatewayRead.name gateway
  | None => "Unknown gateway"
  end.

(** [a - b] then the direction, as every comparator here applies it. *)
Definition directed (direction : SortDirection) (compare : Z) : Z :=
  match direction with
  | asc => compare
  | desc => (- compare)%Z
  end.

Definition timeOf (stamp : string) : Z := default 0%Z (Date_getTime stamp).

(** *** Provider auth table *)

Definition providerResolveString (row : LlmProviderAuthRead.t) : string :=
  match providerSortKey st with
  | ProviderSortKey.gateway => gatewayNameOf (LlmProviderAuthRead.gateway_id row)
  | ProviderSortKey.provider => LlmProviderAuthRead.provider row
  | ProviderSortKey.config_path => LlmProviderAuthRead.config_path row
  | _ => ""
  end.

Definition providerResolveNumber (row : LlmProviderAuthRead.t) : Z :=
  match providerSortKey st with
  | ProviderSortKey.secret => if LlmProviderAuthRead.has_secret row then 1%Z else 0%Z
  | ProviderSortKey.updated => timeOf (LlmProviderAuthRead.updated_at row)
  | _ => 0%Z
  end.

Definition providerCompare (left right : LlmProviderAuthRead.t) : Z :=
  let baseCompare :=
    match providerSortKey st with
    | ProviderSortKey.secret | ProviderSortKey.updated =>
        (providerResolveNumber left - providerResolveNumber right)%Z
    | _ =>
        localeCompare (toLowerCase (providerResolveString left))
                      (toLowerCase (providerResolveString right))
    end in
  if bool_decide (baseCompare ≠ 0%Z) then directed (providerSortDirection st) baseCompare
  else
    let fallbackCompare :=
      localeCompare (LlmProviderAuthRead.provider left)
                    (LlmProviderAuthRead.provider right) in
    directed (providerSortDirection st) fallbackCompare.

Definition providerRows : list LlmProviderAuthRead.t :=
  sort providerCompare (providerAuth d).

(** *** Model catalog table *)

Definition modelResolveString (row : LlmModelRead.t) : string :=
  match modelSortKey st with
  | ModelSortKey.gateway => gatewayNameOf (LlmModelRead.gateway_id row)
  | ModelSortKey.display_name => LlmModelRead.display_name row
  | ModelSortKey.model_id => LlmModelRead.model_id row
  | ModelSortKey.provider => LlmModelRead.provider row
  | _ => ""
  end.

Definition modelResolveNumber (row : LlmModelRead.t) : Z :=
  match modelSortKey st with
  | ModelSortKey.settings =>
      match LlmModelRead.settings row with
      | Some entries => Z.of_nat (List.length entries)
      | None => 0%Z
      end
  | ModelSortKey.updated => timeOf (LlmModelRead.updated_at row)
  | _ => 0%Z
  end.

Definition modelCompare (left right : LlmModelRead.t) : Z :=
  let baseCompare :=
    match modelSortKey st with
    | ModelSortKey.settings | ModelSortKey.updated =>
        (modelResolveNumber left - modelResolveNumber right)%Z
    | _ =>
        localeCompare (toLowerCase (modelResolveString left))
                      (toLowerCase (modelResolveString right))
    end in
  if bool_decide (baseCompare ≠ 0%Z) then directed (modelSortDirection st) baseCompare
  else
    let fallbackCompare :=
      localeCompare (LlmModelRead.display_name left)
                    (LlmModelRead.display_name right) in
    directed (modelSortDirection st) fallbackCompare.

Definition modelRows : list LlmModelRead.t :=
  sort modelCompare (models d).

(** *** Agent routing table *)

Definition routingRow (agent : AgentRead.t) : RoutingRow :=
  let primary :=
    match AgentRead.primary_model_id agent with
    | Some id => if truthy id then modelsById !! id else None
    | None => None
    end in
  let defaultPrimary := gatewayDefaultById !! AgentRead.gateway_id agent in
  let effectivePrimary :=
    match primary with
    | Some model => Some model
    | None => defaultPrimary
    end in
  let board :=
    match AgentRead.board_id agent with
    | Some id => if truthy id then boardsById !! id else None
    | None => None
    end in
  let role := default "Unspecified" (agentRoleLabel agent) in
  let fallbackCount := List.length (default [] (AgentRead.fallback_model_ids agent)) in
  let status :=
    if bool_decide (is_Some primary) then RoutingStatus.override
    else if bool_decide (is_Some effectivePrimary) then RoutingStatus.default
    else RoutingStatus.unconfigured in
  {| agent := agent;
     board := board;
     role := role;
     primary := primary;
     effectivePrimary := effectivePrimary;
     fallbackCount := fallbackCount;
     gatewayName := gatewayNameOf (AgentRead.gateway_id agent);
     status := status |}.

Definition routingRows : list RoutingRow := routingRow <$> agents d.

Definition routingResolveValue (row : RoutingRow) : string :=
  match routingSortKey st with
  | RoutingSortKey.agent => AgentRead.name (agent row)
  | RoutingSortKey.role => role row
  | RoutingSortKey.gateway => gatewayName row
  | RoutingSortKey.board =>
      match board row with
      | Some b => BoardRead.name b
      | None => "Gateway main"
      end
  | RoutingSortKey.primary =>
      match primary row with
      | Some model => LlmModelRead.display_name model
      | None =>
          match effectivePrimary row with
          | Some model => LlmModelRead.display_name model
          | None => ""
          end
      end
  | RoutingSortKey.status => RoutingStatus.routingStatusLabel (status row)
  end.

Definition routingCompare (left right : RoutingRow) : Z :=
  let baseCompare :=
    localeCompare (toLowerCase (routingResolveValue left))
                  (toLowerCase (routingResolveValue right)) in
  if bool_decide (baseCompare ≠ 0%Z) then directed (routingSortDirection st) baseCompare
  else
    let fallbackCompare :=
      localeCompare (AgentRead.name (agent left)) (AgentRead.name (agent right)) in
    directed (routingSortDirection st) fallbackCompare.

Definition sortedRoutingRows : list RoutingRow :=
  sort routingCompare routingRows.

End render.

(** The header click handlers: a click on the selected column flips the
    direction, a click on another column selects it ascending. *)
Definition flipDirection (current : SortDirection) : SortDirection :=
  match current with
  | asc => desc
  | desc => asc
  end.

Definition setRoutingSort (st : State) (key : RoutingSortKey.t) : State :=
  if bool_decide (routingSortKey st = key)
  then {| providerSortKey := providerSortKey st;
          providerSortDirection := providerSortDirection st;
          modelSortKey := modelSortKey st;
          modelSortDirection := modelSortDirection st;
          routingSortKey := routingSortKey st;
          routingSortDirection := flipDirection (routingSortDirection st) |}
  else {| providerSortKey := providerSortKey st;
          providerSortDirection := providerSortDirection st;
          modelSortKey := modelSortKey st;
          modelSortDirection := modelSortDirection st;
          routingSortKey := key;
          routingSortDirection := asc |}.

Definition setProviderSort (st : State) (key : ProviderSortKey.t) : State :=
  if bool_decide (providerSortKey st = key)
  then {| providerSortKey := providerSortKey st;
          providerSortDirection := flipDirection (providerSortDirection st);
          modelSortKey := modelSortKey st;
          modelSortDirection := modelSortDirection st;
          routingSortKey := routingSortKey st;
          routingSortDirection := routingSortDirection st |}
  else {| providerSortKey := key;
          providerSortDirection := asc;
          modelSortKey := modelSortKey st;
          modelSortDirection := modelSortDirection st;
          routingSortKey := routingSortKey st;
          routingSortDirection := routingSortDirection st |}.

Definition setModelSort (st : State) (key : ModelSortKey.t) : State :=
  if bool_decide (modelSortKey st = key)
  then {| providerSortKey := providerSortKey st;
          providerSortDirection := providerSortDirection st;
          modelSortKey := modelSortKey st;
          modelSortDirection := flipDirection (modelSortDirection st);
          routingSortKey := routingSortKey st;
          routingSortDirection := routingSortDirection st |}
  else {| providerSortKey := providerSortKey st;
          providerSortDirection := providerSortDirection st;
          modelSortKey := key;
          modelSortDirection := asc;
          routingSortKey := routingSortKey st;
          routingSortDirection := routingSortDirection st |}.

(** The state of the freshly mounted component. *)
Definition initialState : State :=
  {| providerSortKey := ProviderSortKey.gateway;
     providerSortDirection := asc;
     modelSortKey := ModelSortKey.gateway;
     modelSortDirection := asc;
     routingSortKey := RoutingSortKey.agent;
     routingSortDirection := asc |}.

End ModelsWorkspace.

(** ** AgentRoutingEditPage: the routing editor of one agent *)

Module AgentRoutingEditPage.

Record State := mkState {
  primaryModelDraft : option string;
  fallbackModelDraft : option (list string);
  error : option string;
}.

Definition initialState : State :=
  {| primaryModelDraft := None; fallbackModelDraft := None; error := None |}.

Record Fetched := mkFetched {
  agents : list AgentRead.t;
  boards : list BoardRead.t;
  gateways : list GatewayRead.t;
  models : list LlmModelRead.t;
}.

(** The body of the PATCH sent by [updateAgentMutation.mutate]. *)
Record UpdateAgentRequest := mkRequest {
  request_agentId : string;
  force : bool;
  primary_model_id : option string;
  fallback_model_ids : option (list string);
}.

Definition setError (st : State) (value : option string) : State :=
  {| primaryModelDraft := primaryModelDraft st;
     fallbackModelDraft := fallbackModelDraft st;
     error := value |}.

Definition updateAgentMutation : MutationOptions State UpdateAgentRequest :=
  {| onError := Some (λ updateError st,
       (setError st (Some (messageOr updateError "Unable to save agent routing.")), [])) |}.

(** The loop of [stringListsMatch], entered once the lengths agree. *)
Fixpoint stringListsMatchLoop (left right : list string) : bool :=
  match left, right with
  | x :: left', y :: right' =>
      if bool_decide (x ≠ y) then false else stringListsMatchLoop left' right'
  | _, _ => true
  end.

Definition stringListsMatch (left right : list string) : bool :=
  if bool_decide (List.length left ≠ List.length right) then false
  else stringListsMatchLoop left right.

Section render.
Context (agentId : string) (d : Fetched) (st : State).

Definition agent : option AgentRead.t :=
  List.find (λ item, bool_decide (AgentRead.id item = agentId)) (agents d).

Definition modelsForGateway : list LlmModelRead.t :=
  match agent with
  | Some a =>
      if truthy (AgentRead.gateway_id a)
      then filter (λ model, LlmModelRead.gateway_id model = AgentRead.gateway_id a) (models d)
      else []
  | None => []
  end.

Definition modelsById : gmap string LlmModelRead.t :=
  mapOfList LlmModelRead.id modelsForGateway.

Definition availableModelIds : gset string :=
  list_to_set (LlmModelRead.id <$> modelsForGateway).

Definition defaultPrimaryModel : option LlmModelRead.t := head modelsForGateway.

Definition baselinePrimaryModelId : string :=
  match agent with
  | Some a => default "" (AgentRead.primary_model_id a)
  | None => ""
  end.

Definition baselineFallbackModelIds : list string :=
  match agent with
  | Some a => default [] (AgentRead.fallback_model_ids a)
  | None => []
  end.

Definition primaryModelIdCandidate : string :=
  default baselinePrimaryModelId (primaryModelDraft st).

Definition primaryModelId : string :=
  if bool_decide (primaryModelIdCandidate ∈ availableModelIds)
  then primaryModelIdCandidate
  else "".

Definition fallbackModelIds : list string :=
  let source := default baselineFallbackModelIds (fallbackModelDraft st) in
  filterIndexed
    (λ modelIdValue index list,
       bool_decide (modelIdValue ≠ primaryModelId)
       && bool_decide (modelIdValue ∈ availableModelIds)
       && bool_decide (indexOf list modelIdValue = index))
    source.

Definition selectedPrimary : option LlmModelRead.t :=
  if truthy primaryModelId then modelsById !! primaryModelId else None.

Definition effectivePrimaryModel : option LlmModelRead.t :=
  match selectedPrimary with
  | Some model => Some model
  | None => defaultPrimaryModel
  end.

Definition status : RoutingStatus.t :=
  if truthy primaryModelId then RoutingStatus.override
  else if bool_decide (is_Some effectivePrimaryModel) then RoutingStatus.default
  else RoutingStatus.unconfigured.

(** [fallbackModelIds.map((id) => modelsById.get(id) ?? null).filter(...)]:
    the models behind the fallback badges. *)
Definition selectedFallbackModels : list LlmModelRead.t :=
  omap (λ id, modelsById !! id) fallbackModelIds.

Definition modelOptionLabel (model : LlmModelRead.t) : string :=
  LlmModelRead.display_name model ++ " (" ++ LlmModelRead.model_id model ++ ")".

(** The [{ value, label }] options of both selectors. *)
Definition modelOptions : list (string * string) :=
  (λ model, (LlmModelRead.id model, modelOptionLabel model)) <$> modelsForGateway.

Definition hasUnsavedChanges : bool :=
  match agent with
  | None => false
  | Some _ =>
      negb (bool_decide (baselinePrimaryModelId = primaryModelId))
      || negb (stringListsMatch baselineFallbackModelIds fallbackModelIds)
  end.

Definition handleSave : State * list UpdateAgentRequest :=
  match agent with
  | None => (setError st (Some "Agent not found."), [])
  | Some a =>
      if truthy primaryModelId && negb (bool_decide (primaryModelId ∈ availableModelIds))
      then (setError st (Some "Primary model must belong to this gateway catalog."), [])
      else
        (setError st None,
         [ {| request_agentId := AgentRead.id a;
              force := true;
              primary_model_id :=
                if truthy primaryModelId then Some primaryModelId else None;
              fallback_model_ids :=
                if (0 <? Z.of_nat (List.length fallbackModelIds))%Z
                then Some fallbackModelIds else None |} ])
  end.

Definition handleRevert : State :=
  {| primaryModelDraft := None; fallbackModelDraft := None; error := None |}.

(** The "Clear override" button. *)
Definition handleClearOverride : State :=
  {| primaryModelDraft := Some ""; fallbackModelDraft := Some []; error := None |}.

(** [onValueChange] of the primary selector. *)
Definition handlePrimaryChange (value : string) : State :=
  {| primaryModelDraft := Some value;
     fallbackModelDraft :=
       (let source := default baselineFallbackModelIds (fallbackModelDraft st) in
        Some (filter (λ item, item ≠ value) source));
     error := error st |}.

(** [onChange] of the fallback checkbox of option [value]. *)
Definition handleFallbackChange (value : string) (checked : bool) : State :=
  let source := default baselineFallbackModelIds (fallbackModelDraft st) in
  {| primaryModelDraft := primaryModelDraft st;
     fallbackModelDraft :=
       (if checked
        then Some (if bool_decide (value ∈ source) then source else (source ++ [value])%list)
        else Some (filter (λ item, item ≠ value) source));
     error := error st |}.

(** [disabled] of "Save routing" and of "Revert"; [isPending] is
    [updateAgentMutation.isPending]. *)
Definition saveDisabled (isPending : bool) : bool :=
  negb (bool_decide (is_Some agent)) || isPending || negb hasUnsavedChanges.

(** [disabled] of "Clear override". *)
Definition clearDisabled (isPending : bool) : bool :=
  negb (bool_decide (is_Some agent)) || isPending.

(** A click on a button: nothing happens while the button is disabled. *)
Definition clickSave (isPending : bool) : State * list UpdateAgentRequest :=
  if saveDisabled isPending then (st, []) else handleSave.

Definition clickClearOverride (isPending : bool) : State :=
  if clearDisabled isPending then st else handleClearOverride.

End render.

(** What the user can do on the page. *)
Inductive Event :=
| SelectPrimary (value : string)
| ToggleFallback (value : string) (checked : bool)
| ClickSave
| ClickRevert
| ClickClearOverride.

(** Each event runs its handler, also in a state in which the page
    disables the control ([saveDisabled], [clearDisabled]): the sessions of
    the page are among the sessions of [run]. *)
Definition step (agentId : string) (d : Fetched) (st : State) (e : Event)
    : State * list UpdateAgentRequest :=
  match e with
  | SelectPrimary value => (handlePrimaryChange agentId d st value, [])
  | ToggleFallback value checked => (handleFallbackChange agentId d st value checked, [])
  | ClickSave => handleSave agentId d st
  | ClickRevert => (handleRevert, [])
  | ClickClearOverride => (handleClearOverride, [])
  end.

(** A session: the events in order, the requests collected as they go. *)
Fixpoint run (agentId : string) (d : Fetched) (st : State) (events : list Event)
    : State * list UpdateAgentRequest :=
  match events with
  | [] => (st, [])
  | e :: events' =>
      let '(st1, sent1) := step agentId d st e in
      let '(st2, sent2) := run agentId d st1 events' in
      (st2, (sent1 ++ sent2)%list)
  end.

End AgentRoutingEditPage.

(** ** ModelsSyncPage: pull from and push to a gateway *)

Module ModelsSyncPage.

Record State := mkState {
  activeGatewayDraft : option string;
  syncMessage : option string;
}.

Record Fetched := mkFetched {
  gateways : list GatewayRead.t;
  models : list LlmModelRead.t;
  providerAuth : list LlmProviderAuthRead.t;
  agents : list AgentRead.t;
}.

Inductive Request :=
| Pull (gatewayId : string)
| Sync (gatewayId : string).

Definition setSyncMessage (st : State) (value : option string) : State :=
  {| activeGatewayDraft := activeGatewayDraft st; syncMessage := value |}.

Definition syncMutation : MutationOptions State Request :=
  {| onError := Some (λ error st,
       (setSyncMessage st (Some (messageOr error "Gateway sync failed.")), [])) |}.

Definition pullMutation : MutationOptions State Request :=
  {| onError := Some (λ error st,
       (setSyncMessage st (Some (messageOr error "Gateway pull failed.")), [])) |}.

Section render.
Context (d : Fetched) (st : State).

Definition activeGatewayId : string :=
  if truthyOpt (activeGatewayDraft st)
     && someGateway (gateways d) (default "" (activeGatewayDraft st))
  then default "" (activeGatewayDraft st)
  else
    match head (gateways d) with
    | Some gateway => GatewayRead.id gateway
    | None => ""
    end.

(** [gateways.find((gateway) => gateway.id === activeGatewayId) ?? null]. *)
Definition activeGateway : option GatewayRead.t :=
  List.find (λ gateway, bool_decide (GatewayRead.id gateway = activeGatewayId)) (gateways d).

Definition providerCount : nat :=
  List.length
    (filter (λ item, LlmProviderAuthRead.gateway_id item = activeGatewayId) (providerAuth d)).

Definition modelCount : nat :=
  List.length (filter (λ item, LlmModelRead.gateway_id item = activeGatewayId) (models d)).

Definition agentCount : nat :=
  List.length (filter (λ item, AgentRead.gateway_id item = activeGatewayId) (agents d)).

Definition primaryOverrideCount : nat :=
  List.length
    (filter
       (λ item, AgentRead.gateway_id item = activeGatewayId
                ∧ truthyOpt (AgentRead.primary_model_id item) = true)
       (agents d)).

Definition runGatewayPull : State * list Request :=
  if negb (truthy activeGatewayId)
  then (setSyncMessage st (Some "Select a gateway first."), [])
  else (setSyncMessage st None, [Pull activeGatewayId]).

Definition runGatewaySync : State * list Request :=
  if negb (truthy activeGatewayId)
  then (setSyncMessage st (Some "Select a gateway first."), [])
  else (setSyncMessage st None, [Sync activeGatewayId]).




End render.

End ModelsSyncPage.

(** ** The two create/edit forms *)

(** [props]: the form is mounted either to create an entry or to edit the
    entry named by the route parameter. *)
Inductive FormMode :=
| create
| edit (itemId : string).

(** The gateway selection both forms compute while rendering:
    [itemGateway] is [currentItem?.gateway_id] in edit mode, [requested]
    the trimmed [?gateway] query parameter. *)
Definition resolveGatewayId (gateways : list GatewayRead.t)
    (itemGateway : option string) (gatewayDraft : option string)
    (requestedGateway : string) : string :=
  match gateways with
  | [] => ""
  | first :: _ =>
      if truthyOpt itemGateway then default "" itemGateway
      else if truthyOpt gatewayDraft
              && someGateway gateways (default "" gatewayDraft)
      then default "" gatewayDraft
      else if truthy requestedGateway
              && someGateway gateways requestedGateway
      then requestedGateway
      else GatewayRead.id first
  end.

Module CatalogModelFormPage.

Record State := mkState {
  gatewayDraft : option string;
  providerDraft : option string;
  modelIdDraft : option string;
  displayNameDraft : option string;
  settingsDraft : option string;
  error : option string;
}.

(** The list queries and [searchParams.get("gateway")]. *)
Record Fetched := mkFetched {
  gateways : list GatewayRead.t;
  models : list LlmModelRead.t;
  gatewayParam : option string;
}.

Module CreateData.
Record t := mk {
  gateway_id : string;
  provider : string;
  model_id : string;
  display_name : string;
  settings : option JsonValue;
}.
End CreateData.

Module UpdateData.
Record t := mk {
  provider : string;
  model_id : string;
  display_name : string;
  settings : option JsonValue;
}.
End UpdateData.

Inductive Request :=
| CreateModel (data : CreateData.t)
| UpdateModel (modelId : string) (data : UpdateData.t).

Definition setError (st : State) (value : option string) : State :=
  {| gatewayDraft := gatewayDraft st;
     providerDraft := providerDraft st;
     modelIdDraft := modelIdDraft st;
     displayNameDraft := displayNameDraft st;
     settingsDraft := settingsDraft st;
     error := value |}.

Definition createMutation : MutationOptions State Request :=
  {| onError := Some (λ err st,
       (setError st (Some (messageOr err "Unable to create model.")), [])) |}.

Definition updateMutation : MutationOptions State Request :=
  {| onError := Some (λ err st,
       (setError st (Some (messageOr err "Unable to update model.")), [])) |}.

(** What the page reads of the models query besides its rows:
    [modelsQuery.isLoading] and [modelsQuery.data?.status === 200]. Until
    the query has answered with status 200 the rows [models] are empty. *)
Record ModelsQuery := mkModelsQuery {
  isLoading : bool;
  answered : bool;
}.

Section render.
Context `{JsRuntime} (mode : FormMode) (d : Fetched) (st : State).

Definition modelIdParam : option string :=
  match mode with
  | edit modelId => Some modelId
  | create => None
  end.

Definition currentItem : option LlmModelRead.t :=
  match mode with
  | edit modelId =>
      if truthy modelId
      then List.find (λ item, bool_decide (LlmModelRead.id item = modelId)) (models d)
      else None
  | create => None
  end.

Definition requestedGateway : string :=
  match gatewayParam d with
  | Some value => trim value
  | None => ""
  end.

Definition gatewayId : string :=
  resolveGatewayId (gateways d)
    (match mode with
     | edit _ => LlmModelRead.gateway_id <$> currentItem
     | create => None
     end)
    (gatewayDraft st) requestedGateway.

(** [draft ?? (props.mode === "edit" ? (currentItem?.field ?? "") : "")]. *)
Definition fieldValue (draft : option string) (field : LlmModelRead.t → string) : string :=
  match draft with
  | Some value => value
  | None =>
      match mode with
      | edit _ => default "" (field <$> currentItem)
      | create => ""
      end
  end.

Definition provider : string := fieldValue (providerDraft st) LlmModelRead.provider.
Definition modelId : string := fieldValue (modelIdDraft st) LlmModelRead.model_id.
Definition displayName : string := fieldValue (displayNameDraft st) LlmModelRead.display_name.

Definition settingsText : string :=
  match settingsDraft st with
  | Some value => value
  | None =>
      match mode, currentItem ≫= LlmModelRead.settings with
      | edit _, Some entries => JSON_stringify (JObject entries)
      | _, _ => ""
      end
  end.

(** The [settings] block of [handleSubmit]: [None] when the [catch] branch
    runs, otherwise the value of the [settings] variable ([undefined] as
    the inner [None]). *)
Definition submittedSettings : option (option JsonValue) :=
  let normalizedSettings := trim settingsText in
  if truthy normalizedSettings then
    match JSON_parse normalizedSettings with
    | None => None
    | Some parsed =>
        if negb (toBoolean parsed) || negb (typeofObject parsed) || isArray parsed
        then None
        else Some (Some parsed)
    end
  else
    match mode with
    | edit _ => Some (Some (JObject []))
    | create => Some None
    end.

(** [missingEditItem]: in edit mode, once the models query has answered
    without the entry, the page shows "Catalog model entry not found." in
    place of the form. *)
Definition missingEditItem (query : ModelsQuery) : bool :=
  match mode with
  | edit _ =>
      negb (isLoading query) && answered query && negb (bool_decide (is_Some currentItem))
  | create => false
  end.

Definition handleSubmit : State * list Request :=
  if negb (truthy gatewayId) then (setError st (Some "Select a gateway first."), [])
  else
    let normalizedProvider := toLowerCase (trim provider) in
    let normalizedModelId := trim modelId in
    let normalizedDisplayName := trim displayName in
    if negb (truthy normalizedProvider)
       || negb (truthy normalizedModelId)
       || negb (truthy normalizedDisplayName)
    then (setError st (Some "Provider, model ID, and display name are required."), [])
    else
      match submittedSettings with
      | None => (setError st (Some "Settings must be a valid JSON object."), [])
      | Some settings =>
          match mode with
          | create =>
              (setError st None,
               [CreateModel
                  {| CreateData.gateway_id := gatewayId;
                     CreateData.provider := normalizedProvider;
                     CreateData.model_id := normalizedModelId;
                     CreateData.display_name := normalizedDisplayName;
                     CreateData.settings := settings |}])
          | edit modelIdParam =>
              if negb (truthy modelIdParam)
              then (setError (setError st None) (Some "Missing model identifier."), [])
              else
                (setError st None,
                 [UpdateModel modelIdParam
                    {| UpdateData.provider := normalizedProvider;
                       UpdateData.model_id := normalizedModelId;
                       UpdateData.display_name := normalizedDisplayName;
                       UpdateData.settings := settings |}])
          end
      end.

End render.

End CatalogModelFormPage.

Module ProviderAuthFormPage.

Record State := mkState {
  gatewayDraft : option string;
  providerDraft : option string;
  configPathDraft : option string;
  secret : string;
  error : option string;
}.

Record Fetched := mkFetched {
  gateways : list GatewayRead.t;
  providerAuthItems : list LlmProviderAuthRead.t;
  gatewayParam : option string;
}.

Module CreateData.
Record t := mk {
  gateway_id : string;
  provider : string;
  config_path : string;
  secret : string;
}.
End CreateData.

Module UpdateData.
(** [secret] is [undefined] as [None]. *)
Record t := mk {
  provider : string;
  config_path : string;
  secret : option string;
}.
End UpdateData.

Inductive Request :=
| CreateProviderAuth (data : CreateData.t)
| UpdateProviderAuth (providerAuthId : string) (data : UpdateData.t).

Definition setError (st : State) (value : option string) : State :=
  {| gatewayDraft := gatewayDraft st;
     providerDraft := providerDraft st;
     configPathDraft := configPathDraft st;
     secret := secret st;
     error := value |}.

Definition createMutation : MutationOptions State Request :=
  {| onError := Some (λ err st,
       (setError st (Some (messageOr err "Unable to create provider auth entry.")), [])) |}.

Definition updateMutation : MutationOptions State Request :=
  {| onError := Some (λ err st,
       (setError st (Some (messageOr err "Unable to update provider auth entry.")), [])) |}.

Section render.
Context `{JsRuntime} (mode : FormMode) (d : Fetched) (st : State).

Definition providerAuthId : option string :=
  match mode with
  | edit id => Some id
  | create => None
  end.

Definition currentItem : option LlmProviderAuthRead.t :=
  match mode with
  | edit id =>
      if truthy id
      then List.find (λ item, bool_decide (LlmProviderAuthRead.id item = id))
             (providerAuthItems d)
      else None
  | create => None
  end.

Definition requestedGateway : string :=
  match gatewayParam d with
  | Some value => trim value
  | None => ""
  end.

Definition gatewayId : string :=
  resolveGatewayId (gateways d)
    (match mode with
     | edit _ => LlmProviderAuthRead.gateway_id <$> currentItem
     | create => None
     end)
    (gatewayDraft st) requestedGateway.

Definition fieldValue (draft : option string) (field : LlmProviderAuthRead.t → string)
    : string :=
  match draft with
  | Some value => value
  | None =>
      match mode with
      | edit _ => default "" (field <$> currentItem)
      | create => ""
      end
  end.

Definition provider : string := fieldValue (providerDraft st) LlmProviderAuthRead.provider.
Definition configPath : string :=
  fieldValue (configPathDraft st) LlmProviderAuthRead.config_path.

Definition handleSubmit : State * list Request :=
  if negb (truthy gatewayId) then (setError st (Some "Select a gateway first."), [])
  else
    let normalizedProvider := toLowerCase (trim provider) in
    let normalizedConfigPath :=
      if truthy (trim configPath) then trim configPath
      else "providers." ++ normalizedProvider ++ ".apiKey" in
    if negb (truthy normalizedProvider)
    then (setError st (Some "Provider is required."), [])
    else
      match mode with
      | create =>
          let normalizedSecret := trim (secret st) in
          if negb (truthy normalizedSecret)
          then (setError st (Some "Secret is required."), [])
          else
            (setError st None,
             [CreateProviderAuth
                {| CreateData.gateway_id := gatewayId;
                   CreateData.provider := normalizedProvider;
                   CreateData.config_path := normalizedConfigPath;
                   CreateData.secret := normalizedSecret |}])
      | edit providerAuthId =>
          if negb (truthy providerAuthId)
          then (setError st (Some "Missing provider auth identifier."), [])
          else
            (setError st None,
             [UpdateProviderAuth providerAuthId
                {| UpdateData.provider := normalizedProvider;
                   UpdateData.config_path := normalizedConfigPath;
                   UpdateData.secret :=
                     if truthy (trim (secret st)) then Some (trim (secret st)) else None |}])
      end.

End render.

End ProviderAuthFormPage.

(** ** The edit routes *)

(** A dynamic segment as [useParams()] hands it over: missing, one string,
    or an array of strings. *)
Inductive RouteParam :=
| NoParam
| OneParam (value : string)
| ManyParams (values : list string).

(** [Array.isArray(param) ? param[0] : param], then [?? ""]. *)
Definition routeId (param : RouteParam) : string :=
  default ""
    (match param with
     | NoParam => None
     | OneParam value => Some value
     | ManyParams values => head values
     end).

(** [ModelsProviderAuthEditPage] and [ModelsCatalogEditPage] mount their
    form in edit mode on the identifier of the route;
    [ModelsRoutingEditPageWrapper] mounts the routing editor on it. *)
Definition ModelsProviderAuthEditPage (providerAuthIdParam : RouteParam) : FormMode :=
  edit (routeId providerAuthIdParam).

Definition ModelsCatalogEditPage (modelIdParam : RouteParam) : FormMode :=
  edit (routeId modelIdParam).

Definition ModelsRoutingEditPageWrapper (agentIdParam : RouteParam) : string :=
  routeId agentIdParam.

(** * Vocabulary of the properties *)

(** ** Sorted tables (C5) *)

(** The conditions under which [Array.prototype.sort] promises a sorted
    result: the comparator's sign is antisymmetric and "not after" is
    transitive. *)
Record Consistent {A : Type} (cmp : A → A → Z) : Prop := {
  consistent_sym : ∀ a b, (cmp a b < 0 ↔ 0 < cmp b a)%Z;
  consistent_trans : ∀ a b c, (cmp a b ≤ 0 → cmp b c ≤ 0 → cmp a c ≤ 0)%Z;
}.

(** The shape shared by the three table comparators: the column decides,
    a tie falls through to the name, and the direction applies to both. *)
Definition tableCompare {A : Type} (direction : SortDirection)
    (base fallback : A → A → Z) (left right : A) : Z :=
  if bool_decide (base left right ≠ 0%Z)
  then ModelsWorkspace.directed direction (base left right)
  else ModelsWorkspace.directed direction (fallback left right).

(** A table column as a user reads it: text columns are compared
    case-insensitively by locale, number columns by their difference. *)
Inductive Column (A : Type) :=
| TextColumn (value : A → string)
| NumberColumn (value : A → Z).
Arguments TextColumn {A} _.
Arguments NumberColumn {A} _.

Definition columnCompare `{JsRuntime} {A : Type} (column : Column A) (left right : A) : Z :=
  match column with
  | TextColumn value => localeCompare (toLowerCase (value left)) (toLowerCase (value right))
  | NumberColumn value => (value left - value right)%Z
  end.

(** [left] may stand before [right] in a table sorted on [column] in
    [direction], ties broken on [tieName] in the same direction. *)
Definition OrderedBy `{JsRuntime} {A : Type} (direction : SortDirection)
    (column : Column A) (tieName : A → string) (left right : A) : Prop :=
  match direction with
  | asc =>
      (columnCompare column left right < 0)%Z
      ∨ (columnCompare column left right = 0%Z
         ∧ (localeCompare (tieName left) (tieName right) ≤ 0)%Z)
  | desc =>
      (0 < columnCompare column left right)%Z
      ∨ (columnCompare column left right = 0%Z
         ∧ (0 ≤ localeCompare (tieName left) (tieName right))%Z)
  end.

(** The name a table shows for a gateway id: the name of the fetched
    gateway with that id, of the last one fetched when several share the
    id, and "Unknown gateway" when none has it. *)
Definition gatewayLabel (gateways : list GatewayRead.t) (gateway_id : string) : string :=
  match last (filter (λ gateway, GatewayRead.id gateway = gateway_id) gateways) with
  | Some gateway => GatewayRead.name gateway
  | None => "Unknown gateway"
  end.

(** The instant a time stamp denotes, in milliseconds since the epoch, and
    0 for a stamp that denotes none. *)
Definition instantOf `{JsRuntime} (stamp : string) : Z :=
  match Date_getTime stamp with
  | Some millis => millis
  | None => 0%Z
  end.

(** The columns of the provider auth table: the gateway's name, the
    provider, the config path, whether a secret is stored (1 or 0), and
    the instant of the last update. *)
Definition providerColumn `{JsRuntime} (d : ModelsWorkspace.Fetched)
    (key : ModelsWorkspace.ProviderSortKey.t) : Column LlmProviderAuthRead.t :=
  match key with
  | ModelsWorkspace.ProviderSortKey.gateway =>
      TextColumn (λ row, gatewayLabel (ModelsWorkspace.gateways d)
                           (LlmProviderAuthRead.gateway_id row))
  | ModelsWorkspace.ProviderSortKey.provider => TextColumn LlmProviderAuthRead.provider
  | ModelsWorkspace.ProviderSortKey.config_path => TextColumn LlmProviderAuthRead.config_path
  | ModelsWorkspace.ProviderSortKey.secret =>
      NumberColumn (λ row, if LlmProviderAuthRead.has_secret row then 1 else 0)%Z
  | ModelsWorkspace.ProviderSortKey.updated =>
      NumberColumn (λ row, instantOf (LlmProviderAuthRead.updated_at row))
  end.

(** The columns of the model catalog table: the gateway's name, the
    display name, the model id, the provider, the number of settings keys,
    and the instant of the last update. *)
Definition modelColumn `{JsRuntime} (d : ModelsWorkspace.Fetched)
    (key : ModelsWorkspace.ModelSortKey.t) : Column LlmModelRead.t :=
  match key with
  | ModelsWorkspace.ModelSortKey.gateway =>
      TextColumn (λ row, gatewayLabel (ModelsWorkspace.gateways d)
                           (LlmModelRead.gateway_id row))
  | ModelsWorkspace.ModelSortKey.display_name => TextColumn LlmModelRead.display_name
  | ModelsWorkspace.ModelSortKey.model_id => TextColumn LlmModelRead.model_id
  | ModelsWorkspace.ModelSortKey.provider => TextColumn LlmModelRead.provider
  | ModelsWorkspace.ModelSortKey.settings =>
      NumberColumn (λ row, Z.of_nat (List.length (default [] (LlmModelRead.settings row))))
  | ModelsWorkspace.ModelSortKey.updated =>
      NumberColumn (λ row, instantOf (LlmModelRead.updated_at row))
  end.

Definition routingColumn (key : ModelsWorkspace.RoutingSortKey.t)
    : Column ModelsWorkspace.RoutingRow :=
  match key with
  | ModelsWorkspace.RoutingSortKey.agent =>
      TextColumn (λ row, AgentRead.name (ModelsWorkspace.agent row))
  | ModelsWorkspace.RoutingSortKey.role => TextColumn ModelsWorkspace.role
  | ModelsWorkspace.RoutingSortKey.gateway => TextColumn ModelsWorkspace.gatewayName
  | ModelsWorkspace.RoutingSortKey.board =>
      TextColumn (λ row, default "Gateway main" (BoardRead.name <$> ModelsWorkspace.board row))
  | ModelsWorkspace.RoutingSortKey.primary =>
      TextColumn (λ row,
        default "" (LlmModelRead.display_name <$>
                      (match ModelsWorkspace.primary row with
                       | Some model => Some model
                       | None => ModelsWorkspace.effectivePrimary row
                       end)))
  | ModelsWorkspace.RoutingSortKey.status =>
      TextColumn (λ row, RoutingStatus.routingStatusLabel (ModelsWorkspace.status row))
  end.

(** ** Routing on the table and on the edit page (C1, C2) *)

(** What the REST API answers to the list queries. Pages rendered from the
    same answers see the same lists. *)
Record Backend := mkBackend {
  api_gateways : list GatewayRead.t;
  api_boards : list BoardRead.t;
  api_models : list LlmModelRead.t;
  api_providerAuth : list LlmProviderAuthRead.t;
  api_agents : list AgentRead.t;
}.

Definition workspaceFetched (api : Backend) : ModelsWorkspace.Fetched :=
  {| ModelsWorkspace.gateways := api_gateways api;
     ModelsWorkspace.models := api_models api;
     ModelsWorkspace.boards := api_boards api;
     ModelsWorkspace.providerAuth := api_providerAuth api;
     ModelsWorkspace.agents := api_agents api |}.

Definition routingEditFetched (api : Backend) : AgentRoutingEditPage.Fetched :=
  {| AgentRoutingEditPage.agents := api_agents api;
     AgentRoutingEditPage.boards := api_boards api;
     AgentRoutingEditPage.gateways := api_gateways api;
     AgentRoutingEditPage.models := api_models api |}.

Definition syncFetched (api : Backend) : ModelsSyncPage.Fetched :=
  {| ModelsSyncPage.gateways := api_gateways api;
     ModelsSyncPage.models := api_models api;
     ModelsSyncPage.providerAuth := api_providerAuth api;
     ModelsSyncPage.agents := api_agents api |}.

(** The effective primary model the routing table shows for [agent]. *)
Definition tableEffectivePrimary `{JsRuntime} (api : Backend) (agent : AgentRead.t)
    : option LlmModelRead.t :=
  ModelsWorkspace.effectivePrimary (ModelsWorkspace.routingRow (workspaceFetched api) agent).

Definition tableStatus `{JsRuntime} (api : Backend) (agent : AgentRead.t) : RoutingStatus.t :=
  ModelsWorkspace.status (ModelsWorkspace.routingRow (workspaceFetched api) agent).

(** What the routing edit page of [agentId] shows when it opens. *)
Definition editEffectivePrimary (api : Backend) (agentId : string) : option LlmModelRead.t :=
  AgentRoutingEditPage.effectivePrimaryModel agentId (routingEditFetched api)
    AgentRoutingEditPage.initialState.

Definition editStatus (api : Backend) (agentId : string) : RoutingStatus.t :=
  AgentRoutingEditPage.status agentId (routingEditFetched api)
    AgentRoutingEditPage.initialState.

(** [model] is a catalog model that [reference] names. *)
Definition Referenced (models : list LlmModelRead.t) (reference : option string)
    (model : LlmModelRead.t) : Prop :=
  model ∈ models ∧ reference = Some (LlmModelRead.id model).

Definition OfGateway (models : list LlmModelRead.t) (gateway_id : string)
    (model : LlmModelRead.t) : Prop :=
  model ∈ models ∧ LlmModelRead.gateway_id model = gateway_id.

(** [model] is a catalog model of the gateway with the smallest
    [created_at], compared as strings. *)
Definition EarliestCreated `{JsRuntime} (models : list LlmModelRead.t) (gateway_id : string)
    (model : LlmModelRead.t) : Prop :=
  OfGateway models gateway_id model
  ∧ ∀ other, OfGateway models gateway_id other →
      (localeCompare (LlmModelRead.created_at model) (LlmModelRead.created_at other) ≤ 0)%Z.

(** A page shows an overriding model when there is one, and otherwise
    what [Default] allows. *)
Definition Shows (Override : LlmModelRead.t → Prop)
    (Default : option LlmModelRead.t → Prop) (shown : option LlmModelRead.t) : Prop :=
  ((∃ model, Override model) → ∃ model, shown = Some model ∧ Override model)
  ∧ ((¬ ∃ model, Override model) → Default shown).

(** The gateway default in its general form: the earliest-created catalog
    model of the gateway, none when the gateway has no catalog model. *)
Definition EarliestDefault `{JsRuntime} (models : list LlmModelRead.t) (gateway_id : string)
    (shown : option LlmModelRead.t) : Prop :=
  match shown with
  | Some model => EarliestCreated models gateway_id model
  | None => ∀ model, ¬ OfGateway models gateway_id model
  end.

(** C1 in its general form: the referenced catalog model when there is
    one, else the earliest-created model of the agent's gateway. *)
Definition EffectivePrimary `{JsRuntime} (models : list LlmModelRead.t) (agent : AgentRead.t)
    (shown : option LlmModelRead.t) : Prop :=
  Shows (Referenced models (AgentRead.primary_model_id agent))
        (EarliestDefault models (AgentRead.gateway_id agent))
        shown.

(** The routing table: a reference counts when it is a non-empty id. *)
Definition TableEffectivePrimary `{JsRuntime} (models : list LlmModelRead.t)
    (agent : AgentRead.t) (shown : option LlmModelRead.t) : Prop :=
  Shows (λ model, Referenced models (AgentRead.primary_model_id agent) model
                  ∧ LlmModelRead.id model ≠ "")
        (EarliestDefault models (AgentRead.gateway_id agent))
        shown.

(** The edit page: a reference counts when it names a model of the agent's
    own, non-empty, gateway; the default is a catalog model of that
    gateway, the earliest-created one when the gateway's models were
    fetched in [created_at] order. *)
Definition EditEffectivePrimary `{JsRuntime} (models : list LlmModelRead.t)
    (agent : AgentRead.t) (shown : option LlmModelRead.t) : Prop :=
  Shows (λ model, Referenced models (AgentRead.primary_model_id agent) model
                  ∧ LlmModelRead.id model ≠ ""
                  ∧ LlmModelRead.gateway_id model = AgentRead.gateway_id agent
                  ∧ AgentRead.gateway_id agent ≠ "")
        (λ shown,
           match shown with
           | Some model =>
               OfGateway models (AgentRead.gateway_id agent) model
               ∧ AgentRead.gateway_id agent ≠ ""
               ∧ (StronglySorted
                    (λ a b, (localeCompare (LlmModelRead.created_at a)
                                           (LlmModelRead.created_at b) ≤ 0)%Z)
                    (filter (λ m, LlmModelRead.gateway_id m = AgentRead.gateway_id agent) models)
                  → EarliestCreated models (AgentRead.gateway_id agent) model)
           | None =>
               AgentRead.gateway_id agent = ""
               ∨ ∀ model, ¬ OfGateway models (AgentRead.gateway_id agent) model
           end)
        shown.

(** C2 in its general form. The third status is what remains. *)
Definition RoutingStatusOf (models : list LlmModelRead.t) (agent : AgentRead.t)
    (status : RoutingStatus.t) : Prop :=
  (status = RoutingStatus.override
   ↔ ∃ model, Referenced models (AgentRead.primary_model_id agent) model)
  ∧ (status = RoutingStatus.default
     ↔ (¬ ∃ model, Referenced models (AgentRead.primary_model_id agent) model)
       ∧ ∃ model, OfGateway models (AgentRead.gateway_id agent) model).

(** The agents whose routing lies in their own gateway: a
    primary_model_id that references a catalog model is not the empty
    string and references a model of the agent's gateway, and the agent's
    gateway id is not the empty string when a catalog model carries it. *)
Definition RoutedInOwnGateway (models : list LlmModelRead.t) (agent : AgentRead.t) : Prop :=
  ((∃ model, Referenced models (AgentRead.primary_model_id agent) model) →
   AgentRead.primary_model_id agent ≠ Some ""
   ∧ ∃ model, Referenced models (AgentRead.primary_model_id agent) model
              ∧ LlmModelRead.gateway_id model = AgentRead.gateway_id agent)
  ∧ ((∃ model, OfGateway models (AgentRead.gateway_id agent) model) →
     AgentRead.gateway_id agent ≠ "").

(** ** Sessions on the routing edit page (C3, C4) *)

Section routing_sessions.
Context (agentId : string) (d : AgentRoutingEditPage.Fetched).

(** The page state after a session that starts from the freshly mounted
    page, and the requests the session issued. *)
Definition stateAfter (events : list AgentRoutingEditPage.Event) : AgentRoutingEditPage.State :=
  (AgentRoutingEditPage.run agentId d AgentRoutingEditPage.initialState events).1.

Definition requestsOf (events : list AgentRoutingEditPage.Event)
    : list AgentRoutingEditPage.UpdateAgentRequest :=
  (AgentRoutingEditPage.run agentId d AgentRoutingEditPage.initialState events).2.

End routing_sessions.

(** What C4 asks of a save request for agent [a]. *)
Definition WellFormedSave (d : AgentRoutingEditPage.Fetched) (a : AgentRead.t)
    (request : AgentRoutingEditPage.UpdateAgentRequest) : Prop :=
  (AgentRoutingEditPage.primary_model_id request = None
   ∨ ∃ model,
       OfGateway (AgentRoutingEditPage.models d) (AgentRead.gateway_id a) model
       ∧ AgentRoutingEditPage.primary_model_id request = Some (LlmModelRead.id model))
  ∧ (AgentRoutingEditPage.fallback_model_ids request = None
     ∨ ∃ ids,
         AgentRoutingEditPage.fallback_model_ids request = Some ids
         ∧ ids ≠ []
         ∧ NoDup ids
         ∧ ∀ id, id ∈ ids →
             (∃ model,
                OfGateway (AgentRoutingEditPage.models d) (AgentRead.gateway_id a) model
                ∧ LlmModelRead.id model = id)
             ∧ AgentRoutingEditPage.primary_model_id request ≠ Some id).

(** ** Counting by gateway (C6) *)

(** The number of entries of [l] that satisfy [P]. *)
Fixpoint numberOf {A : Type} (P : A → Prop) `{∀ x, Decision (P x)} (l : list A) : nat :=
  match l with
  | [] => 0
  | x :: l' => (if decide (P x) then 1 else 0) + numberOf P l'
  end.

(** ** The forms (C8, C9) *)

Section catalog_form_terms.
Context `{JsRuntime} (mode : FormMode) (d : CatalogModelFormPage.Fetched)
  (st : CatalogModelFormPage.State).

(** The settings text is blank or parses as a JSON object. *)
Definition SettingsAcceptable : Prop :=
  trim (CatalogModelFormPage.settingsText mode d st) = ""
  ∨ ∃ entries,
      JSON_parse (trim (CatalogModelFormPage.settingsText mode d st)) = Some (JObject entries).

(** The conditions C8 lists for a request to go out. *)
Definition Submittable : Prop :=
  CatalogModelFormPage.gatewayId mode d st ≠ ""
  ∧ trim (CatalogModelFormPage.provider mode d st) ≠ ""
  ∧ trim (CatalogModelFormPage.modelId mode d st) ≠ ""
  ∧ trim (CatalogModelFormPage.displayName mode d st) ≠ ""
  ∧ SettingsAcceptable.

(** The settings C8 says are submitted: the parsed object, or for a blank
    text the empty object in edit mode and nothing in create mode. *)
Definition expectedSettings : option JsonValue :=
  if decide (trim (CatalogModelFormPage.settingsText mode d st) = "")
  then match mode with
       | edit _ => Some (JObject [])
       | create => None
       end
  else JSON_parse (trim (CatalogModelFormPage.settingsText mode d st)).

Definition expectedRequest : CatalogModelFormPage.Request :=
  match mode with
  | create =>
      CatalogModelFormPage.CreateModel
        {| CatalogModelFormPage.CreateData.gateway_id := CatalogModelFormPage.gatewayId mode d st;
           CatalogModelFormPage.CreateData.provider :=
             toLowerCase (trim (CatalogModelFormPage.provider mode d st));
           CatalogModelFormPage.CreateData.model_id :=
             trim (CatalogModelFormPage.modelId mode d st);
           CatalogModelFormPage.CreateData.display_name :=
             trim (CatalogModelFormPage.displayName mode d st);
           CatalogModelFormPage.CreateData.settings := expectedSettings |}
  | edit modelId =>
      CatalogModelFormPage.UpdateModel modelId
        {| CatalogModelFormPage.UpdateData.provider :=
             toLowerCase (trim (CatalogModelFormPage.provider mode d st));
           CatalogModelFormPage.UpdateData.model_id :=
             trim (CatalogModelFormPage.modelId mode d st);
           CatalogModelFormPage.UpdateData.display_name :=
             trim (CatalogModelFormPage.displayName mode d st);
           CatalogModelFormPage.UpdateData.settings := expectedSettings |}
  end.

End catalog_form_terms.

Section provider_auth_form_terms.
Context `{JsRuntime} (mode : FormMode) (d : ProviderAuthFormPage.Fetched)
  (st : ProviderAuthFormPage.State).

(** The config path C9 says is submitted. *)
Definition expectedConfigPath : string :=
  if decide (trim (ProviderAuthFormPage.configPath mode d st) = "")
  then "providers." ++ toLowerCase (trim (ProviderAuthFormPage.provider mode d st)) ++ ".apiKey"
  else trim (ProviderAuthFormPage.configPath mode d st).

End provider_auth_form_terms.

(** ** Gateway selection (C10) *)

(** [id] is the id of a fetched gateway. *)
Definition Names (gateways : list GatewayRead.t) (id : string) : Prop :=
  ∃ gateway, gateway ∈ gateways ∧ GatewayRead.id gateway = id.

(** [value] holds the non-empty id [id]. *)
Definition Present (value : option string) (id : string) : Prop :=
  value = Some id ∧ id ≠ "".

Definition Absent (value : option string) : Prop := ∀ id, ¬ Present value id.

Definition Matching (gateways : list GatewayRead.t) (value : option string) (id : string)
    : Prop :=
  Present value id ∧ Names gateways id.

(** The order of precedence C10 describes: the edited item's gateway, a
    matching draft, a matching query parameter, the first gateway; the
    empty string when no gateway was fetched. *)
Definition GatewayChoice (gateways : list GatewayRead.t) (itemGateway draft : option string)
    (requested : string) (result : string) : Prop :=
  match gateways with
  | [] => result = ""
  | first :: _ =>
      Present itemGateway result
      ∨ (Absent itemGateway
         ∧ (Matching gateways draft result
            ∨ ((∀ id, ¬ Matching gateways draft id)
               ∧ (Matching gateways (Some requested) result
                  ∨ ((¬ Matching gateways (Some requested) requested)
                     ∧ result = GatewayRead.id first)))))
  end.

(** ** Stored routing and the editor *)

(** A primary id and a fallback list that the editor of agent [agentId]
    would send back unchanged: the primary is empty or an id of the
    gateway's catalog, the fallbacks are ids of that catalog, without
    duplicates and without the primary. *)
Definition NormalizedRouting (agentId : string) (d : AgentRoutingEditPage.Fetched)
    (primary : string) (fallbacks : list string) : Prop :=
  (primary = "" ∨ primary ∈ AgentRoutingEditPage.availableModelIds agentId d)
  ∧ NoDup fallbacks
  ∧ ∀ id, id ∈ fallbacks →
      id ≠ primary ∧ id ∈ AgentRoutingEditPage.availableModelIds agentId d.

(** ** Submitting a form *)

(** What every submit handler leaves behind: a message and no request, or
    a cleared message and one request; [setError] is the page's setter. *)
Definition ErrorOrOneRequest {State Request : Type}
    (setError : State → option string → State) (st : State)
    (result : State * list Request) : Prop :=
  (∃ message, result = (setError st (Some message), []))
  ∨ (∃ request, result = (setError st None, [request])).

Section provider_auth_form_conditions.
Context `{JsRuntime} (mode : FormMode) (d : ProviderAuthFormPage.Fetched)
  (st : ProviderAuthFormPage.State).

(** The checks of the provider auth form, in the order it makes them. *)
Definition ProviderAuthSubmittable : Prop :=
  ProviderAuthFormPage.gatewayId mode d st ≠ ""
  ∧ trim (ProviderAuthFormPage.provider mode d st) ≠ ""
  ∧ match mode with
    | create => trim (ProviderAuthFormPage.secret st) ≠ ""
    | edit providerAuthId => providerAuthId ≠ ""
    end.

Definition expectedProviderAuthRequest : ProviderAuthFormPage.Request :=
  match mode with
  | create =>
      ProviderAuthFormPage.CreateProviderAuth
        {| ProviderAuthFormPage.CreateData.gateway_id :=
             ProviderAuthFormPage.gatewayId mode d st;
           ProviderAuthFormPage.CreateData.provider :=
             toLowerCase (trim (ProviderAuthFormPage.provider mode d st));
           ProviderAuthFormPage.CreateData.config_path := expectedConfigPath mode d st;
           ProviderAuthFormPage.CreateData.secret := trim (ProviderAuthFormPage.secret st) |}
  | edit providerAuthId =>
      ProviderAuthFormPage.UpdateProviderAuth providerAuthId
        {| ProviderAuthFormPage.UpdateData.provider :=
             toLowerCase (trim (ProviderAuthFormPage.provider mode d st));
           ProviderAuthFormPage.UpdateData.config_path := expectedConfigPath mode d st;
           ProviderAuthFormPage.UpdateData.secret :=
             if decide (trim (ProviderAuthFormPage.secret st) = "") then None
             else Some (trim (ProviderAuthFormPage.secret st)) |}
  end.

End provider_auth_form_conditions.

(** ** Rows a table cannot tell apart *)

(** [left] and [right] agree on the sorted column and on the tie-break
    name, so that neither direction orders them. *)
Definition Tied `{JsRuntime} {A : Type} (column : Column A) (tieName : A → string)
    (left right : A) : Prop :=
  columnCompare column left right = 0%Z
  ∧ localeCompare (tieName left) (tieName right) = 0%Z.

#[global] Instance Tied_dec `{JsRuntime} {A : Type} (column : Column A)
    (tieName : A → string) (left right : A) : Decision (Tied column tieName left right).
Proof. unfold Tied. apply _. Defined.

(** [model] is the first fetched among the models of the gateway created
    at the same instant as itself. *)
Definition FirstOfItsInstant `{JsRuntime} (models : list LlmModelRead.t)
    (gateway_id : string) (model : LlmModelRead.t) : Prop :=
  head (filter (λ other, LlmModelRead.gateway_id other = gateway_id
                         ∧ localeCompare (LlmModelRead.created_at model)
                             (LlmModelRead.created_at other) = 0%Z) models)
  = Some model.

(** ** Reading back stored settings *)

(** The runtime reads back the text it prints for the stored settings of
    [item]; for an entry without settings, the empty text stays empty when
    trimmed. *)
Definition SettingsReadBack `{JsRuntime} (item : LlmModelRead.t) : Prop :=
  match LlmModelRead.settings item with
  | Some entries =>
      trim (JSON_stringify (JObject entries)) ≠ ""
      ∧ JSON_parse (trim (JSON_stringify (JObject entries))) = Some (JObject entries)
  | None => trim "" = ""
  end.

(** * A reference runtime for the examples
    The properties below hold for every [JsRuntime]. To run the pages on
    concrete data the examples use this instance. It stands in for the
    engine on the sample data and is not the engine elsewhere:
    [codeUnitCompare] orders strings by code unit, where the engine's
    [localeCompare] collates by locale (it puts "a" before "B", code units
    do not); [lower] lowers the letters [A-Z] only and [trimBoth] removes
    ASCII white space only; [isoTime] reads stamps of the form
    [YYYY-MM-DDTHH:MM:SSZ] and no other form the engine reads;
    [parseJson] reads JSON without fractions, exponents and string
    escapes and rejects texts with them, which the engine accepts; and
    [stringifyAt] prints integers only. *)

Module AsciiRuntime.

Definition code (c : ascii) : Z := Z.of_N (N_of_ascii c).

Fixpoint codeUnitCompare (a b : string) : Z :=
  match a, b with
  | EmptyString, EmptyString => 0%Z
  | EmptyString, String _ _ => (-1)%Z
  | String _ _, EmptyString => 1%Z
  | String x a', String y b' =>
      if (code x - code y =? 0)%Z then codeUnitCompare a' b' else (code x - code y)%Z
  end.

Definition lowerChar (c : ascii) : ascii :=
  if ((65 <=? code c) && (code c <=? 90))%Z
  then ascii_of_N (N_of_ascii c + 32)
  else c.

Fixpoint lower (s : string) : string :=
  match s with
  | EmptyString => EmptyString
  | String c s' => String (lowerChar c) (lower s')
  end.

Definition isSpace (c : ascii) : bool :=
  ((9 <=? code c) && (code c <=? 13))%Z || (code c =? 32)%Z.

Fixpoint trimStart (s : string) : string :=
  match s with
  | EmptyString => EmptyString
  | String c s' => if isSpace c then trimStart s' else s
  end.

Definition reverseString (s : string) : string :=
  string_of_list_ascii (List.rev (list_ascii_of_string s)).

Definition trimBoth (s : string) : string :=
  reverseString (trimStart (reverseString (trimStart s))).

(** *** Timestamps *)

Definition digit (c : ascii) : option Z :=
  if ((48 <=? code c) && (code c <=? 57))%Z then Some (code c - 48)%Z else None.

Fixpoint digitsFrom (acc : Z) (chars : list ascii) : option Z :=
  match chars with
  | [] => Some acc
  | c :: chars' =>
      match digit c with
      | Some v => digitsFrom (acc * 10 + v)%Z chars'
      | None => None
      end
  end.

(** An unsigned decimal field of the given width. *)
Definition field (width : nat) (chars : list ascii) : option (Z * list ascii) :=
  if bool_decide (List.length (take width chars) = width)
  then (λ v, (v, drop width chars)) <$> digitsFrom 0%Z (take width chars)
  else None.

Definition expect (c : ascii) (chars : list ascii) : option (list ascii) :=
  match chars with
  | c' :: chars' => if bool_decide (c' = c) then Some chars' else None
  | [] => None
  end.

(** Days between 1970-01-01 and the given civil date. *)
Definition daysFromCivil (y m d : Z) : Z :=
  let y' := (if m <=? 2 then y - 1 else y)%Z in
  let era := (y' / 400)%Z in
  let yoe := (y' - era * 400)%Z in
  let doy := ((153 * (m + (if 2 <? m then -3 else 9)) + 2) / 5 + d - 1)%Z in
  let doe := (yoe * 365 + yoe / 4 - yoe / 100 + doy)%Z in
  (era * 146097 + doe - 719468)%Z.

Definition isoTime (s : string) : option Z :=
  '(y, r) ← field 4 (list_ascii_of_string s);
  r ← expect "-"%char r;
  '(m, r) ← field 2 r;
  r ← expect "-"%char r;
  '(d, r) ← field 2 r;
  r ← expect "T"%char r;
  '(hh, r) ← field 2 r;
  r ← expect ":"%char r;
  '(mm, r) ← field 2 r;
  r ← expect ":"%char r;
  '(ss, r) ← field 2 r;
  r ← expect "Z"%char r;
  if bool_decide (r = [])
     && (1 <=? m)%Z && (m <=? 12)%Z && (1 <=? d)%Z && (d <=? 31)%Z
     && (hh <=? 23)%Z && (mm <=? 59)%Z && (ss <=? 59)%Z
  then Some ((((daysFromCivil y m d * 24 + hh) * 60 + mm) * 60 + ss) * 1000)%Z
  else None.

(** *** JSON without fractions, exponents and string escapes *)

Definition quote : ascii := ascii_of_N 34.

Fixpoint skipSpace (chars : list ascii) : list ascii :=
  match chars with
  | c :: chars' => if isSpace c then skipSpace chars' else chars
  | [] => []
  end.

Fixpoint expectAll (word chars : list ascii) : option (list ascii) :=
  match word with
  | [] => Some chars
  | c :: word' => expect c chars ≫= expectAll word'
  end.

(** The characters up to the closing quote. *)
Fixpoint stringBody (chars : list ascii) : option (list ascii * list ascii) :=
  match chars with
  | [] => None
  | c :: chars' =>
      if bool_decide (c = quote) then Some ([], chars')
      else if bool_decide (c = "\"%char) || (code c <? 32)%Z then None
      else (λ '(body, rest), (c :: body, rest)) <$> stringBody chars'
  end.

Fixpoint spanDigits (chars : list ascii) : list ascii * list ascii :=
  match chars with
  | c :: chars' =>
      if bool_decide (is_Some (digit c))
      then let '(ds, rest) := spanDigits chars' in (c :: ds, rest)
      else ([], chars)
  | [] => ([], [])
  end.

(** [0] or a digit string without a leading zero. *)
Definition natural (chars : list ascii) : option (Z * list ascii) :=
  match spanDigits chars with
  | ([], _) => None
  | (d :: ds, rest) =>
      if bool_decide (d = "0"%char) && negb (bool_decide (ds = [])) then None
      else (λ v, (v, rest)) <$> digitsFrom 0%Z (d :: ds)
  end.

Fixpoint value (fuel : nat) (chars : list ascii) : option (JsonValue * list ascii) :=
  match fuel with
  | O => None
  | S fuel' =>
      match skipSpace chars with
      | [] => None
      | c :: rest =>
          if bool_decide (c = "n"%char) then
            (λ r, (JNull, r)) <$> expectAll (list_ascii_of_string "ull") rest
          else if bool_decide (c = "t"%char) then
            (λ r, (JBool true, r)) <$> expectAll (list_ascii_of_string "rue") rest
          else if bool_decide (c = "f"%char) then
            (λ r, (JBool false, r)) <$> expectAll (list_ascii_of_string "alse") rest
          else if bool_decide (c = quote) then
            (λ '(body, r), (JString (string_of_list_ascii body), r)) <$> stringBody rest
          else if bool_decide (c = "-"%char) then
            (λ '(v, r), (JNumber (inject_Z (- v)), r)) <$> natural rest
          else if bool_decide (c = "["%char) then
            match skipSpace rest with
            | c' :: rest' =>
                if bool_decide (c' = "]"%char) then Some (JArray [], rest')
                else (λ '(vs, r), (JArray vs, r)) <$> items fuel' rest
            | [] => None
            end
          else if bool_decide (c = "{"%char) then
            match skipSpace rest with
            | c' :: rest' =>
                if bool_decide (c' = "}"%char) then Some (JObject [], rest')
                else (λ '(ms, r), (JObject ms, r)) <$> members fuel' rest
            | [] => None
            end
          else (λ '(v, r), (JNumber (inject_Z v), r)) <$> natural (c :: rest)
      end
  end
with items (fuel : nat) (chars : list ascii) : option (list JsonValue * list ascii) :=
  match fuel with
  | O => None
  | S fuel' =>
      '(v, rest) ← value fuel' chars;
      match skipSpace rest with
      | c :: rest' =>
          if bool_decide (c = "]"%char) then Some ([v], rest')
          else if bool_decide (c = ","%char)
          then (λ '(vs, r), (v :: vs, r)) <$> items fuel' rest'
          else None
      | [] => None
      end
  end
with members (fuel : nat) (chars : list ascii)
    : option (list (string * JsonValue) * list ascii) :=
  match fuel with
  | O => None
  | S fuel' =>
      rest ← expect quote (skipSpace chars);
      '(key, rest) ← stringBody rest;
      rest ← expect ":"%char (skipSpace rest);
      '(v, rest) ← value fuel' rest;
      match skipSpace rest with
      | c :: rest' =>
          if bool_decide (c = "}"%char) then Some ([(string_of_list_ascii key, v)], rest')
          else if bool_decide (c = ","%char)
          then (λ '(ms, r), ((string_of_list_ascii key, v) :: ms, r)) <$> members fuel' rest'
          else None
      | [] => None
      end
  end.

(** The whole text must be one value. Every step of the parser consumes a
    character, so the length of the text is fuel enough. *)
Definition parseJson (s : string) : option JsonValue :=
  let chars := list_ascii_of_string s in
  match value (S (List.length chars)) chars with
  | Some (v, rest) => if bool_decide (skipSpace rest = []) then Some v else None
  | None => None
  end.

Definition newline : string := String (ascii_of_N 10) EmptyString.

Definition quoted (s : string) : string :=
  String quote EmptyString ++ s ++ String quote EmptyString.

Fixpoint spaces (n : nat) : string :=
  match n with
  | O => ""
  | S n' => " " ++ spaces n'
  end.

(** The layout of [JSON.stringify(v, null, 2)] from the given indentation,
    for values whose numbers are integers and whose strings need no
    escape. A number that is not an integer prints as [null] here, unlike
    in the engine. *)
Fixpoint stringifyAt (indent : nat) (v : JsonValue) : string :=
  match v with
  | JNull => "null"
  | JBool b => if b then "true" else "false"
  | JNumber q => if (Qden q =? 1)%positive then pretty (Qnum q) else "null"
  | JString s => quoted s
  | JArray [] => "[]"
  | JArray (x :: xs) =>
      "[" ++ newline ++ spaces (indent + 2) ++ stringifyAt (indent + 2) x
      ++ (fix rest (l : list JsonValue) : string :=
            match l with
            | [] => ""
            | y :: l' =>
                "," ++ newline ++ spaces (indent + 2) ++ stringifyAt (indent + 2) y
                ++ rest l'
            end) xs
      ++ newline ++ spaces indent ++ "]"
  | JObject [] => "{}"
  | JObject ((k, x) :: xs) =>
      "{" ++ newline ++ spaces (indent + 2) ++ quoted k ++ ": "
      ++ stringifyAt (indent + 2) x
      ++ (fix rest (l : list (string * JsonValue)) : string :=
            match l with
            | [] => ""
            | (k', y) :: l' =>
                "," ++ newline ++ spaces (indent + 2) ++ quoted k' ++ ": "
                ++ stringifyAt (indent + 2) y ++ rest l'
            end) xs
      ++ newline ++ spaces indent ++ "}"
  end.

Lemma codeUnitCompare_refl (a : string) : codeUnitCompare a a = 0%Z.
Proof.
  induction a as [|x a IH]; simpl; [done|].
  by rewrite Z.sub_diag, Z.eqb_refl.
Qed.

Lemma codeUnitCompare_sym (a b : string) :
  (codeUnitCompare a b < 0 ↔ 0 < codeUnitCompare b a)%Z.
Proof.
  revert b. induction a as [|x a IH]; intros [|y b]; simpl; try lia.
  destruct (Z.eqb_spec (code x - code y) 0), (Z.eqb_spec (code y - code x) 0);
    try lia.
  apply IH.
Qed.

Lemma codeUnitCompare_trans (a b c : string) :
  (codeUnitCompare a b ≤ 0 → codeUnitCompare b c ≤ 0 → codeUnitCompare a c ≤ 0)%Z.
Proof.
  revert b c. induction a as [|x a IH]; intros [|y b] [|z c]; simpl; try lia.
  destruct (Z.eqb_spec (code x - code y) 0), (Z.eqb_spec (code y - code z) 0),
    (Z.eqb_spec (code x - code z) 0); try lia.
  apply IH.
Qed.

Lemma lower_empty (s : string) : lower s = "" ↔ s = "".
Proof. by destruct s. Qed.

Definition runtime : JsRuntime := {|
  localeCompare := codeUnitCompare;
  toLowerCase := lower;
  trim := trimBoth;
  JSON_parse := parseJson;
  JSON_stringify := stringifyAt 0;
  Date_getTime := isoTime;
  localeCompare_refl := codeUnitCompare_refl;
  localeCompare_sym := codeUnitCompare_sym;
  localeCompare_trans := codeUnitCompare_trans;
  toLowerCase_empty := lower_empty;
|}.

End AsciiRuntime.

(** ** Sample data *)

(** Two gateways; the agent of [gw-1] points at a model of [gw-2]. *)
Definition alphaModel : LlmModelRead.t :=
  LlmModelRead.mk "m-1" "gw-1" "openai" "gpt-a" "GPT A" None
    "2024-01-01T00:00:00Z" "2024-01-01T00:00:00Z".

Definition betaModel : LlmModelRead.t :=
  LlmModelRead.mk "m-2" "gw-2" "openai" "gpt-b" "GPT B" None
    "2024-01-02T00:00:00Z" "2024-01-02T00:00:00Z".

Definition crossAgent : AgentRead.t :=
  AgentRead.mk "a-1" "Scout" "gw-1" None (Some "m-2") None None.

Definition crossGatewayApi : Backend :=
  {| api_gateways := [GatewayRead.mk "gw-1" "Alpha"; GatewayRead.mk "gw-2" "Beta"];
     api_boards := [];
     api_models := [alphaModel; betaModel];
     api_providerAuth := [];
     api_agents := [crossAgent] |}.

(** One gateway whose models arrive newest first; one agent has no
    override, the other is pinned to the older model. *)
Definition newModel : LlmModelRead.t :=
  LlmModelRead.mk "m-new" "gw-1" "openai" "gpt-b" "GPT B" None
    "2024-02-01T00:00:00Z" "2024-02-01T00:00:00Z".

Definition oldModel : LlmModelRead.t :=
  LlmModelRead.mk "m-old" "gw-1" "openai" "gpt-a" "GPT A" None
    "2024-01-01T00:00:00Z" "2024-01-01T00:00:00Z".

Definition plainAgent : AgentRead.t :=
  AgentRead.mk "a-1" "Scout" "gw-1" None None None None.

Definition pinnedAgent : AgentRead.t :=
  AgentRead.mk "a-2" "Pilot" "gw-1" None (Some "m-old") (Some ["m-new"; "m-old"; "m-new"]) None.

Definition newestFirstApi : Backend :=
  {| api_gateways := [GatewayRead.mk "gw-1" "Alpha"];
     api_boards := [];
     api_models := [newModel; oldModel];
     api_providerAuth := [];
     api_agents := [plainAgent; pinnedAgent] |}.

(** An agent stored with the empty string as its primary, in a catalog
    where every model has an id. *)
Definition blankPrimaryAgent : AgentRead.t :=
  AgentRead.mk "a-3" "Relay" "gw-1" None (Some "") None None.

Definition blankPrimaryApi : Backend :=
  {| api_gateways := [GatewayRead.mk "gw-1" "Alpha"];
     api_boards := [];
     api_models := [newModel; oldModel];
     api_providerAuth := [];
     api_agents := [blankPrimaryAgent] |}.

(** An agent and a model that both carry the empty gateway id. *)
Definition blankGatewayApi : Backend :=
  {| api_gateways := [];
     api_boards := [];
     api_models := [LlmModelRead.mk "m-1" "" "openai" "gpt-a" "GPT A" None
                      "2024-01-01T00:00:00Z" "2024-01-01T00:00:00Z"];
     api_providerAuth := [];
     api_agents := [AgentRead.mk "a-1" "Scout" "" None None None None] |}.

(** An agent whose primary_model_id is the empty string, and a model whose
    id is the empty string. *)
Definition blankIdApi : Backend :=
  {| api_gateways := [GatewayRead.mk "gw-1" "Alpha"];
     api_boards := [];
     api_models := [LlmModelRead.mk "" "gw-1" "openai" "gpt-a" "GPT A" None
                      "2024-01-01T00:00:00Z" "2024-01-01T00:00:00Z"];
     api_providerAuth := [];
     api_agents := [AgentRead.mk "a-1" "Scout" "gw-1" None (Some "") None None] |}.

Definition oneGateway : list GatewayRead.t := [GatewayRead.mk "gw-1" "Alpha"].

Definition catalogData : CatalogModelFormPage.Fetched :=
  {| CatalogModelFormPage.gateways := oneGateway;
     CatalogModelFormPage.models := [alphaModel];
     CatalogModelFormPage.gatewayParam := None |}.

(** The gateways have arrived, the models query is still loading. *)
Definition loadingCatalog : CatalogModelFormPage.Fetched :=
  {| CatalogModelFormPage.gateways := oneGateway;
     CatalogModelFormPage.models := [];
     CatalogModelFormPage.gatewayParam := None |}.

Definition loadingQuery : CatalogModelFormPage.ModelsQuery :=
  CatalogModelFormPage.mkModelsQuery true false.

(** The form as filled in by hand, settings left blank. *)
Definition catalogDraft : CatalogModelFormPage.State :=
  {| CatalogModelFormPage.gatewayDraft := None;
     CatalogModelFormPage.providerDraft := Some " OpenAI ";
     CatalogModelFormPage.modelIdDraft := Some "gpt-4o ";
     CatalogModelFormPage.displayNameDraft := Some "GPT-4o";
     CatalogModelFormPage.settingsDraft := None;
     CatalogModelFormPage.error := Some "stale" |}.

Definition providerAuthData : ProviderAuthFormPage.Fetched :=
  {| ProviderAuthFormPage.gateways := oneGateway;
     ProviderAuthFormPage.providerAuthItems :=
       [LlmProviderAuthRead.mk "pa-1" "gw-1" "openai" "providers.openai.apiKey" true
          "2024-01-01T00:00:00Z"];
     ProviderAuthFormPage.gatewayParam := Some " gw-1 " |}.

(** A form with the provider typed in and the other fields left alone. *)
Definition providerAuthDraft (secret : string) : ProviderAuthFormPage.State :=
  {| ProviderAuthFormPage.gatewayDraft := None;
     ProviderAuthFormPage.providerDraft := Some " Anthropic";
     ProviderAuthFormPage.configPathDraft := Some "  ";
     ProviderAuthFormPage.secret := secret;
     ProviderAuthFormPage.error := None |}.

(** The catalog entry under edit belongs to a gateway that the gateway
    query did not return. *)
Definition orphanData : CatalogModelFormPage.Fetched :=
  {| CatalogModelFormPage.gateways := oneGateway;
     CatalogModelFormPage.models := [betaModel];
     CatalogModelFormPage.gatewayParam := None |}.

Definition untouchedForm : CatalogModelFormPage.State :=
  CatalogModelFormPage.mkState None None None None None None.

Definition twoGateways : ModelsSyncPage.Fetched :=
  {| ModelsSyncPage.gateways := [GatewayRead.mk "gw-1" "Alpha"; GatewayRead.mk "gw-2" "Beta"];
     ModelsSyncPage.models := [];
     ModelsSyncPage.providerAuth := [];
     ModelsSyncPage.agents := [] |}.

(** Rows for the three tables. *)
Definition sampleProviderAuth : list LlmProviderAuthRead.t :=
  [LlmProviderAuthRead.mk "pa-1" "gw-1" "openai" "providers.openai.apiKey" true
     "2024-01-03T00:00:00Z";
   LlmProviderAuthRead.mk "pa-2" "gw-1" "Anthropic" "providers.anthropic.apiKey" false
     "2024-01-01T00:00:00Z";
   LlmProviderAuthRead.mk "pa-3" "gw-9" "mistral" "providers.mistral.apiKey" true
     "2024-01-02T00:00:00Z"].

Definition sampleWorkspace : ModelsWorkspace.Fetched :=
  {| ModelsWorkspace.gateways := oneGateway;
     ModelsWorkspace.models := [newModel; oldModel];
     ModelsWorkspace.boards := [];
     ModelsWorkspace.providerAuth := sampleProviderAuth;
     ModelsWorkspace.agents := [plainAgent; pinnedAgent] |}.

(** The pinned agent as the server returns it after the editor saved
    [m-new] as primary and [m-old] as the only fallback. *)
Definition savedAgent : AgentRead.t :=
  AgentRead.mk "a-2" "Pilot" "gw-1" None (Some "m-new") (Some ["m-old"]) None.

Definition savedApi : Backend :=
  {| api_gateways := [GatewayRead.mk "gw-1" "Alpha"];
     api_boards := [];
     api_models := [newModel; oldModel];
     api_providerAuth := [];
     api_agents := [plainAgent; savedAgent] |}.

(** A catalog entry that carries settings. *)
Definition tunedModel : LlmModelRead.t :=
  LlmModelRead.mk "m-7" "gw-1" "openai" "gpt-t" "GPT T"
    (Some [("temperature", JNumber (inject_Z 1)); ("tags", JArray [JString "fast"])])
    "2024-01-05T00:00:00Z" "2024-01-06T00:00:00Z".

Definition tunedData : CatalogModelFormPage.Fetched :=
  {| CatalogModelFormPage.gateways := oneGateway;
     CatalogModelFormPage.models := [alphaModel; tunedModel];
     CatalogModelFormPage.gatewayParam := None |}.

(** * Properties *)

(** ** Sorting with a consistent comparison function *)

Section sorting.
Context {A : Type} (cmp : A → A → Z).

Lemma sortInsert_Permutation (x : A) (l : list A) : sortInsert cmp x l ≡ₚ x :: l.
Proof.
  induction l as [|y l IH]; simpl; [done|].
  destruct (cmp x y <=? 0)%Z; [done|].
  rewrite IH. apply Permutation_swap.
Qed.

Lemma sort_Permutation (l : list A) : sort cmp l ≡ₚ l.
Proof.
  induction l as [|x l IH]; simpl; [done|].
  rewrite sortInsert_Permutation. by rewrite IH.
Qed.

Lemma sort_nil_inv (l : list A) : sort cmp l = [] → l = [].
Proof.
  intros E. apply Permutation_nil_r. rewrite <- E. symmetry. apply sort_Permutation.
Qed.

Context (Hcmp : Consistent cmp).

Lemma consistent_total (a b : A) : (cmp a b ≤ 0 ∨ cmp b a ≤ 0)%Z.
Proof.
  destruct (Z_le_gt_dec (cmp a b) 0) as [Hle|Hgt]; [by left|right].
  assert (cmp b a < 0)%Z by (apply (consistent_sym _ Hcmp); lia). lia.
Qed.

Lemma consistent_zero (a b : A) : cmp a b = 0%Z → cmp b a = 0%Z.
Proof.
  intros E.
  destruct (Z.lt_trichotomy (cmp b a) 0) as [Hlt|[Heq|Hgt]]; [|done|].
  - apply (consistent_sym _ Hcmp) in Hlt. lia.
  - apply (consistent_sym _ Hcmp) in Hgt. lia.
Qed.

Lemma sortInsert_StronglySorted (x : A) (l : list A) :
  StronglySorted (λ a b, cmp a b ≤ 0)%Z l →
  StronglySorted (λ a b, cmp a b ≤ 0)%Z (sortInsert cmp x l).
Proof.
  induction 1 as [|y l Hsorted IH Hall]; simpl.
  - repeat constructor.
  - destruct (Z.leb_spec (cmp x y) 0) as [Hle|Hgt].
    + constructor; [by constructor|].
      constructor; [done|].
      eapply Forall_impl; [exact Hall|]. intros z Hz. simpl in Hz.
      by apply (consistent_trans _ Hcmp x y z).
    + constructor; [done|].
      rewrite sortInsert_Permutation. constructor; [|done].
      destruct (consistent_total y x); lia.
Qed.

Lemma sort_StronglySorted (l : list A) :
  StronglySorted (λ a b, cmp a b ≤ 0)%Z (sort cmp l).
Proof.
  induction l as [|x l IH]; simpl; [constructor|].
  by apply sortInsert_StronglySorted.
Qed.

(** The sort is stable: the elements that tie with [z] keep the order they
    had in the array. *)
Lemma sortInsert_ties (z x : A) (l : list A) :
  filter (λ y, cmp z y = 0%Z) (sortInsert cmp x l) = filter (λ y, cmp z y = 0%Z) (x :: l).
Proof.
  induction l as [|y l IH]; simpl; [done|].
  destruct (Z.leb_spec (cmp x y) 0) as [Hle|Hgt]; [done|].
  rewrite (filter_cons _ y), IH, !filter_cons.
  destruct (decide (cmp z y = 0%Z)) as [Hy|Hy]; [|done].
  destruct (decide (cmp z x = 0%Z)) as [Hx|Hx]; [|done].
  pose proof (consistent_zero _ _ Hx) as Hxz.
  pose proof (consistent_trans _ Hcmp x z y). lia.
Qed.

Lemma sort_stable (z : A) (l : list A) :
  filter (λ y, cmp z y = 0%Z) (sort cmp l) = filter (λ y, cmp z y = 0%Z) l.
Proof.
  induction l as [|x l IH]; simpl; [done|].
  by rewrite sortInsert_ties, !filter_cons, IH.
Qed.

(** The first element of the sorted copy is an element of the array that
    no other element precedes. *)
Lemma sort_head (l : list A) (x : A) :
  head (sort cmp l) = Some x → x ∈ l ∧ ∀ y, y ∈ l → (cmp x y ≤ 0)%Z.
Proof.
  intros Hhead. pose proof (sort_StronglySorted l) as Hsorted.
  pose proof (sort_Permutation l) as Hperm.
  destruct (sort cmp l) as [|x' rest] eqn:E; [done|].
  simpl in Hhead. injection Hhead as ->.
  split.
  - rewrite <- Hperm. apply list_elem_of_here.
  - intros y Hy. rewrite <- Hperm in Hy.
    apply StronglySorted_inv in Hsorted as [_ Hall].
    apply elem_of_cons in Hy as [->|Hy].
    + destruct (consistent_total x x); lia.
    + rewrite Forall_forall in Hall. by apply Hall.
Qed.

End sorting.

(** ** The comparators of the three tables are consistent *)

Section comparators.
Context `{JsRuntime} {A : Type}.

Lemma localeCompare_Consistent (value : A → string) :
  Consistent (λ a b, localeCompare (value a) (value b)).
Proof.
  split; intros.
  - apply localeCompare_sym.
  - by eapply localeCompare_trans.
Qed.

Lemma difference_Consistent (value : A → Z) :
  Consistent (λ a b, value a - value b)%Z.
Proof. split; intros; lia. Qed.

Lemma tableCompare_Consistent (direction : SortDirection) (base fallback : A → A → Z) :
  Consistent base → Consistent fallback →
  Consistent (tableCompare direction base fallback).
Proof.
  intros [Bsym Btrans] [Fsym Ftrans]. split.
  - intros a b. unfold tableCompare, ModelsWorkspace.directed.
    pose proof (Bsym a b). pose proof (Bsym b a).
    pose proof (Fsym a b). pose proof (Fsym b a).
    destruct direction; repeat case_bool_decide; lia.
  - intros a b c. unfold tableCompare, ModelsWorkspace.directed.
    pose proof (Bsym a b). pose proof (Bsym b a).
    pose proof (Bsym b c). pose proof (Bsym c b).
    pose proof (Bsym a c). pose proof (Bsym c a).
    pose proof (Fsym a b). pose proof (Fsym b a).
    pose proof (Fsym b c). pose proof (Fsym c b).
    pose proof (Fsym a c). pose proof (Fsym c a).
    pose proof (Btrans a b c). pose proof (Btrans a c b).
    pose proof (Btrans b a c). pose proof (Btrans b c a).
    pose proof (Btrans c a b). pose proof (Btrans c b a).
    pose proof (Ftrans a b c). pose proof (Ftrans c b a).
    destruct direction; repeat case_bool_decide; lia.
Qed.

End comparators.

(** ** C5: the sorted views *)

Lemma sort_ext {A : Type} (cmp1 cmp2 : A → A → Z) (l : list A) :
  (∀ a b, cmp1 a b = cmp2 a b) → sort cmp1 l = sort cmp2 l.
Proof.
  intros Hext. induction l as [|x l IH]; simpl; [done|]. rewrite IH.
  generalize (sort cmp2 l). intros s.
  induction s as [|y s IHs]; simpl; [done|]. by rewrite Hext, IHs.
Qed.

Lemma StronglySorted_weaken {A : Type} (R1 R2 : A → A → Prop) (l : list A) :
  (∀ a b, R1 a b → R2 a b) → StronglySorted R1 l → StronglySorted R2 l.
Proof.
  intros Himpl. induction 1 as [|x l Hsorted IH Hall]; constructor; [done|].
  eapply Forall_impl; [exact Hall|]. auto.
Qed.

Lemma mapOfList_lookup {A : Type} (key : A → string) (l : list A) (k : string) :
  mapOfList key l !! k = last (filter (λ item, key item = k) l).
Proof.
  induction l as [|x l IH] using rev_ind; [done|].
  unfold mapOfList in *. rewrite foldl_snoc, filter_app, lookup_insert.
  case_decide as Hk.
  - rewrite filter_cons_True by done. rewrite filter_nil. by rewrite last_snoc.
  - rewrite filter_cons_False by done. rewrite filter_nil. by rewrite app_nil_r.
Qed.

(** The page's gateway name and time helpers compute the label and the
    instant the columns speak of. *)
Lemma gatewayNameOf_label (d : ModelsWorkspace.Fetched) (gateway_id : string) :
  ModelsWorkspace.gatewayNameOf d gateway_id
  = gatewayLabel (ModelsWorkspace.gateways d) gateway_id.
Proof.
  unfold ModelsWorkspace.gatewayNameOf, ModelsWorkspace.gatewaysById, gatewayLabel.
  by rewrite mapOfList_lookup.
Qed.

Lemma timeOf_instant `{JsRuntime} (stamp : string) :
  ModelsWorkspace.timeOf stamp = instantOf stamp.
Proof. unfold ModelsWorkspace.timeOf, instantOf. by destruct (Date_getTime stamp). Qed.

Section tables.
Context `{JsRuntime}.

Lemma columnCompare_Consistent {A : Type} (column : Column A) :
  Consistent (columnCompare column).
Proof.
  destruct column as [value|value]; simpl.
  - apply (localeCompare_Consistent (λ a, toLowerCase (value a))).
  - apply difference_Consistent.
Qed.

Lemma tableCompare_OrderedBy {A : Type} (direction : SortDirection)
    (column : Column A) (tieName : A → string) (left right : A) :
  (tableCompare direction (columnCompare column)
     (λ a b, localeCompare (tieName a) (tieName b)) left right ≤ 0)%Z →
  OrderedBy direction column tieName left right.
Proof.
  unfold tableCompare, OrderedBy, ModelsWorkspace.directed.
  destruct direction; case_bool_decide; lia.
Qed.

(** A table sorted with the shared comparator shape is a reordering of its
    rows in which every earlier row may stand before every later one. *)
Lemma sort_tableCompare {A : Type} (direction : SortDirection)
    (column : Column A) (tieName : A → string) (cmp : A → A → Z) (rows : list A) :
  (∀ a b, cmp a b = tableCompare direction (columnCompare column)
                      (λ a b, localeCompare (tieName a) (tieName b)) a b) →
  sort cmp rows ≡ₚ rows
  ∧ StronglySorted (OrderedBy direction column tieName) (sort cmp rows).
Proof.
  intros Hshape. split; [apply sort_Permutation|].
  rewrite (sort_ext _ _ _ Hshape).
  eapply StronglySorted_weaken; [apply tableCompare_OrderedBy|].
  apply sort_StronglySorted, tableCompare_Consistent.
  - apply columnCompare_Consistent.
  - apply localeCompare_Consistent.
Qed.

Lemma providerCompare_shape (d : ModelsWorkspace.Fetched) (st : ModelsWorkspace.State)
    (a b : LlmProviderAuthRead.t) :
  ModelsWorkspace.providerCompare d st a b
  = tableCompare (ModelsWorkspace.providerSortDirection st)
      (columnCompare (providerColumn d (ModelsWorkspace.providerSortKey st)))
      (λ a b, localeCompare (LlmProviderAuthRead.provider a) (LlmProviderAuthRead.provider b))
      a b.
Proof.
  unfold ModelsWorkspace.providerCompare, tableCompare,
    ModelsWorkspace.providerResolveNumber, ModelsWorkspace.providerResolveString.
  destruct (ModelsWorkspace.providerSortKey st); simpl;
    by rewrite ?gatewayNameOf_label, ?timeOf_instant.
Qed.

Lemma modelCompare_shape (d : ModelsWorkspace.Fetched) (st : ModelsWorkspace.State)
    (a b : LlmModelRead.t) :
  ModelsWorkspace.modelCompare d st a b
  = tableCompare (ModelsWorkspace.modelSortDirection st)
      (columnCompare (modelColumn d (ModelsWorkspace.modelSortKey st)))
      (λ a b, localeCompare (LlmModelRead.display_name a) (LlmModelRead.display_name b))
      a b.
Proof.
  unfold ModelsWorkspace.modelCompare, tableCompare,
    ModelsWorkspace.modelResolveNumber, ModelsWorkspace.modelResolveString.
  destruct (ModelsWorkspace.modelSortKey st); simpl;
    rewrite ?gatewayNameOf_label, ?timeOf_instant; try done.
  by destruct (LlmModelRead.settings a), (LlmModelRead.settings b).
Qed.

Lemma routingCompare_shape (st : ModelsWorkspace.State) (a b : ModelsWorkspace.RoutingRow) :
  ModelsWorkspace.routingCompare st a b
  = tableCompare (ModelsWorkspace.routingSortDirection st)
      (columnCompare (routingColumn (ModelsWorkspace.routingSortKey st)))
      (λ a b, localeCompare (AgentRead.name (ModelsWorkspace.agent a))
                            (AgentRead.name (ModelsWorkspace.agent b)))
      a b.
Proof.
  unfold ModelsWorkspace.routingCompare, tableCompare, ModelsWorkspace.routingResolveValue.
  destruct (ModelsWorkspace.routingSortKey st); simpl; try done.
  - by destruct (ModelsWorkspace.board a), (ModelsWorkspace.board b).
  - by destruct (ModelsWorkspace.primary a), (ModelsWorkspace.primary b),
      (ModelsWorkspace.effectivePrimary a), (ModelsWorkspace.effectivePrimary b).
Qed.

(** C5. Each table's sorted view is a permutation of its input rows, and
    in it every row may stand before every later row under the selected
    column and direction: text columns compared case-insensitively by
    locale (the gateway column on the name of the fetched gateway with the
    row's gateway id, "Unknown gateway" when there is none), the secret,
    settings and updated columns numerically (updated on the instant of
    the stamp, 0 when it denotes none), ties broken by provider name,
    display name and agent name respectively, the tie-break reversed with
    the direction. *)
Theorem sorted_views_ordered (d : ModelsWorkspace.Fetched) (st : ModelsWorkspace.State) :
  (ModelsWorkspace.providerRows d st ≡ₚ ModelsWorkspace.providerAuth d
   ∧ StronglySorted
       (OrderedBy (ModelsWorkspace.providerSortDirection st)
          (providerColumn d (ModelsWorkspace.providerSortKey st))
          LlmProviderAuthRead.provider)
       (ModelsWorkspace.providerRows d st))
  ∧ (ModelsWorkspace.modelRows d st ≡ₚ ModelsWorkspace.models d
     ∧ StronglySorted
         (OrderedBy (ModelsWorkspace.modelSortDirection st)
            (modelColumn d (ModelsWorkspace.modelSortKey st))
            LlmModelRead.display_name)
         (ModelsWorkspace.modelRows d st))
  ∧ (ModelsWorkspace.sortedRoutingRows d st ≡ₚ ModelsWorkspace.routingRows d
     ∧ StronglySorted
         (OrderedBy (ModelsWorkspace.routingSortDirection st)
            (routingColumn (ModelsWorkspace.routingSortKey st))
            (λ row, AgentRead.name (ModelsWorkspace.agent row)))
         (ModelsWorkspace.sortedRoutingRows d st)).
Proof.
  split; [|split].
  - apply sort_tableCompare, providerCompare_shape.
  - apply sort_tableCompare, modelCompare_shape.
  - apply sort_tableCompare, routingCompare_shape.
Qed.

End tables.

(** ** Lookups in the maps the pages build *)

Lemma mapOfList_lookup_Some {A : Type} (key : A → string) (l : list A) (k : string) (x : A) :
  mapOfList key l !! k = Some x → x ∈ l ∧ key x = k.
Proof.
  rewrite mapOfList_lookup. intros Hlast%last_Some_elem_of.
  apply list_elem_of_filter in Hlast. tauto.
Qed.

Lemma mapOfList_lookup_None {A : Type} (key : A → string) (l : list A) (k : string) :
  mapOfList key l !! k = None ↔ ∀ x, x ∈ l → key x ≠ k.
Proof.
  rewrite mapOfList_lookup, last_None. split.
  - intros Hnil x Hx Hk.
    by apply (filter_nil_not_elem_of (λ item, key item = k) l x Hnil Hk).
  - intros Hnone. destruct (filter _ l) as [|x rest] eqn:E; [done|].
    assert (x ∈ filter (λ item, key item = k) l) as Hx by (rewrite E; left).
    apply list_elem_of_filter in Hx as [Hk Hx]. by destruct (Hnone x).
Qed.

Lemma grouped_lookup (d : ModelsWorkspace.Fetched) (gateway_id : string) :
  ModelsWorkspace.grouped d !! gateway_id
  = match filter (λ model, LlmModelRead.gateway_id model = gateway_id)
            (ModelsWorkspace.models d) with
    | [] => None
    | bucket => Some bucket
    end.
Proof.
  unfold ModelsWorkspace.grouped.
  induction (ModelsWorkspace.models d) as [|x l IH] using rev_ind; [done|].
  rewrite foldl_snoc, filter_app. cbv zeta. rewrite lookup_insert.
  case_decide as Hk.
  - rewrite filter_cons_True by done. rewrite filter_nil, Hk, IH.
    by destruct (filter _ l).
  - rewrite filter_cons_False by done. rewrite filter_nil. by rewrite app_nil_r.
Qed.

(** The gateway default of the routing table: the head of the gateway's
    models sorted by [created_at]. *)
Lemma gatewayDefaultById_lookup `{JsRuntime} (d : ModelsWorkspace.Fetched)
    (gateway_id : string) :
  ModelsWorkspace.gatewayDefaultById d !! gateway_id
  = head (sort ModelsWorkspace.createdAtCompare
            (filter (λ model, LlmModelRead.gateway_id model = gateway_id)
               (ModelsWorkspace.models d))).
Proof.
  unfold ModelsWorkspace.gatewayDefaultById.
  rewrite lookup_omap, grouped_lookup.
  by destruct (filter _ _).
Qed.

Section reference_examples.
#[local] Existing Instance AsciiRuntime.runtime.

Example ascii_trim : trim "  OpenAI " = "OpenAI".
Proof. reflexivity. Qed.

Example ascii_lower : toLowerCase "OpenAI" = "openai".
Proof. reflexivity. Qed.

Example ascii_compare :
  (localeCompare "2024-01-01T00:00:00Z" "2024-01-02T00:00:00Z" < 0)%Z.
Proof. reflexivity. Qed.

Example ascii_time : Date_getTime "2024-01-02T03:04:05Z" = Some 1704164645000%Z.
Proof. reflexivity. Qed.

Example ascii_json :
  JSON_parse ("{ " ++ AsciiRuntime.quoted "temperature" ++ ": 1, "
              ++ AsciiRuntime.quoted "tags" ++ ": [" ++ AsciiRuntime.quoted "a"
              ++ ", null] }")
  = Some (JObject [("temperature", JNumber (inject_Z 1));
                   ("tags", JArray [JString "a"; JNull])]).
Proof. reflexivity. Qed.

Example ascii_json_rejects : JSON_parse "{ 1 }" = None ∧ JSON_parse "[1, 2" = None.
Proof. split; reflexivity. Qed.

Example ascii_stringify :
  JSON_parse (JSON_stringify (JObject [("n", JNumber (inject_Z 7)); ("xs", JArray [JNull])]))
  = Some (JObject [("n", JNumber (inject_Z 7)); ("xs", JArray [JNull])]).
Proof. reflexivity. Qed.

End reference_examples.

(** * Routing: effective primary model and status (C1, C2) *)

Lemma truthy_true (s : string) : truthy s = true ↔ s ≠ "".
Proof. unfold truthy. by rewrite negb_true_iff, bool_decide_eq_false. Qed.

Lemma truthy_false (s : string) : truthy s = false ↔ s = "".
Proof. unfold truthy. by rewrite negb_false_iff, bool_decide_eq_true. Qed.

Lemma OfGateway_filter (models : list LlmModelRead.t) (gateway_id : string)
    (model : LlmModelRead.t) :
  model ∈ filter (λ m, LlmModelRead.gateway_id m = gateway_id) models
  ↔ OfGateway models gateway_id model.
Proof. rewrite list_elem_of_filter. unfold OfGateway. tauto. Qed.

Section routing_table.
Context `{JsRuntime}.

Lemma table_primary (api : Backend) (agent : AgentRead.t) :
  ModelsWorkspace.primary (ModelsWorkspace.routingRow (workspaceFetched api) agent)
  = match AgentRead.primary_model_id agent with
    | Some id =>
        if truthy id
        then last (filter (λ m, LlmModelRead.id m = id) (api_models api))
        else None
    | None => None
    end.
Proof.
  simpl. destruct (AgentRead.primary_model_id agent) as [id|]; [|done].
  destruct (truthy id); [|done].
  apply mapOfList_lookup.
Qed.

Lemma table_default (api : Backend) (gateway_id : string) :
  EarliestDefault (api_models api) gateway_id
    (ModelsWorkspace.gatewayDefaultById (workspaceFetched api) !! gateway_id).
Proof.
  rewrite gatewayDefaultById_lookup. simpl.
  destruct (head _) as [model|] eqn:Hhead; simpl.
  - apply sort_head in Hhead as [Hin Hmin];
      [|apply (localeCompare_Consistent LlmModelRead.created_at)].
    split; [by apply OfGateway_filter|].
    intros other Hother. apply Hmin. by apply OfGateway_filter.
  - apply head_None, sort_nil_inv in Hhead.
    intros model Hmodel%OfGateway_filter. rewrite Hhead in Hmodel.
    by apply not_elem_of_nil in Hmodel.
Qed.

Lemma table_shows (api : Backend) (agent : AgentRead.t) :
  TableEffectivePrimary (api_models api) agent (tableEffectivePrimary api agent).
Proof.
  unfold TableEffectivePrimary, Shows, tableEffectivePrimary.
  pose proof (table_primary api agent) as Hprimary.
  pose proof (table_default api (AgentRead.gateway_id agent)) as Hdefault.
  unfold ModelsWorkspace.routingRow in *. cbv zeta in *. simpl in *.
  set (primary := match AgentRead.primary_model_id agent with
                  | Some id => if truthy id
                               then ModelsWorkspace.modelsById (workspaceFetched api) !! id
                               else None
                  | None => None
                  end) in *.
  split.
  - intros (model & [Hin Href] & Hne).
    rewrite Href in Hprimary. rewrite (proj2 (truthy_true _) Hne) in Hprimary.
    destruct primary as [found|] eqn:Hfound.
    + exists found. split; [done|]. symmetry in Hprimary.
      apply last_Some_elem_of, list_elem_of_filter in Hprimary as [Hid Hfoundin].
      split; [split; [done|by rewrite Href, Hid]|by rewrite Hid].
    + symmetry in Hprimary. apply last_None in Hprimary.
      exfalso. eapply (filter_nil_not_elem_of _ _ model Hprimary); done.
  - intros Hnone.
    destruct primary as [found|] eqn:Hfound; [|done].
    exfalso. apply Hnone. exists found.
    destruct (AgentRead.primary_model_id agent) as [id|]; [|done].
    destruct (truthy id) eqn:Hid; [|done]. apply truthy_true in Hid.
    symmetry in Hprimary.
    apply last_Some_elem_of, list_elem_of_filter in Hprimary as [Heq Hfoundin].
    split; [split; [done|by rewrite Heq]|by rewrite Heq].
Qed.

End routing_table.

Section routing_edit_page.
Context (agentId : string) (d : AgentRoutingEditPage.Fetched).

Lemma modelsForGateway_elem (model : LlmModelRead.t) :
  model ∈ AgentRoutingEditPage.modelsForGateway agentId d
  ↔ ∃ a, AgentRoutingEditPage.agent agentId d = Some a
         ∧ AgentRead.gateway_id a ≠ ""
         ∧ OfGateway (AgentRoutingEditPage.models d) (AgentRead.gateway_id a) model.
Proof.
  unfold AgentRoutingEditPage.modelsForGateway.
  destruct (AgentRoutingEditPage.agent agentId d) as [a|].
  - destruct (truthy (AgentRead.gateway_id a)) eqn:Hgateway.
    + apply truthy_true in Hgateway. rewrite OfGateway_filter. split.
      * intros Hof. by exists a.
      * by intros (a' & [= <-] & _ & Hof).
    + apply truthy_false in Hgateway. split.
      * by intros ?%not_elem_of_nil.
      * intros (a' & [= <-] & Hne & _). done.
  - split; [by intros ?%not_elem_of_nil|]. by intros (a' & [=] & _).
Qed.

Lemma availableModelIds_elem (id : string) :
  id ∈ AgentRoutingEditPage.availableModelIds agentId d
  ↔ ∃ model, model ∈ AgentRoutingEditPage.modelsForGateway agentId d
             ∧ LlmModelRead.id model = id.
Proof.
  unfold AgentRoutingEditPage.availableModelIds.
  rewrite elem_of_list_to_set, list_elem_of_fmap. split.
  - intros (model & -> & Hin). by exists model.
  - intros (model & Hin & <-). by exists model.
Qed.

Lemma modelsById_lookup_Some (id : string) (model : LlmModelRead.t) :
  AgentRoutingEditPage.modelsById agentId d !! id = Some model →
  model ∈ AgentRoutingEditPage.modelsForGateway agentId d ∧ LlmModelRead.id model = id.
Proof. apply mapOfList_lookup_Some. Qed.

Lemma modelsById_lookup_available (id : string) :
  id ∈ AgentRoutingEditPage.availableModelIds agentId d →
  is_Some (AgentRoutingEditPage.modelsById agentId d !! id).
Proof.
  intros (model & Hin & Hid)%availableModelIds_elem.
  destruct (AgentRoutingEditPage.modelsById agentId d !! id) eqn:E; [done|].
  unfold AgentRoutingEditPage.modelsById in E.
  rewrite mapOfList_lookup_None in E. by destruct (E model Hin).
Qed.

(** The primary id the page works with is empty or an id of the gateway's
    catalog, whatever was drafted. *)
Lemma primaryModelId_cases (st : AgentRoutingEditPage.State) :
  AgentRoutingEditPage.primaryModelId agentId d st = ""
  ∨ (AgentRoutingEditPage.primaryModelId agentId d st
       = AgentRoutingEditPage.primaryModelIdCandidate agentId d st
     ∧ AgentRoutingEditPage.primaryModelId agentId d st
       ∈ AgentRoutingEditPage.availableModelIds agentId d).
Proof.
  unfold AgentRoutingEditPage.primaryModelId. case_bool_decide; auto.
Qed.

End routing_edit_page.

Lemma StronglySorted_head {A : Type} (R : A → A → Prop) (l : list A) (x y : A) :
  StronglySorted R l → head l = Some x → y ∈ l → x = y ∨ R x y.
Proof.
  intros Hsorted Hhead Hy. destruct l as [|x' l]; [done|].
  injection Hhead as ->. apply StronglySorted_inv in Hsorted as [_ Hall].
  apply elem_of_cons in Hy as [->|Hy]; [by left|right].
  rewrite Forall_forall in Hall. by apply Hall.
Qed.

Section routing_pages.
Context `{JsRuntime}.

Lemma edit_shows (api : Backend) (agentId : string) :
  match AgentRoutingEditPage.agent agentId (routingEditFetched api) with
  | Some a => EditEffectivePrimary (api_models api) a (editEffectivePrimary api agentId)
  | None => editEffectivePrimary api agentId = None
  end.
Proof.
  unfold editEffectivePrimary, AgentRoutingEditPage.effectivePrimaryModel,
    AgentRoutingEditPage.selectedPrimary.
  set (d := routingEditFetched api).
  set (st := AgentRoutingEditPage.initialState).
  pose proof (primaryModelId_cases agentId d st) as Hcases.
  pose proof (modelsForGateway_elem agentId d) as Hmodels.
  unfold AgentRoutingEditPage.defaultPrimaryModel.
  unfold AgentRoutingEditPage.primaryModelIdCandidate,
    AgentRoutingEditPage.baselinePrimaryModelId in Hcases.
  unfold AgentRoutingEditPage.primaryModelId at 1 2.
  unfold AgentRoutingEditPage.primaryModelIdCandidate,
    AgentRoutingEditPage.baselinePrimaryModelId.
  destruct (AgentRoutingEditPage.agent agentId d) as [a|] eqn:Hagent; simpl in *.
  - split.
    + intros (model & [Hin Href] & Hne & Hgw & Hgwne).
      assert (model ∈ AgentRoutingEditPage.modelsForGateway agentId d) as Hmodel.
      { apply Hmodels. exists a. by repeat split. }
      assert (LlmModelRead.id model ∈ AgentRoutingEditPage.availableModelIds agentId d)
        as Havailable.
      { apply availableModelIds_elem. by exists model. }
      rewrite Href. simpl. rewrite bool_decide_eq_true_2 by done.
      rewrite (proj2 (truthy_true _) Hne).
      destruct (modelsById_lookup_available agentId d _ Havailable) as [found Hfound].
      rewrite Hfound. exists found. split; [done|].
      apply modelsById_lookup_Some in Hfound as [Hfoundin Hid].
      apply Hmodels in Hfoundin as (a' & [= <-] & _ & Hof & Hofgw).
      rewrite <- Hid in *. by repeat split.
    + intros Hnone.
      assert ((if truthy (AgentRoutingEditPage.primaryModelId agentId d st)
               then AgentRoutingEditPage.modelsById agentId d
                    !! AgentRoutingEditPage.primaryModelId agentId d st
               else None) = None) as Hselected.
      { destruct (truthy _) eqn:Htruthy; [|done]. apply truthy_true in Htruthy.
        destruct (_ !! _) as [found|] eqn:Hfound; [|done].
        exfalso. apply Hnone. exists found.
        apply modelsById_lookup_Some in Hfound as [Hfoundin Hid].
        apply Hmodels in Hfoundin as (a' & [= <-] & Hgwne & Hof & Hofgw).
        destruct Hcases as [Hempty|[Hcandidate _]]; [done|].
        rewrite <- Hid in Hcandidate, Htruthy.
        destruct (AgentRead.primary_model_id a) as [id|]; simpl in *; [|done].
        subst id. by repeat split. }
      unfold AgentRoutingEditPage.primaryModelId, AgentRoutingEditPage.primaryModelIdCandidate,
        AgentRoutingEditPage.baselinePrimaryModelId in Hselected.
      rewrite Hagent in Hselected. simpl in Hselected. rewrite Hselected.
      destruct (head _) as [model|] eqn:Hhead.
      * pose proof (head_Some_elem_of _ _ Hhead) as Hin.
        apply Hmodels in Hin as (a' & [= <-] & Hgwne & Hof).
        split; [done|]. split; [done|]. intros Hsorted.
        split; [done|]. intros other Hother.
        assert (other ∈ AgentRoutingEditPage.modelsForGateway agentId d) as Hotherin.
        { apply Hmodels. by exists a. }
        unfold AgentRoutingEditPage.modelsForGateway in Hhead, Hotherin.
        rewrite Hagent, (proj2 (truthy_true _) Hgwne) in Hhead, Hotherin.
        destruct (StronglySorted_head _ _ _ _ Hsorted Hhead Hotherin) as [->|Hle]; [|done].
        by rewrite localeCompare_refl.
      * apply head_None in Hhead.
        destruct (decide (AgentRead.gateway_id a = "")) as [Hgw|Hgw]; [by left|right].
        intros model Hmodel.
        assert (model ∈ AgentRoutingEditPage.modelsForGateway agentId d) as Hin.
        { apply Hmodels. by exists a. }
        rewrite Hhead in Hin. by apply not_elem_of_nil in Hin.
  - unfold AgentRoutingEditPage.modelsForGateway.
    unfold AgentRoutingEditPage.primaryModelId, AgentRoutingEditPage.availableModelIds,
      AgentRoutingEditPage.modelsForGateway, AgentRoutingEditPage.primaryModelIdCandidate,
      AgentRoutingEditPage.baselinePrimaryModelId.
    by rewrite Hagent.
Qed.

End routing_pages.

(** C1. On the routing table the effective primary model is the
    catalog model that the agent's non-empty primary_model_id references
    when there is one, and otherwise the earliest-created catalog model of
    the agent's gateway (smallest created_at, compared as strings), none
    when the gateway has no catalog model. On the routing edit page, as it
    opens, it is the referenced catalog model when that model belongs to
    the agent's own non-empty gateway, and otherwise a catalog model of
    that gateway (the earliest-created one when the gateway's models were
    fetched in created_at order), none when the gateway has no catalog
    model or the page found no agent. *)
Theorem effective_primary_by_page `{JsRuntime} (api : Backend) :
  (∀ agent,
     TableEffectivePrimary (api_models api) agent (tableEffectivePrimary api agent))
  ∧ (∀ agentId,
       match AgentRoutingEditPage.agent agentId (routingEditFetched api) with
       | Some a => EditEffectivePrimary (api_models api) a (editEffectivePrimary api agentId)
       | None => editEffectivePrimary api agentId = None
       end).
Proof. split; [apply table_shows|apply edit_shows]. Qed.

Section routing_examples.
#[local] Existing Instance AsciiRuntime.runtime.

Example crossGateway_table : tableEffectivePrimary crossGatewayApi crossAgent = Some betaModel.
Proof. vm_compute. reflexivity. Qed.

Example crossGateway_edit : editEffectivePrimary crossGatewayApi "a-1" = Some alphaModel.
Proof. vm_compute. reflexivity. Qed.

Example newestFirst_table : tableEffectivePrimary newestFirstApi plainAgent = Some oldModel.
Proof. vm_compute. reflexivity. Qed.

Example newestFirst_edit : editEffectivePrimary newestFirstApi "a-1" = Some newModel.
Proof. vm_compute. reflexivity. Qed.

(** C1 in its general form fails on the edit page: with a primary that
    references a model of another gateway the page shows its own gateway's
    model, and with no override it shows the first fetched model of the
    gateway rather than the earliest-created one. *)
Lemma effective_primary_counterexample :
  ¬ EffectivePrimary (api_models crossGatewayApi) crossAgent
      (editEffectivePrimary crossGatewayApi "a-1")
  ∧ ¬ EffectivePrimary (api_models newestFirstApi) plainAgent
        (editEffectivePrimary newestFirstApi "a-1").
Proof.
  split.
  - intros [Hoverride _].
    destruct Hoverride as (model & Hshown & _ & Href).
    + exists betaModel. split; [|reflexivity].
      apply list_elem_of_In. simpl. tauto.
    + rewrite crossGateway_edit in Hshown. injection Hshown as <-. discriminate Href.
  - intros [_ Hdefault].
    assert (EarliestDefault (api_models newestFirstApi) "gw-1"
              (editEffectivePrimary newestFirstApi "a-1")) as Hearliest.
    { apply Hdefault. by intros (model & _ & Href). }
    rewrite newestFirst_edit in Hearliest. destruct Hearliest as [_ Hmin].
    assert (¬ (localeCompare (LlmModelRead.created_at newModel)
                             (LlmModelRead.created_at oldModel) ≤ 0)%Z) as Hlater
      by (vm_compute; congruence).
    apply Hlater, Hmin. split; [|reflexivity].
    apply list_elem_of_In. simpl. tauto.
Qed.

End routing_examples.

(** ** Routing status (C2) *)

Section routing_status.
Context `{JsRuntime}.

Lemma tableStatus_spec (api : Backend) (agent : AgentRead.t) :
  (tableStatus api agent = RoutingStatus.override
   ↔ ∃ model, Referenced (api_models api) (AgentRead.primary_model_id agent) model
              ∧ LlmModelRead.id model ≠ "")
  ∧ (tableStatus api agent = RoutingStatus.default
     ↔ (¬ ∃ model, Referenced (api_models api) (AgentRead.primary_model_id agent) model
                   ∧ LlmModelRead.id model ≠ "")
       ∧ ∃ model, OfGateway (api_models api) (AgentRead.gateway_id agent) model).
Proof.
  destruct (table_shows api agent) as [Hoverride Hdefault].
  pose proof (table_primary api agent) as Hprimary.
  unfold tableStatus, tableEffectivePrimary in *.
  unfold ModelsWorkspace.routingRow in *. cbv zeta in *. simpl in *.
  set (primary := match AgentRead.primary_model_id agent with
                  | Some id => if truthy id
                               then ModelsWorkspace.modelsById (workspaceFetched api) !! id
                               else None
                  | None => None
                  end) in *.
  assert (is_Some primary
          ↔ ∃ model, Referenced (api_models api) (AgentRead.primary_model_id agent) model
                     ∧ LlmModelRead.id model ≠ "") as Hsome.
  { split.
    - intros [found Hfound]. rewrite Hfound in Hprimary.
      destruct (AgentRead.primary_model_id agent) as [id|]; [|done].
      destruct (truthy id) eqn:Hid; [|done]. apply truthy_true in Hid.
      symmetry in Hprimary.
      apply last_Some_elem_of, list_elem_of_filter in Hprimary as [Heq Hin].
      exists found. rewrite <- Heq in Hid |- *. by repeat split.
    - intros Hex. destruct (Hoverride Hex) as (model & Hshown & _).
      destruct primary; [done|].
      destruct Hex as (model' & [Hin Href] & Hne).
      rewrite Href, (proj2 (truthy_true _) Hne) in Hprimary.
      symmetry in Hprimary. apply last_None in Hprimary.
      exfalso. eapply (filter_nil_not_elem_of _ _ model' Hprimary); done. }
  case_bool_decide as Hprim.
  - split; [by split; [intros _; apply Hsome|]|].
    split; [done|]. intros [Hno _]. destruct Hno. by apply Hsome.
  - assert (¬ ∃ model, Referenced (api_models api) (AgentRead.primary_model_id agent) model
                       ∧ LlmModelRead.id model ≠ "") as Hno.
    { intros Hex. by apply Hprim, Hsome. }
    specialize (Hdefault Hno).
    destruct primary as [found|] eqn:Hfound; [by destruct Hprim|].
    destruct (ModelsWorkspace.gatewayDefaultById _ !! _) as [model|]; simpl in *.
    + rewrite ?bool_decide_eq_true_2 by done.
      split; [split; [done|intros Hex; by destruct Hno]|].
      split; [|done]. intros _. split; [done|]. exists model. apply Hdefault.
    + rewrite ?bool_decide_eq_false_2 by (by intros [? ?]).
      split; [split; [done|intros Hex; by destruct Hno]|].
      split; [done|]. intros [_ [model Hmodel]]. by destruct (Hdefault model).
Qed.

Lemma editStatus_spec (api : Backend) (agentId : string) (a : AgentRead.t) :
  AgentRoutingEditPage.agent agentId (routingEditFetched api) = Some a →
  (editStatus api agentId = RoutingStatus.override
   ↔ ∃ model, Referenced (api_models api) (AgentRead.primary_model_id a) model
              ∧ LlmModelRead.id model ≠ ""
              ∧ LlmModelRead.gateway_id model = AgentRead.gateway_id a
              ∧ AgentRead.gateway_id a ≠ "")
  ∧ (editStatus api agentId = RoutingStatus.default
     ↔ (¬ ∃ model, Referenced (api_models api) (AgentRead.primary_model_id a) model
                   ∧ LlmModelRead.id model ≠ ""
                   ∧ LlmModelRead.gateway_id model = AgentRead.gateway_id a
                   ∧ AgentRead.gateway_id a ≠ "")
       ∧ AgentRead.gateway_id a ≠ ""
       ∧ ∃ model, OfGateway (api_models api) (AgentRead.gateway_id a) model).
Proof.
  intros Hagent.
  pose proof (edit_shows api agentId) as Hshows. rewrite Hagent in Hshows.
  destruct Hshows as [Hoverride Hdefault].
  unfold editStatus, editEffectivePrimary in *.
  set (d := routingEditFetched api) in *.
  set (st := AgentRoutingEditPage.initialState) in *.
  unfold AgentRoutingEditPage.status.
  pose proof (primaryModelId_cases agentId d st) as Hcases.
  pose proof (modelsForGateway_elem agentId d) as Hmodels.
  assert (truthy (AgentRoutingEditPage.primaryModelId agentId d st) = true
          ↔ ∃ model, Referenced (api_models api) (AgentRead.primary_model_id a) model
                     ∧ LlmModelRead.id model ≠ ""
                     ∧ LlmModelRead.gateway_id model = AgentRead.gateway_id a
                     ∧ AgentRead.gateway_id a ≠ "") as Htruthy.
  { rewrite truthy_true. split.
    - intros Hne. destruct Hcases as [Hempty|[Hcandidate Havailable]]; [done|].
      apply availableModelIds_elem in Havailable as (model & Hin & Hid).
      apply Hmodels in Hin as (a' & Ha' & Hgwne & Hof & Hofgw).
      rewrite Hagent in Ha'. injection Ha' as <-.
      exists model. rewrite Hid. repeat split; try done.
      unfold AgentRoutingEditPage.primaryModelIdCandidate,
        AgentRoutingEditPage.baselinePrimaryModelId in Hcandidate.
      rewrite Hagent in Hcandidate. simpl in Hcandidate.
      destruct (AgentRead.primary_model_id a) as [id|]; simpl in *; congruence.
    - intros (model & [Hin Href] & Hne & Hgw & Hgwne).
      unfold AgentRoutingEditPage.primaryModelId, AgentRoutingEditPage.primaryModelIdCandidate,
        AgentRoutingEditPage.baselinePrimaryModelId.
      rewrite Hagent, Href. simpl. rewrite bool_decide_eq_true_2; [done|].
      apply availableModelIds_elem. exists model. split; [|done].
      apply Hmodels. exists a. by repeat split. }
  destruct (truthy (AgentRoutingEditPage.primaryModelId agentId d st)) eqn:Hprim.
  - split; [by split; [intros _; apply Htruthy|]|].
    split; [done|]. intros [Hno _]. destruct Hno. by apply Htruthy.
  - assert (¬ ∃ model, Referenced (api_models api) (AgentRead.primary_model_id a) model
                       ∧ LlmModelRead.id model ≠ ""
                       ∧ LlmModelRead.gateway_id model = AgentRead.gateway_id a
                       ∧ AgentRead.gateway_id a ≠ "") as Hno.
    { intros Hex. apply Htruthy in Hex. done. }
    specialize (Hdefault Hno).
    destruct (AgentRoutingEditPage.effectivePrimaryModel agentId d st) as [model|].
    + rewrite ?bool_decide_eq_true_2 by done.
      split; [split; [done|intros Hex; by destruct Hno]|].
      split; [|done]. intros _. destruct Hdefault as (Hof & Hgwne & _).
      repeat split; try done. by exists model.
    + rewrite ?bool_decide_eq_false_2 by (by intros [? ?]).
      split; [split; [done|intros Hex; by destruct Hno]|].
      split; [done|]. intros (_ & Hgwne & model & Hmodel).
      destruct Hdefault as [Hempty|Hnone]; [done|]. by destruct (Hnone model).
Qed.

(** C2. For an agent whose routing lies in its own gateway (a
    primary_model_id that references a catalog model is not the empty
    string and references a model of the agent's gateway, and the agent's
    gateway id is not the empty string when a catalog model carries it),
    the routing table and the routing edit page (as it opens) display the
    same status: override exactly when primary_model_id references a
    catalog model, default when it does not but the gateway has a catalog
    model, and unconfigured otherwise. These are all the agents for which
    the two pages do so. *)
Theorem routing_status_agrees (api : Backend) (agentId : string) (a : AgentRead.t) :
  AgentRoutingEditPage.agent agentId (routingEditFetched api) = Some a →
  (RoutedInOwnGateway (api_models api) a
   ↔ tableStatus api a = editStatus api agentId
     ∧ RoutingStatusOf (api_models api) a (tableStatus api a)).
Proof.
  intros Hagent.
  destruct (tableStatus_spec api a) as [Tover Tdef].
  destruct (editStatus_spec api agentId a Hagent) as [Eover Edef].
  split.
  - intros [Hown Hgateway].
    assert (∀ model, Referenced (api_models api) (AgentRead.primary_model_id a) model →
                     LlmModelRead.id model ≠ "") as Hne.
    { intros model Href Hid. destruct (Hown (ex_intro _ model Href)) as [Hpid _].
      destruct Href as [_ Href]. by rewrite Href, Hid in Hpid. }
    assert ((∃ model, Referenced (api_models api) (AgentRead.primary_model_id a) model
                      ∧ LlmModelRead.id model ≠ "")
            ↔ ∃ model, Referenced (api_models api) (AgentRead.primary_model_id a) model) as HT.
    { split; [intros (model & Href & _)|intros [model Href]]; exists model; auto. }
    assert ((∃ model, Referenced (api_models api) (AgentRead.primary_model_id a) model
                      ∧ LlmModelRead.id model ≠ ""
                      ∧ LlmModelRead.gateway_id model = AgentRead.gateway_id a
                      ∧ AgentRead.gateway_id a ≠ "")
            ↔ ∃ model, Referenced (api_models api) (AgentRead.primary_model_id a) model) as HE.
    { split; [intros (model & Href & _); by exists model|].
      intros Hex. destruct (Hown Hex) as (_ & model & Href & Hsame).
      exists model. split; [done|]. split; [by apply Hne|]. split; [done|].
      apply Hgateway. exists model. split; [apply Href|done]. }
    rewrite HT in Tover, Tdef. rewrite HE in Eover, Edef.
    split; [|by split].
    destruct (tableStatus api a) eqn:Htable.
    + symmetry. apply Eover, Tover. done.
    + symmetry. apply Edef. destruct (proj1 Tdef eq_refl) as [Hno Hex]. by repeat split; auto.
    + destruct (editStatus api agentId) eqn:Hedit; [| |done].
      * by apply Tover, Eover.
      * apply Tdef. destruct (proj1 Edef eq_refl) as (Hno & _ & Hex). by split.
  - intros [Hagree [Sover Sdef]]. split.
    + intros Hex. pose proof (proj2 Sover Hex) as Htable.
      destruct (proj1 Tover Htable) as (model & [Hin Href] & Hne).
      split; [intros Hpid; rewrite Hpid in Href; congruence|].
      rewrite Hagree in Htable.
      destruct (proj1 Eover Htable) as (own & Hown & _ & Hsame & _). by exists own.
    + intros Hex Hempty.
      assert (editStatus api agentId = RoutingStatus.unconfigured) as Hedit.
      { destruct (editStatus api agentId); [| |done].
        - by destruct (proj1 Eover eq_refl) as (_ & _ & _ & _ & Hgwne).
        - by destruct (proj1 Edef eq_refl) as (_ & Hgwne & _). }
      rewrite <- Hagree in Hedit.
      assert (tableStatus api a = RoutingStatus.default) as Hdefault; [|congruence].
      apply Tdef. split; [|done].
      intros Hreferenced. apply Tover in Hreferenced. congruence.
Qed.

End routing_status.

Section status_examples.
#[local] Existing Instance AsciiRuntime.runtime.

Example crossGateway_statuses :
  tableStatus crossGatewayApi crossAgent = RoutingStatus.override
  ∧ editStatus crossGatewayApi "a-1" = RoutingStatus.default.
Proof. split; vm_compute; reflexivity. Qed.

Example blankGateway_statuses :
  tableStatus blankGatewayApi (AgentRead.mk "a-1" "Scout" "" None None None None)
    = RoutingStatus.default
  ∧ editStatus blankGatewayApi "a-1" = RoutingStatus.unconfigured.
Proof. split; vm_compute; reflexivity. Qed.

Example blankId_statuses :
  tableStatus blankIdApi (AgentRead.mk "a-1" "Scout" "gw-1" None (Some "") None None)
    = RoutingStatus.default
  ∧ editStatus blankIdApi "a-1" = RoutingStatus.default.
Proof. split; vm_compute; reflexivity. Qed.

(** An empty primary that names no catalog model is within C2: both pages
    show the gateway default. *)
Example blankPrimary_statuses :
  RoutedInOwnGateway (api_models blankPrimaryApi) blankPrimaryAgent
  ∧ tableStatus blankPrimaryApi blankPrimaryAgent = RoutingStatus.default
  ∧ editStatus blankPrimaryApi "a-3" = RoutingStatus.default.
Proof.
  split; [|split; vm_compute; reflexivity].
  split; [|intros _; discriminate].
  intros (model & Hin & Href). apply list_elem_of_In in Hin. simpl in Hin.
  destruct Hin as [<-|[<-|[]]]; discriminate.
Qed.

(** C2 in its general form fails: an agent whose primary model lives on
    another gateway is an override on the table and a default on the edit
    page; an
    agent with an empty gateway id is a default on the table and
    unconfigured on the edit page; and an empty primary_model_id that
    matches a model's id is an override on neither page. *)
Lemma routing_status_counterexample :
  tableStatus crossGatewayApi crossAgent ≠ editStatus crossGatewayApi "a-1"
  ∧ tableStatus blankGatewayApi (AgentRead.mk "a-1" "Scout" "" None None None None)
    ≠ editStatus blankGatewayApi "a-1"
  ∧ ¬ RoutingStatusOf (api_models blankIdApi)
        (AgentRead.mk "a-1" "Scout" "gw-1" None (Some "") None None)
        (tableStatus blankIdApi (AgentRead.mk "a-1" "Scout" "gw-1" None (Some "") None None)).
Proof.
  split; [|split].
  - destruct crossGateway_statuses as [-> ->]. discriminate.
  - destruct blankGateway_statuses as [-> ->]. discriminate.
  - destruct blankId_statuses as [-> _]. intros [Hoverride _].
    assert (RoutingStatus.default = RoutingStatus.override) as Habsurd; [|discriminate].
    apply Hoverride. eexists (LlmModelRead.mk "" "gw-1" _ _ _ _ _ _).
    split; [|reflexivity]. apply list_elem_of_In. simpl. left. reflexivity.
Qed.

Lemma routing_status_agrees_witness :
  tableStatus newestFirstApi pinnedAgent = editStatus newestFirstApi "a-2"
  ∧ RoutingStatusOf (api_models newestFirstApi) pinnedAgent
      (tableStatus newestFirstApi pinnedAgent).
Proof.
  apply (routing_status_agrees newestFirstApi "a-2" pinnedAgent eq_refl).
  split.
  - intros _. split; [discriminate|].
    exists oldModel. split; [|reflexivity].
    split; [|reflexivity]. apply list_elem_of_In. simpl. auto.
  - intros _. discriminate.
Defined.

Example pinned_status : tableStatus newestFirstApi pinnedAgent = RoutingStatus.override.
Proof. vm_compute. reflexivity. Qed.

End status_examples.

(** * The routing edit form (C3, C4) *)

Section filter_indexed.
Context {A : Type} (p : A → Z → list A → bool) (whole : list A).

Lemma filterFrom_elem (index : Z) (l : list A) (x : A) :
  x ∈ filterFrom p whole index l →
  x ∈ l ∧ ∃ k, (index ≤ k)%Z ∧ p x k whole = true.
Proof.
  revert index. induction l as [|y l IH]; intros index; simpl.
  - by intros ?%not_elem_of_nil.
  - destruct (p y index whole) eqn:Hp.
    + intros [->|Hin]%elem_of_cons.
      * split; [left|]. exists index. split; [lia|done].
      * destruct (IH _ Hin) as (Hx & k & Hk & Hpk).
        split; [by right|]. exists k. split; [lia|done].
    + intros Hin. destruct (IH _ Hin) as (Hx & k & Hk & Hpk).
      split; [by right|]. exists k. split; [lia|done].
Qed.

(** A callback that accepts a value at one index only keeps each value
    once. *)
Lemma filterFrom_NoDup (index : Z) (l : list A) :
  (∀ x j k, p x j whole = true → p x k whole = true → j = k) →
  NoDup (filterFrom p whole index l).
Proof.
  intros Honce. revert index. induction l as [|y l IH]; intros index; simpl.
  - constructor.
  - destruct (p y index whole) eqn:Hp; [|apply IH].
    constructor; [|apply IH].
    intros (_ & k & Hk & Hpk)%filterFrom_elem.
    specialize (Honce y index k Hp Hpk). lia.
Qed.

End filter_indexed.

Section routing_form.
Context (agentId : string) (d : AgentRoutingEditPage.Fetched).

Lemma fallbackModelIds_elem (st : AgentRoutingEditPage.State) (id : string) :
  id ∈ AgentRoutingEditPage.fallbackModelIds agentId d st →
  id ≠ AgentRoutingEditPage.primaryModelId agentId d st
  ∧ id ∈ AgentRoutingEditPage.availableModelIds agentId d.
Proof.
  unfold AgentRoutingEditPage.fallbackModelIds, filterIndexed.
  intros (_ & k & _ & Hp)%filterFrom_elem.
  apply andb_prop in Hp as [Hp _]. apply andb_prop in Hp as [Hne Havailable].
  split; [by apply bool_decide_eq_true in Hne|by apply bool_decide_eq_true in Havailable].
Qed.

Lemma fallbackModelIds_NoDup (st : AgentRoutingEditPage.State) :
  NoDup (AgentRoutingEditPage.fallbackModelIds agentId d st).
Proof.
  unfold AgentRoutingEditPage.fallbackModelIds, filterIndexed.
  apply filterFrom_NoDup. intros x j k Hj Hk.
  apply andb_prop in Hj as [_ Hj]. apply andb_prop in Hk as [_ Hk].
  apply bool_decide_eq_true in Hj, Hk. congruence.
Qed.

Lemma run_snoc (st : AgentRoutingEditPage.State) (events : list AgentRoutingEditPage.Event)
    (e : AgentRoutingEditPage.Event) :
  AgentRoutingEditPage.run agentId d st (events ++ [e])
  = ((AgentRoutingEditPage.step agentId d (AgentRoutingEditPage.run agentId d st events).1 e).1,
     ((AgentRoutingEditPage.run agentId d st events).2
      ++ (AgentRoutingEditPage.step agentId d
            (AgentRoutingEditPage.run agentId d st events).1 e).2)%list).
Proof.
  revert st. induction events as [|e' events IH]; intros st; simpl.
  - destruct (AgentRoutingEditPage.step agentId d st e) as [st1 sent1]. simpl.
    by rewrite app_nil_r.
  - destruct (AgentRoutingEditPage.step agentId d st e') as [st1 sent1].
    rewrite IH.
    destruct (AgentRoutingEditPage.run agentId d st1 events) as [st2 sent2]. simpl.
    by rewrite app_assoc.
Qed.

Lemma stateAfter_snoc (events : list AgentRoutingEditPage.Event)
    (e : AgentRoutingEditPage.Event) :
  stateAfter agentId d (events ++ [e])
  = (AgentRoutingEditPage.step agentId d (stateAfter agentId d events) e).1.
Proof. unfold stateAfter. by rewrite run_snoc. Qed.

Lemma requestsOf_snoc (events : list AgentRoutingEditPage.Event)
    (e : AgentRoutingEditPage.Event) :
  requestsOf agentId d (events ++ [e])
  = (requestsOf agentId d events
     ++ (AgentRoutingEditPage.step agentId d (stateAfter agentId d events) e).2)%list.
Proof. unfold requestsOf, stateAfter. by rewrite run_snoc. Qed.

(** C3. After every sequence of events on the routing edit page the
    displayed fallback ids do not contain the selected primary id: the
    derived list filters the primary id out, and choosing a value as
    primary leaves a fallback draft that is the previous fallback source
    without that value. *)
Theorem fallback_never_contains_primary (events : list AgentRoutingEditPage.Event) :
  (AgentRoutingEditPage.primaryModelId agentId d (stateAfter agentId d events)
     ∉ AgentRoutingEditPage.fallbackModelIds agentId d (stateAfter agentId d events))
  ∧ (∀ value,
       AgentRoutingEditPage.primaryModelDraft
         (stateAfter agentId d (events ++ [AgentRoutingEditPage.SelectPrimary value]))
       = Some value
       ∧ ∃ draft,
           AgentRoutingEditPage.fallbackModelDraft
             (stateAfter agentId d (events ++ [AgentRoutingEditPage.SelectPrimary value]))
           = Some draft
           ∧ (value ∉ draft)
           ∧ (∀ other, other ≠ value →
                (other ∈ draft
                 ↔ other ∈ default (AgentRoutingEditPage.baselineFallbackModelIds agentId d)
                             (AgentRoutingEditPage.fallbackModelDraft
                                (stateAfter agentId d events))))).
Proof.
  split.
  - intros Hin. by apply fallbackModelIds_elem in Hin as [Hne _].
  - intros value. rewrite stateAfter_snoc. simpl. split; [done|].
    eexists. split; [done|]. split.
    + intros Hin. by apply list_elem_of_filter in Hin as [Hne _].
    + intros other Hne. rewrite list_elem_of_filter. tauto.
Qed.

End routing_form.

Section routing_save.
Context (agentId : string) (d : AgentRoutingEditPage.Fetched).

Lemma available_OfGateway (a : AgentRead.t) (id : string) :
  AgentRoutingEditPage.agent agentId d = Some a →
  id ∈ AgentRoutingEditPage.availableModelIds agentId d →
  ∃ model, OfGateway (AgentRoutingEditPage.models d) (AgentRead.gateway_id a) model
           ∧ LlmModelRead.id model = id.
Proof.
  intros Hagent (model & Hin & Hid)%availableModelIds_elem.
  apply modelsForGateway_elem in Hin as (a' & Ha' & _ & Hof).
  rewrite Hagent in Ha'. injection Ha' as <-. by exists model.
Qed.

Lemma handleSave_requests (st : AgentRoutingEditPage.State)
    (request : AgentRoutingEditPage.UpdateAgentRequest) :
  request ∈ (AgentRoutingEditPage.handleSave agentId d st).2 →
  ∃ a, AgentRoutingEditPage.agent agentId d = Some a
       ∧ AgentRoutingEditPage.request_agentId request = AgentRead.id a
       ∧ WellFormedSave d a request.
Proof.
  unfold AgentRoutingEditPage.handleSave.
  destruct (AgentRoutingEditPage.agent agentId d) as [a|] eqn:Hagent;
    [|by intros ?%not_elem_of_nil].
  destruct (_ && _); [by intros ?%not_elem_of_nil|].
  intros ->%list_elem_of_singleton. exists a. split; [done|]. split; [done|].
  unfold WellFormedSave. simpl.
  pose proof (primaryModelId_cases agentId d st) as Hcases.
  split.
  - destruct (truthy _) eqn:Htruthy; [right|by left].
    apply truthy_true in Htruthy.
    destruct Hcases as [Hempty|[_ Havailable]]; [done|].
    destruct (available_OfGateway a _ Hagent Havailable) as (model & Hof & Hid).
    exists model. by rewrite Hid.
  - destruct (Z.ltb_spec 0 (Z.of_nat (List.length
               (AgentRoutingEditPage.fallbackModelIds agentId d st)))) as [Hlen|Hlen];
      [right|by left].
    eexists. split; [done|]. split; [|split].
    + intros Hnil. rewrite Hnil in Hlen. simpl in Hlen. lia.
    + apply fallbackModelIds_NoDup.
    + intros id [Hne Havailable]%fallbackModelIds_elem. split.
      * by apply (available_OfGateway a).
      * destruct (truthy _); congruence.
Qed.

(** C4. Every save request of a session on the routing edit page is for
    the agent the page found; its primary_model_id is null or the id of a
    catalog model of that agent's gateway, and its fallback_model_ids is
    null or a non-empty, duplicate-free list of ids of that gateway's
    catalog models that does not contain the primary. *)
Theorem save_requests_well_formed (events : list AgentRoutingEditPage.Event)
    (request : AgentRoutingEditPage.UpdateAgentRequest) :
  request ∈ requestsOf agentId d events →
  ∃ a, AgentRoutingEditPage.agent agentId d = Some a
       ∧ AgentRoutingEditPage.request_agentId request = AgentRead.id a
       ∧ WellFormedSave d a request.
Proof.
  induction events as [|e events IH] using rev_ind.
  - by intros ?%not_elem_of_nil.
  - rewrite requestsOf_snoc. intros [Hin|Hin]%elem_of_app; [by apply IH|].
    destruct e; simpl in Hin; try by apply not_elem_of_nil in Hin.
    by apply (handleSave_requests (stateAfter agentId d events)).
Qed.

End routing_save.

Example pinned_fallbacks :
  AgentRoutingEditPage.fallbackModelIds "a-2" (routingEditFetched newestFirstApi)
    AgentRoutingEditPage.initialState = ["m-new"].
Proof. vm_compute. reflexivity. Qed.

Example pinned_session :
  requestsOf "a-2" (routingEditFetched newestFirstApi)
    [AgentRoutingEditPage.SelectPrimary "m-new"; AgentRoutingEditPage.ClickSave]
  = [AgentRoutingEditPage.mkRequest "a-2" true (Some "m-new") (Some ["m-old"])].
Proof. vm_compute. reflexivity. Qed.

Lemma save_requests_well_formed_witness :
  ∃ a, AgentRoutingEditPage.agent "a-2" (routingEditFetched newestFirstApi) = Some a
       ∧ AgentRoutingEditPage.request_agentId
           (AgentRoutingEditPage.mkRequest "a-2" true (Some "m-new") (Some ["m-old"]))
         = AgentRead.id a
       ∧ WellFormedSave (routingEditFetched newestFirstApi) a
           (AgentRoutingEditPage.mkRequest "a-2" true (Some "m-new") (Some ["m-old"])).
Proof.
  apply (save_requests_well_formed "a-2" (routingEditFetched newestFirstApi)
           [AgentRoutingEditPage.SelectPrimary "m-new"; AgentRoutingEditPage.ClickSave]).
  apply list_elem_of_In. vm_compute. left. reflexivity.
Defined.

(** * Filtering by gateway (C6) *)

Lemma length_filter_numberOf {A : Type} (P : A → Prop) `{∀ x, Decision (P x)} (l : list A) :
  List.length (filter P l) = numberOf P l.
Proof.
  induction l as [|x l IH]; simpl; [done|].
  rewrite filter_cons. destruct (decide (P x)); simpl; by rewrite IH.
Qed.

Lemma numberOf_ext {A : Type} (P Q : A → Prop) `{∀ x, Decision (P x)} `{∀ x, Decision (Q x)}
    (l : list A) :
  (∀ x, P x ↔ Q x) → numberOf P l = numberOf Q l.
Proof.
  intros Hiff. induction l as [|x l IH]; simpl; [done|]. rewrite IH.
  destruct (decide (P x)) as [HP|HP], (decide (Q x)) as [HQ|HQ]; try done.
  - by apply Hiff in HP.
  - by apply Hiff in HQ.
Qed.

Lemma truthyOpt_true (value : option string) :
  truthyOpt value = true ↔ value ≠ None ∧ value ≠ Some "".
Proof.
  destruct value as [s|]; simpl.
  - rewrite truthy_true. split; [intros Hne; split; congruence|].
    intros [_ Hne] ->. done.
  - split; [done|]. by intros [? _].
Qed.

(** C6. Filtering is by exact gateway_id equality. On the sync
    page the provider-auth, catalog-model and agent counts are the numbers
    of fetched entries whose gateway_id equals the selected gateway, and
    the primary-override count is the number of those agents whose
    primary_model_id is neither null nor the empty string. On the routing
    edit page the selectable options are, in fetch order, the catalog
    models whose gateway_id equals the gateway_id of the agent the page
    found, provided that gateway_id is not empty; otherwise there are no
    options. *)
Theorem gateway_filters (api : Backend) :
  (∀ st : ModelsSyncPage.State,
     let selected := ModelsSyncPage.activeGatewayId (syncFetched api) st in
     ModelsSyncPage.providerCount (syncFetched api) st
       = numberOf (λ item, LlmProviderAuthRead.gateway_id item = selected) (api_providerAuth api)
     ∧ ModelsSyncPage.modelCount (syncFetched api) st
       = numberOf (λ item, LlmModelRead.gateway_id item = selected) (api_models api)
     ∧ ModelsSyncPage.agentCount (syncFetched api) st
       = numberOf (λ item, AgentRead.gateway_id item = selected) (api_agents api)
     ∧ ModelsSyncPage.primaryOverrideCount (syncFetched api) st
       = numberOf (λ item, AgentRead.gateway_id item = selected
                           ∧ AgentRead.primary_model_id item ≠ None
                           ∧ AgentRead.primary_model_id item ≠ Some "")
           (api_agents api))
  ∧ (∀ agentId : string,
       (AgentRoutingEditPage.modelOptions agentId (routingEditFetched api)).*1
       = LlmModelRead.id <$> AgentRoutingEditPage.modelsForGateway agentId (routingEditFetched api)
       ∧ AgentRoutingEditPage.modelsForGateway agentId (routingEditFetched api)
         = match AgentRoutingEditPage.agent agentId (routingEditFetched api) with
           | Some a =>
               if decide (AgentRead.gateway_id a = "") then []
               else filter (λ model, LlmModelRead.gateway_id model = AgentRead.gateway_id a)
                      (api_models api)
           | None => []
           end
       ∧ ∀ model,
           model ∈ AgentRoutingEditPage.modelsForGateway agentId (routingEditFetched api)
           ↔ ∃ a, AgentRoutingEditPage.agent agentId (routingEditFetched api) = Some a
                  ∧ AgentRead.gateway_id a ≠ ""
                  ∧ model ∈ api_models api
                  ∧ LlmModelRead.gateway_id model = AgentRead.gateway_id a).
Proof.
  split.
  - intros st selected.
    unfold ModelsSyncPage.providerCount, ModelsSyncPage.modelCount,
      ModelsSyncPage.agentCount, ModelsSyncPage.primaryOverrideCount.
    rewrite !length_filter_numberOf. fold selected. simpl.
    repeat split; try done.
    apply numberOf_ext. intros item. by rewrite truthyOpt_true.
  - intros agentId. split; [|split].
    + unfold AgentRoutingEditPage.modelOptions.
      rewrite <- list_fmap_compose. done.
    + unfold AgentRoutingEditPage.modelsForGateway.
      destruct (AgentRoutingEditPage.agent _ _) as [a|]; [|done].
      destruct (decide (AgentRead.gateway_id a = "")) as [Hgw|Hgw].
      * by rewrite (proj2 (truthy_false _) Hgw).
      * by rewrite (proj2 (truthy_true _) Hgw).
    + intros model. apply modelsForGateway_elem.
Qed.

Example blankId_override_count :
  ModelsSyncPage.primaryOverrideCount (syncFetched blankIdApi)
    (ModelsSyncPage.mkState None None) = 0
  ∧ ModelsSyncPage.agentCount (syncFetched blankIdApi) (ModelsSyncPage.mkState None None) = 1.
Proof. split; vm_compute; reflexivity. Qed.

(** C6 in its general form fails at the empty string: an agent whose
    primary_model_id is the empty string is not null yet is not counted as
    an override, and
    an agent with an empty gateway_id is offered no model even though a
    catalog model carries the same gateway_id. *)
Lemma gateway_filters_counterexample :
  ModelsSyncPage.primaryOverrideCount (syncFetched blankIdApi) (ModelsSyncPage.mkState None None)
  ≠ numberOf
      (λ item, AgentRead.gateway_id item
                 = ModelsSyncPage.activeGatewayId (syncFetched blankIdApi)
                     (ModelsSyncPage.mkState None None)
               ∧ AgentRead.primary_model_id item ≠ None)
      (api_agents blankIdApi)
  ∧ (AgentRoutingEditPage.modelOptions "a-1" (routingEditFetched blankGatewayApi)).*1
    ≠ LlmModelRead.id <$>
        filter (λ model, LlmModelRead.gateway_id model = "") (api_models blankGatewayApi).
Proof. split; vm_compute; discriminate. Qed.

(** * Failed requests (C7) *)

(** Every mutation that registers an [onError] callback stores the error's
    message, or its own fallback text when the message is empty, in the
    page's error cell, touches no other cell and issues no request. *)
Lemma mutation_errors_surfaced (err : ApiError.t) :
  (∀ st, settleError CatalogModelFormPage.createMutation err st
         = (CatalogModelFormPage.setError st (Some (messageOr err "Unable to create model.")), []))
  ∧ (∀ st, settleError CatalogModelFormPage.updateMutation err st
           = (CatalogModelFormPage.setError st (Some (messageOr err "Unable to update model.")),
              []))
  ∧ (∀ st, settleError ProviderAuthFormPage.createMutation err st
           = (ProviderAuthFormPage.setError st
                (Some (messageOr err "Unable to create provider auth entry.")), []))
  ∧ (∀ st, settleError ProviderAuthFormPage.updateMutation err st
           = (ProviderAuthFormPage.setError st
                (Some (messageOr err "Unable to update provider auth entry.")), []))
  ∧ (∀ st, settleError AgentRoutingEditPage.updateAgentMutation err st
           = (AgentRoutingEditPage.setError st
                (Some (messageOr err "Unable to save agent routing.")), []))
  ∧ (∀ st, settleError ModelsSyncPage.syncMutation err st
           = (ModelsSyncPage.setSyncMessage st (Some (messageOr err "Gateway sync failed.")), []))
  ∧ (∀ st, settleError ModelsSyncPage.pullMutation err st
           = (ModelsSyncPage.setSyncMessage st (Some (messageOr err "Gateway pull failed.")), [])).
Proof. by repeat split. Qed.

Lemma messageOr_spec (err : ApiError.t) (fallback : string) :
  messageOr err fallback
  = if decide (ApiError.message err = "") then fallback else ApiError.message err.
Proof.
  unfold messageOr. destruct (decide _) as [Hempty|Hne].
  - by rewrite (proj2 (truthy_false _) Hempty).
  - by rewrite (proj2 (truthy_true _) Hne).
Qed.

(** C7 at a failing delete. The two delete mutations of the tables register
    no [onError]: whatever the error and the page state, a failed delete
    stores nothing, and the page has no cell that could hold the message. *)
Theorem delete_failure_not_surfaced (err : ApiError.t) (st : ModelsWorkspace.State) :
  settleError ModelsWorkspace.deleteProviderMutation err st = (st, [])
  ∧ settleError ModelsWorkspace.deleteModelMutation err st = (st, []).
Proof. split; reflexivity. Qed.

(** * The catalog model form (C8) *)

Section catalog_form.
Context `{JsRuntime} (mode : FormMode) (d : CatalogModelFormPage.Fetched)
  (st : CatalogModelFormPage.State).

Lemma object_check (parsed : JsonValue) :
  negb (toBoolean parsed) || negb (typeofObject parsed) || isArray parsed = false
  ↔ ∃ entries, parsed = JObject entries.
Proof.
  destruct parsed as [|b|q|s|items|entries]; simpl; rewrite ?orb_true_r; simpl.
  1-5: by split; [|intros [? ?]].
  split; [|done]. intros _. by exists entries.
Qed.

Lemma submittedSettings_spec :
  (SettingsAcceptable mode d st →
   CatalogModelFormPage.submittedSettings mode d st = Some (expectedSettings mode d st))
  ∧ (¬ SettingsAcceptable mode d st →
     CatalogModelFormPage.submittedSettings mode d st = None).
Proof.
  unfold SettingsAcceptable, CatalogModelFormPage.submittedSettings,
    expectedSettings.
  set (text := trim (CatalogModelFormPage.settingsText mode d st)).
  destruct (decide (text = "")) as [Hblank|Hfilled].
  - rewrite (proj2 (truthy_false _) Hblank). split; [by destruct mode|].
    intros Hno. destruct Hno. by left.
  - rewrite (proj2 (truthy_true _) Hfilled). split.
    + intros [Hblank|[entries Hparse]]; [done|]. by rewrite Hparse.
    + intros Hno. destruct (JSON_parse text) as [parsed|]; [|done].
      destruct (_ || _) eqn:Hcheck; [done|].
      apply object_check in Hcheck as [entries ->]. destruct Hno. right. by exists entries.
Qed.

(** C8. The form sends its create or update request exactly when
    a gateway is resolved, the trimmed provider, model id and display name
    are non-empty, the settings text is blank or parses as a JSON object,
    and, in edit mode, the model identifier of the route is non-empty. The
    request carries the lowercased trimmed provider, the trimmed model id
    and display name, and the parsed settings, an empty object for a blank
    text in edit mode and no settings for a blank text in create mode; the
    error is cleared. Otherwise an error message is set and nothing is
    sent. *)
Theorem catalog_submit :
  (Submittable mode d st ∧ mode ≠ edit "" →
   CatalogModelFormPage.handleSubmit mode d st
   = (CatalogModelFormPage.setError st None, [expectedRequest mode d st]))
  ∧ (¬ (Submittable mode d st ∧ mode ≠ edit "") →
     ∃ message,
       CatalogModelFormPage.handleSubmit mode d st
       = (CatalogModelFormPage.setError st (Some message), [])).
Proof.
  destruct submittedSettings_spec as [Haccept Hreject].
  unfold Submittable, CatalogModelFormPage.handleSubmit, expectedRequest.
  set (gateway := CatalogModelFormPage.gatewayId mode d st).
  set (provider := trim (CatalogModelFormPage.provider mode d st)).
  set (modelId := trim (CatalogModelFormPage.modelId mode d st)).
  set (displayName := trim (CatalogModelFormPage.displayName mode d st)).
  split.
  - intros [(Hgateway & Hprovider & HmodelId & HdisplayName & Hsettings) Hmode].
    rewrite (proj2 (truthy_true gateway) Hgateway). simpl.
    assert (toLowerCase provider ≠ "") as Hlower by (by rewrite toLowerCase_empty).
    rewrite (proj2 (truthy_true _) Hlower), (proj2 (truthy_true _) HmodelId),
      (proj2 (truthy_true _) HdisplayName). simpl.
    rewrite (Haccept Hsettings).
    destruct mode as [|modelIdParam]; [done|].
    assert (modelIdParam ≠ "") as Hparam by congruence.
    by rewrite (proj2 (truthy_true _) Hparam).
  - intros Hno.
    destruct (truthy gateway) eqn:Hgateway; simpl; [|by eexists].
    destruct (truthy (toLowerCase provider)) eqn:Hprovider; simpl; [|by eexists].
    destruct (truthy modelId) eqn:HmodelId; simpl; [|by eexists].
    destruct (truthy displayName) eqn:HdisplayName; simpl; [|by eexists].
    apply truthy_true in Hgateway, Hprovider, HmodelId, HdisplayName.
    rewrite toLowerCase_empty in Hprovider.
    destruct (CatalogModelFormPage.submittedSettings mode d st) as [settings|] eqn:Hsettings;
      [|by eexists].
    assert (SettingsAcceptable mode d st) as Hacceptable.
    { unfold SettingsAcceptable.
      destruct (decide (trim (CatalogModelFormPage.settingsText mode d st) = ""))
        as [Hblank|Hfilled]; [by left|right].
      unfold CatalogModelFormPage.submittedSettings in Hsettings.
      rewrite (proj2 (truthy_true _) Hfilled) in Hsettings.
      destruct (JSON_parse _) as [parsed|]; [|done].
      destruct (_ || _) eqn:Hcheck; [done|].
      apply object_check in Hcheck as [entries ->]. by exists entries. }
    destruct mode as [|modelIdParam].
    + destruct Hno. by repeat split.
    + destruct (truthy modelIdParam) eqn:Hparam; simpl; [|by eexists].
      apply truthy_true in Hparam. destruct Hno. repeat split; try done. congruence.
Qed.

End catalog_form.

Section catalog_examples.
#[local] Existing Instance AsciiRuntime.runtime.

Example catalog_create :
  CatalogModelFormPage.handleSubmit create catalogData catalogDraft
  = (CatalogModelFormPage.setError catalogDraft None,
     [CatalogModelFormPage.CreateModel
        (CatalogModelFormPage.CreateData.mk "gw-1" "openai" "gpt-4o" "GPT-4o" None)]).
Proof. vm_compute. reflexivity. Qed.

Example catalog_edit_blank_settings :
  CatalogModelFormPage.handleSubmit (edit "m-1") catalogData catalogDraft
  = (CatalogModelFormPage.setError catalogDraft None,
     [CatalogModelFormPage.UpdateModel "m-1"
        (CatalogModelFormPage.UpdateData.mk "openai" "gpt-4o" "GPT-4o" (Some (JObject [])))]).
Proof. vm_compute. reflexivity. Qed.

Example catalog_array_settings :
  CatalogModelFormPage.handleSubmit create catalogData
    {| CatalogModelFormPage.gatewayDraft := None;
       CatalogModelFormPage.providerDraft := Some "openai";
       CatalogModelFormPage.modelIdDraft := Some "gpt-4o";
       CatalogModelFormPage.displayNameDraft := Some "GPT-4o";
       CatalogModelFormPage.settingsDraft := Some "[1, 2]";
       CatalogModelFormPage.error := None |}
  = ({| CatalogModelFormPage.gatewayDraft := None;
        CatalogModelFormPage.providerDraft := Some "openai";
        CatalogModelFormPage.modelIdDraft := Some "gpt-4o";
        CatalogModelFormPage.displayNameDraft := Some "GPT-4o";
        CatalogModelFormPage.settingsDraft := Some "[1, 2]";
        CatalogModelFormPage.error := Some "Settings must be a valid JSON object." |}, []).
Proof. vm_compute. reflexivity. Qed.

(** C8 in its general form fails in edit mode: with the route's model
    identifier empty and the models query still loading, the form is on
    the page, every listed condition holds, and yet the submit sets
    "Missing model identifier." and sends no request. *)
Lemma catalog_submit_counterexample :
  CatalogModelFormPage.missingEditItem (edit "") loadingCatalog loadingQuery = false
  ∧ Submittable (edit "") loadingCatalog catalogDraft
  ∧ CatalogModelFormPage.handleSubmit (edit "") loadingCatalog catalogDraft
    = (CatalogModelFormPage.setError catalogDraft (Some "Missing model identifier."), []).
Proof.
  split; [reflexivity|]. split; [|vm_compute; reflexivity].
  repeat split; try (vm_compute; discriminate).
  left. vm_compute. reflexivity.
Qed.

Lemma catalog_submit_witness :
  CatalogModelFormPage.handleSubmit create catalogData catalogDraft
  = (CatalogModelFormPage.setError catalogDraft None,
     [expectedRequest create catalogData catalogDraft]).
Proof.
  apply (proj1 (catalog_submit create catalogData catalogDraft)).
  split; [|discriminate].
  repeat split; try (vm_compute; discriminate).
  left. vm_compute. reflexivity.
Defined.

End catalog_examples.

(** * The provider auth form (C9) *)

Section provider_auth_form.
Context `{JsRuntime} (mode : FormMode) (d : ProviderAuthFormPage.Fetched)
  (st : ProviderAuthFormPage.State).

Lemma normalizedConfigPath_spec :
  (if truthy (trim (ProviderAuthFormPage.configPath mode d st))
   then trim (ProviderAuthFormPage.configPath mode d st)
   else "providers." ++ toLowerCase (trim (ProviderAuthFormPage.provider mode d st))
        ++ ".apiKey")
  = expectedConfigPath mode d st.
Proof.
  unfold expectedConfigPath. destruct (decide _) as [Hblank|Hfilled].
  - by rewrite (proj2 (truthy_false _) Hblank).
  - by rewrite (proj2 (truthy_true _) Hfilled).
Qed.

(** C9. In create mode a blank trimmed secret sets an error and sends
    nothing, and a filled form sends the trimmed secret; in edit mode a
    blank secret is submitted as undefined and a filled one trimmed; in
    both modes a blank config path becomes providers.<provider>.apiKey
    built from the trimmed, lowercased provider; and an empty trimmed
    provider sets an error and sends nothing. *)
Theorem provider_auth_submit :
  (mode = create → trim (ProviderAuthFormPage.secret st) = "" →
   ∃ message,
     ProviderAuthFormPage.handleSubmit mode d st
     = (ProviderAuthFormPage.setError st (Some message), []))
  ∧ (mode = create →
     ProviderAuthFormPage.gatewayId mode d st ≠ "" →
     trim (ProviderAuthFormPage.provider mode d st) ≠ "" →
     trim (ProviderAuthFormPage.secret st) ≠ "" →
     ProviderAuthFormPage.handleSubmit mode d st
     = (ProviderAuthFormPage.setError st None,
        [ProviderAuthFormPage.CreateProviderAuth
           {| ProviderAuthFormPage.CreateData.gateway_id :=
                ProviderAuthFormPage.gatewayId mode d st;
              ProviderAuthFormPage.CreateData.provider :=
                toLowerCase (trim (ProviderAuthFormPage.provider mode d st));
              ProviderAuthFormPage.CreateData.config_path := expectedConfigPath mode d st;
              ProviderAuthFormPage.CreateData.secret :=
                trim (ProviderAuthFormPage.secret st) |}]))
  ∧ (∀ providerAuthId,
       mode = edit providerAuthId →
       providerAuthId ≠ "" →
       ProviderAuthFormPage.gatewayId mode d st ≠ "" →
       trim (ProviderAuthFormPage.provider mode d st) ≠ "" →
       ProviderAuthFormPage.handleSubmit mode d st
       = (ProviderAuthFormPage.setError st None,
          [ProviderAuthFormPage.UpdateProviderAuth providerAuthId
             {| ProviderAuthFormPage.UpdateData.provider :=
                  toLowerCase (trim (ProviderAuthFormPage.provider mode d st));
                ProviderAuthFormPage.UpdateData.config_path := expectedConfigPath mode d st;
                ProviderAuthFormPage.UpdateData.secret :=
                  if decide (trim (ProviderAuthFormPage.secret st) = "") then None
                  else Some (trim (ProviderAuthFormPage.secret st)) |}]))
  ∧ (trim (ProviderAuthFormPage.provider mode d st) = "" →
     ∃ message,
       ProviderAuthFormPage.handleSubmit mode d st
       = (ProviderAuthFormPage.setError st (Some message), [])).
Proof.
  unfold ProviderAuthFormPage.handleSubmit. cbv zeta.
  rewrite normalizedConfigPath_spec.
  set (gateway := ProviderAuthFormPage.gatewayId mode d st).
  set (provider := trim (ProviderAuthFormPage.provider mode d st)).
  split; [|split; [|split]].
  - intros -> Hsecret.
    destruct (truthy gateway); simpl; [|by eexists].
    destruct (truthy (toLowerCase provider)); simpl; [|by eexists].
    rewrite (proj2 (truthy_false _) Hsecret). by eexists.
  - intros Hmode Hgateway Hprovider Hsecret.
    assert (toLowerCase provider ≠ "") as Hlower by (by rewrite toLowerCase_empty).
    rewrite (proj2 (truthy_true _) Hgateway), (proj2 (truthy_true _) Hlower). simpl.
    subst gateway provider. rewrite Hmode in *.
    by rewrite (proj2 (truthy_true _) Hsecret).
  - intros providerAuthId Hmode Hid Hgateway Hprovider.
    assert (toLowerCase provider ≠ "") as Hlower by (by rewrite toLowerCase_empty).
    rewrite (proj2 (truthy_true _) Hgateway), (proj2 (truthy_true _) Hlower). simpl.
    subst gateway provider. rewrite Hmode in *.
    rewrite (proj2 (truthy_true _) Hid). simpl.
    destruct (decide _) as [Hblank|Hfilled].
    + by rewrite (proj2 (truthy_false _) Hblank).
    + by rewrite (proj2 (truthy_true _) Hfilled).
  - intros Hprovider.
    destruct (truthy gateway); simpl; [|by eexists].
    assert (toLowerCase provider = "") as Hlower by (by rewrite toLowerCase_empty).
    rewrite (proj2 (truthy_false _) Hlower). by eexists.
Qed.

End provider_auth_form.

Section provider_auth_examples.
#[local] Existing Instance AsciiRuntime.runtime.

Example provider_auth_create_blank_secret :
  ProviderAuthFormPage.handleSubmit create providerAuthData (providerAuthDraft "  ")
  = (ProviderAuthFormPage.setError (providerAuthDraft "  ") (Some "Secret is required."), []).
Proof. vm_compute. reflexivity. Qed.

Example provider_auth_edit_keeps_secret :
  ProviderAuthFormPage.handleSubmit (edit "pa-1") providerAuthData (providerAuthDraft "")
  = (providerAuthDraft "",
     [ProviderAuthFormPage.UpdateProviderAuth "pa-1"
        (ProviderAuthFormPage.UpdateData.mk "anthropic" "providers.anthropic.apiKey" None)]).
Proof. vm_compute. reflexivity. Qed.

Lemma provider_auth_submit_witness :
  ProviderAuthFormPage.handleSubmit create providerAuthData (providerAuthDraft " sk-1 ")
  = (ProviderAuthFormPage.setError (providerAuthDraft " sk-1 ") None,
     [ProviderAuthFormPage.CreateProviderAuth
        (ProviderAuthFormPage.CreateData.mk "gw-1" "anthropic" "providers.anthropic.apiKey"
           "sk-1")]).
Proof.
  etrans.
  - apply (proj1 (proj2 (provider_auth_submit create providerAuthData
                           (providerAuthDraft " sk-1 ")))).
    + reflexivity.
    + vm_compute. discriminate.
    + vm_compute. discriminate.
    + vm_compute. discriminate.
  - vm_compute. reflexivity.
Defined.

End provider_auth_examples.

(** * Gateway selection (C10) *)

Lemma someGateway_Names (gateways : list GatewayRead.t) (candidate : string) :
  someGateway gateways candidate = true ↔ Names gateways candidate.
Proof.
  unfold someGateway, Names. rewrite existsb_exists. split.
  - intros (gateway & Hin & Hid). exists gateway.
    split; [by apply list_elem_of_In|by apply bool_decide_eq_true in Hid].
  - intros (gateway & Hin & Hid). exists gateway.
    split; [by apply list_elem_of_In|by apply bool_decide_eq_true].
Qed.

Lemma truthyOpt_Present (value : option string) :
  truthyOpt value = true ↔ Present value (default "" value).
Proof.
  unfold Present. destruct value as [s|]; simpl.
  - rewrite truthy_true. tauto.
  - split; [done|]. by intros [? _].
Qed.

Lemma truthyOpt_Absent (value : option string) : truthyOpt value = false → Absent value.
Proof.
  intros Hfalse id [-> Hne]. simpl in Hfalse. apply truthy_false in Hfalse. done.
Qed.

Lemma resolveGatewayId_choice (gateways : list GatewayRead.t)
    (itemGateway draft : option string) (requested : string) :
  GatewayChoice gateways itemGateway draft requested
    (resolveGatewayId gateways itemGateway draft requested).
Proof.
  unfold GatewayChoice, resolveGatewayId. destruct gateways as [|first rest]; [done|].
  set (gateways := first :: rest).
  destruct (truthyOpt itemGateway) eqn:Hitem.
  { left. by apply truthyOpt_Present. }
  right. split; [by apply truthyOpt_Absent|].
  destruct (truthyOpt draft && someGateway gateways (default "" draft)) eqn:Hdraft.
  { left. apply andb_prop in Hdraft as [Hpresent Hnames].
    split; [by apply truthyOpt_Present|by apply someGateway_Names]. }
  right. split.
  { intros id [[-> Hne] Hnames].
    apply someGateway_Names in Hnames. apply truthy_true in Hne.
    change (truthy id && someGateway gateways id = false) in Hdraft.
    by rewrite Hne, Hnames in Hdraft. }
  destruct (truthy requested && someGateway gateways requested) eqn:Hrequested.
  { left. apply andb_prop in Hrequested as [Hpresent Hnames].
    split; [split; [done|by apply truthy_true]|by apply someGateway_Names]. }
  right. split; [|done].
  intros [[_ Hne] Hnames].
  rewrite (proj2 (truthy_true _) Hne), (proj2 (someGateway_Names _ _) Hnames) in Hrequested.
  done.
Qed.

Lemma activeGatewayId_resolve (d : ModelsSyncPage.Fetched) (st : ModelsSyncPage.State) :
  ModelsSyncPage.activeGatewayId d st
  = resolveGatewayId (ModelsSyncPage.gateways d) None (ModelsSyncPage.activeGatewayDraft st) "".
Proof.
  unfold ModelsSyncPage.activeGatewayId, resolveGatewayId.
  destruct (ModelsSyncPage.gateways d) as [|first rest]; simpl.
  - by rewrite andb_false_r.
  - by destruct (_ && _).
Qed.

(** C10. On both forms the resolved gateway id is the empty
    string when no gateway was fetched, and otherwise the edited item's
    non-empty gateway id as it is, else a non-empty draft that names a
    fetched gateway, else the trimmed ?gateway parameter when it is
    non-empty and names a fetched gateway, else the id of the first fetched
    gateway; a draft or parameter naming no fetched gateway is ignored. The
    result names a fetched gateway unless it is the edited item's own. The
    sync page, which has neither an edited item nor a query parameter,
    follows the same order with those two steps absent. *)
Theorem gateway_resolution `{JsRuntime} :
  (∀ mode d st,
     let itemGateway :=
       match mode with
       | edit _ => LlmModelRead.gateway_id <$> CatalogModelFormPage.currentItem mode d
       | create => None
       end in
     GatewayChoice (CatalogModelFormPage.gateways d) itemGateway
       (CatalogModelFormPage.gatewayDraft st) (CatalogModelFormPage.requestedGateway d)
       (CatalogModelFormPage.gatewayId mode d st)
     ∧ (CatalogModelFormPage.gateways d ≠ [] →
        Names (CatalogModelFormPage.gateways d) (CatalogModelFormPage.gatewayId mode d st)
        ∨ itemGateway = Some (CatalogModelFormPage.gatewayId mode d st)))
  ∧ (∀ mode d st,
       let itemGateway :=
         match mode with
         | edit _ => LlmProviderAuthRead.gateway_id <$> ProviderAuthFormPage.currentItem mode d
         | create => None
         end in
       GatewayChoice (ProviderAuthFormPage.gateways d) itemGateway
         (ProviderAuthFormPage.gatewayDraft st) (ProviderAuthFormPage.requestedGateway d)
         (ProviderAuthFormPage.gatewayId mode d st)
       ∧ (ProviderAuthFormPage.gateways d ≠ [] →
          Names (ProviderAuthFormPage.gateways d) (ProviderAuthFormPage.gatewayId mode d st)
          ∨ itemGateway = Some (ProviderAuthFormPage.gatewayId mode d st)))
  ∧ (∀ d st,
       GatewayChoice (ModelsSyncPage.gateways d) None
         (ModelsSyncPage.activeGatewayDraft st) "" (ModelsSyncPage.activeGatewayId d st)
       ∧ (ModelsSyncPage.gateways d ≠ [] →
          Names (ModelsSyncPage.gateways d) (ModelsSyncPage.activeGatewayId d st))).
Proof.
  assert (∀ gateways itemGateway draft requested result,
            GatewayChoice gateways itemGateway draft requested result →
            gateways ≠ [] → Names gateways result ∨ itemGateway = Some result) as Hnames.
  { intros gateways itemGateway draft requested result Hchoice Hne.
    unfold GatewayChoice in Hchoice. destruct gateways as [|first rest]; [done|].
    destruct Hchoice as [[-> _]|[_ [[_ Hn]|[_ [[_ Hn]|[_ ->]]]]]]; auto.
    left. exists first. split; [left|done]. }
  split; [|split].
  - intros mode d st itemGateway.
    pose proof (resolveGatewayId_choice (CatalogModelFormPage.gateways d) itemGateway
                  (CatalogModelFormPage.gatewayDraft st)
                  (CatalogModelFormPage.requestedGateway d)) as Hchoice.
    split; [exact Hchoice|]. exact (Hnames _ _ _ _ _ Hchoice).
  - intros mode d st itemGateway.
    pose proof (resolveGatewayId_choice (ProviderAuthFormPage.gateways d) itemGateway
                  (ProviderAuthFormPage.gatewayDraft st)
                  (ProviderAuthFormPage.requestedGateway d)) as Hchoice.
    split; [exact Hchoice|]. exact (Hnames _ _ _ _ _ Hchoice).
  - intros d st. rewrite activeGatewayId_resolve.
    pose proof (resolveGatewayId_choice (ModelsSyncPage.gateways d) None
                  (ModelsSyncPage.activeGatewayDraft st) "") as Hchoice.
    split; [exact Hchoice|]. intros Hne.
    by destruct (Hnames _ _ _ _ _ Hchoice Hne).
Qed.

Section gateway_examples.
#[local] Existing Instance AsciiRuntime.runtime.

Example orphan_gateway :
  CatalogModelFormPage.gatewayId (edit "m-2") orphanData untouchedForm = "gw-2".
Proof. vm_compute. reflexivity. Qed.

Example sync_first_gateway :
  ModelsSyncPage.activeGatewayId twoGateways (ModelsSyncPage.mkState None None) = "gw-1".
Proof. vm_compute. reflexivity. Qed.

Example requested_gateway_trimmed :
  ProviderAuthFormPage.gatewayId create providerAuthData (providerAuthDraft "") = "gw-1"
  ∧ ProviderAuthFormPage.requestedGateway providerAuthData = "gw-1".
Proof. split; vm_compute; reflexivity. Qed.

(** C10 in its general form fails twice: the edited item's gateway is
    taken as it is, so the result need not be a fetched gateway; and the
    sync page
    reads no query parameter, so with [?gateway=gw-2] in the address it
    still selects the first gateway. *)
Lemma gateway_resolution_counterexample :
  (CatalogModelFormPage.gateways orphanData ≠ []
   ∧ ¬ Names (CatalogModelFormPage.gateways orphanData)
         (CatalogModelFormPage.gatewayId (edit "m-2") orphanData untouchedForm))
  ∧ ¬ GatewayChoice (ModelsSyncPage.gateways twoGateways) None None "gw-2"
        (ModelsSyncPage.activeGatewayId twoGateways (ModelsSyncPage.mkState None None)).
Proof.
  split.
  - split; [done|]. rewrite orphan_gateway. intros (gateway & Hin & Hid).
    apply list_elem_of_In in Hin. simpl in Hin. destruct Hin as [<-|[]]. discriminate Hid.
  - rewrite sync_first_gateway. unfold GatewayChoice. simpl.
    intros [[Hitem _]|[_ [[[Hdraft _] _]|[_ [[[Hrequested _] _]|[Hno _]]]]]]; try discriminate.
    apply Hno. split; [by split|].
    eexists (GatewayRead.mk "gw-2" "Beta"). split; [|reflexivity].
    apply list_elem_of_In. simpl. tauto.
Qed.

End gateway_examples.

(** * The tables on sample rows *)

Section table_examples.
#[local] Existing Instance AsciiRuntime.runtime.

(** Freshly mounted: by gateway name ascending, "Alpha" before
    "Unknown gateway", the two rows of Alpha by provider name. *)
Example provider_rows_by_gateway :
  LlmProviderAuthRead.id <$>
    ModelsWorkspace.providerRows sampleWorkspace ModelsWorkspace.initialState
  = ["pa-2"; "pa-1"; "pa-3"].
Proof. vm_compute. reflexivity. Qed.

(** Two clicks on "Updated": newest first. *)
Example provider_rows_by_updated_desc :
  LlmProviderAuthRead.id <$>
    ModelsWorkspace.providerRows sampleWorkspace
      (ModelsWorkspace.setProviderSort
         (ModelsWorkspace.setProviderSort ModelsWorkspace.initialState
            ModelsWorkspace.ProviderSortKey.updated)
         ModelsWorkspace.ProviderSortKey.updated)
  = ["pa-1"; "pa-3"; "pa-2"].
Proof. vm_compute. reflexivity. Qed.

(** The provider column ignores case: "Anthropic" sorts before "mistral". *)
Example provider_rows_by_provider :
  LlmProviderAuthRead.id <$>
    ModelsWorkspace.providerRows sampleWorkspace
      (ModelsWorkspace.setProviderSort ModelsWorkspace.initialState
         ModelsWorkspace.ProviderSortKey.provider)
  = ["pa-2"; "pa-3"; "pa-1"].
Proof. vm_compute. reflexivity. Qed.

Example routing_rows_by_status_desc :
  (λ row, (AgentRead.id (ModelsWorkspace.agent row), ModelsWorkspace.status row)) <$>
    ModelsWorkspace.sortedRoutingRows sampleWorkspace
      (ModelsWorkspace.setRoutingSort
         (ModelsWorkspace.setRoutingSort ModelsWorkspace.initialState
            ModelsWorkspace.RoutingSortKey.status)
         ModelsWorkspace.RoutingSortKey.status)
  = [("a-1", RoutingStatus.default); ("a-2", RoutingStatus.override)].
Proof. vm_compute. reflexivity. Qed.

End table_examples.

(** * Further properties of the routing editor *)

Lemma stringListsMatch_true (left right : list string) :
  AgentRoutingEditPage.stringListsMatch left right = true ↔ left = right.
Proof.
  unfold AgentRoutingEditPage.stringListsMatch. case_bool_decide as Hlen.
  - split; [done|]. intros ->. done.
  - revert right Hlen.
    induction left as [|x left IH]; intros [|y right] Hlen; simpl in *; try done.
    case_bool_decide as Hxy.
    + split; [done|]. congruence.
    + subst y. rewrite IH by lia.
      split; congruence.
Qed.

(** X1. [stringListsMatch] decides equality of two id lists. *)
Theorem stringListsMatch_eq (left right : list string) :
  AgentRoutingEditPage.stringListsMatch left right = true ↔ left = right.
Proof. exact (stringListsMatch_true left right). Qed.

Section array_callbacks.
Context {A : Type} `{EqDecision A}.

Lemma indexOf_lookup (l : list A) (v : A) :
  v ∈ l → (0 ≤ indexOf l v)%Z ∧ l !! Z.to_nat (indexOf l v) = Some v.
Proof.
  induction l as [|x l IH]; [by intros ?%not_elem_of_nil|].
  intros Hin. simpl. destruct (decide (x = v)) as [->|Hne]; [done|].
  apply elem_of_cons in Hin as [->|Hin]; [done|].
  destruct (IH Hin) as [Hpos Hat].
  destruct (Z.ltb_spec (indexOf l v) 0) as [Hneg|_]; [lia|].
  split; [lia|]. by rewrite Z2Nat.inj_add, Nat.add_1_r by lia.
Qed.

Lemma indexOf_first (l : list A) (v : A) (k : nat) :
  l !! k = Some v → (indexOf l v ≤ Z.of_nat k)%Z.
Proof.
  revert k. induction l as [|x l IH]; intros k; [done|]. simpl.
  destruct (decide (x = v)) as [->|Hne]; [lia|].
  destruct k as [|k]; simpl; [congruence|].
  intros Hat. specialize (IH k Hat).
  destruct (Z.ltb_spec (indexOf l v) 0); lia.
Qed.

(** [indexOf] gives every position of the array back exactly when the
    array has no duplicates. *)
Lemma indexOf_own_position (l : list A) :
  (∀ k x, l !! k = Some x → indexOf l x = Z.of_nat k) ↔ NoDup l.
Proof.
  rewrite NoDup_alt. split.
  - intros Hown i j x Hi Hj. apply Hown in Hi, Hj. lia.
  - intros Hnodup k x Hk.
    destruct (indexOf_lookup l x) as [Hpos Hat]; [by eapply list_elem_of_lookup_2|].
    specialize (Hnodup _ _ _ Hat Hk). lia.
Qed.

Context (p : A → Z → list A → bool) (whole : list A).

Lemma filterFrom_elem_iff (index : Z) (l : list A) (x : A) :
  x ∈ filterFrom p whole index l
  ↔ ∃ k : nat, l !! k = Some x ∧ p x (index + Z.of_nat k)%Z whole = true.
Proof.
  revert index. induction l as [|y l IH]; intros index; simpl.
  - split; [by intros ?%not_elem_of_nil|]. by intros (k & Hk & _).
  - assert (x ∈ filterFrom p whole (index + 1) l
            ↔ ∃ k : nat, (y :: l) !! S k = Some x
                         ∧ p x (index + Z.of_nat (S k))%Z whole = true) as Htail.
    { rewrite IH. split; intros (k & Hk & Hp); exists k; (split; [done|]).
      - by replace (index + Z.of_nat (S k))%Z with (index + 1 + Z.of_nat k)%Z by lia.
      - by replace (index + 1 + Z.of_nat k)%Z with (index + Z.of_nat (S k))%Z by lia. }
    destruct (p y index whole) eqn:Hp.
    + rewrite elem_of_cons, Htail. split.
      * intros [->|(k & Hk & Hpk)]; [|by exists (S k)].
        exists 0. split; [done|]. by rewrite Z.add_0_r.
      * intros ([|k] & Hk & Hpk); [left; simpl in Hk; congruence|right; by exists k].
    + rewrite Htail. split.
      * intros (k & Hk & Hpk). by exists (S k).
      * intros ([|k] & Hk & Hpk); [|by exists k].
        simpl in Hk. injection Hk as ->. rewrite Z.add_0_r in Hpk. congruence.
Qed.

Lemma filterFrom_sublist (index : Z) (l : list A) :
  filterFrom p whole index l `sublist_of` l.
Proof.
  revert index. induction l as [|y l IH]; intros index; simpl; [done|].
  destruct (p y index whole); [by apply sublist_skip|by apply sublist_cons].
Qed.

(** The callback keeps the whole array exactly when it accepts every
    element at its position. *)
Lemma filterFrom_all (index : Z) (l : list A) :
  filterFrom p whole index l = l
  ↔ ∀ (k : nat) x, l !! k = Some x → p x (index + Z.of_nat k)%Z whole = true.
Proof.
  revert index. induction l as [|y l IH]; intros index; simpl.
  - split; [by intros _ k x|done].
  - destruct (p y index whole) eqn:Hp.
    + split.
      * intros Heq. injection Heq as Heq. rewrite IH in Heq.
        intros [|k] x Hk; simpl in Hk.
        -- injection Hk as <-. by rewrite Z.add_0_r.
        -- specialize (Heq k x Hk).
           by replace (index + Z.of_nat (S k))%Z with (index + 1 + Z.of_nat k)%Z by lia.
      * intros Hall. f_equal. apply IH. intros k x Hk.
        specialize (Hall (S k) x Hk).
        by replace (index + 1 + Z.of_nat k)%Z with (index + Z.of_nat (S k))%Z by lia.
    + split.
      * intros Heq. pose proof (sublist_length _ _ (filterFrom_sublist (index + 1) l)) as Hlen.
        rewrite Heq in Hlen. simpl in Hlen. lia.
      * intros Hall. specialize (Hall 0 y eq_refl). rewrite Z.add_0_r in Hall. congruence.
Qed.

End array_callbacks.

Section routing_editor.
Context (agentId : string) (d : AgentRoutingEditPage.Fetched).

Lemma fallbackModelIds_iff (st : AgentRoutingEditPage.State) :
  (∀ id,
     id ∈ AgentRoutingEditPage.fallbackModelIds agentId d st
     ↔ id ∈ default (AgentRoutingEditPage.baselineFallbackModelIds agentId d)
                (AgentRoutingEditPage.fallbackModelDraft st)
       ∧ id ≠ AgentRoutingEditPage.primaryModelId agentId d st
       ∧ id ∈ AgentRoutingEditPage.availableModelIds agentId d)
  ∧ AgentRoutingEditPage.fallbackModelIds agentId d st
      `sublist_of` default (AgentRoutingEditPage.baselineFallbackModelIds agentId d)
                     (AgentRoutingEditPage.fallbackModelDraft st)
  ∧ NoDup (AgentRoutingEditPage.fallbackModelIds agentId d st).
Proof.
  split; [|split; [apply filterFrom_sublist|apply fallbackModelIds_NoDup]].
  intros id. split.
  - intros Hin. destruct (fallbackModelIds_elem agentId d st id Hin) as [Hne Havailable].
    split; [|done].
    unfold AgentRoutingEditPage.fallbackModelIds, filterIndexed in Hin.
    by apply filterFrom_elem in Hin as [Hsource _].
  - intros (Hsource & Hne & Havailable).
    unfold AgentRoutingEditPage.fallbackModelIds, filterIndexed.
    apply filterFrom_elem_iff.
    destruct (indexOf_lookup _ _ Hsource) as [Hpos Hat].
    eexists. split; [exact Hat|].
    rewrite !andb_true_iff, !bool_decide_eq_true. repeat split; try done. lia.
Qed.

(** X2. An id is displayed as a fallback exactly when it is in the fallback
    source (the draft, else the agent's stored list), is an id of the
    gateway's catalog and is not the primary; the displayed ids keep the
    order of the source and none is repeated. *)
Theorem fallbackModelIds_spec (st : AgentRoutingEditPage.State) :
  (∀ id,
     id ∈ AgentRoutingEditPage.fallbackModelIds agentId d st
     ↔ id ∈ default (AgentRoutingEditPage.baselineFallbackModelIds agentId d)
                (AgentRoutingEditPage.fallbackModelDraft st)
       ∧ id ≠ AgentRoutingEditPage.primaryModelId agentId d st
       ∧ id ∈ AgentRoutingEditPage.availableModelIds agentId d)
  ∧ AgentRoutingEditPage.fallbackModelIds agentId d st
      `sublist_of` default (AgentRoutingEditPage.baselineFallbackModelIds agentId d)
                     (AgentRoutingEditPage.fallbackModelDraft st)
  ∧ NoDup (AgentRoutingEditPage.fallbackModelIds agentId d st).
Proof. exact (fallbackModelIds_iff st). Qed.

Lemma hasUnsavedChanges_false (st : AgentRoutingEditPage.State) :
  AgentRoutingEditPage.hasUnsavedChanges agentId d st = false
  ↔ AgentRoutingEditPage.agent agentId d = None
    ∨ (AgentRoutingEditPage.baselinePrimaryModelId agentId d
         = AgentRoutingEditPage.primaryModelId agentId d st
       ∧ AgentRoutingEditPage.baselineFallbackModelIds agentId d
         = AgentRoutingEditPage.fallbackModelIds agentId d st).
Proof.
  unfold AgentRoutingEditPage.hasUnsavedChanges.
  destruct (AgentRoutingEditPage.agent agentId d) as [a|] eqn:Hagent.
  - rewrite orb_false_iff, !negb_false_iff, bool_decide_eq_true, stringListsMatch_true.
    split; [by right|]. by intros [?|?].
  - split; [by left|done].
Qed.

Lemma hasUnsavedChanges_initial :
  AgentRoutingEditPage.hasUnsavedChanges agentId d AgentRoutingEditPage.initialState = false
  ↔ AgentRoutingEditPage.agent agentId d = None
    ∨ NormalizedRouting agentId d
        (AgentRoutingEditPage.baselinePrimaryModelId agentId d)
        (AgentRoutingEditPage.baselineFallbackModelIds agentId d).
Proof.
  rewrite hasUnsavedChanges_false. unfold NormalizedRouting.
  set (st := AgentRoutingEditPage.initialState).
  set (baseline := AgentRoutingEditPage.baselinePrimaryModelId agentId d).
  set (stored := AgentRoutingEditPage.baselineFallbackModelIds agentId d).
  assert (baseline = AgentRoutingEditPage.primaryModelId agentId d st
          ↔ baseline = "" ∨ baseline ∈ AgentRoutingEditPage.availableModelIds agentId d)
    as Hprimary.
  { unfold AgentRoutingEditPage.primaryModelId, AgentRoutingEditPage.primaryModelIdCandidate.
    simpl. fold baseline. case_bool_decide; split; auto. by intros [?|?]. }
  assert (baseline = AgentRoutingEditPage.primaryModelId agentId d st →
          (stored = AgentRoutingEditPage.fallbackModelIds agentId d st
           ↔ NoDup stored
             ∧ ∀ id, id ∈ stored →
                 id ≠ baseline ∧ id ∈ AgentRoutingEditPage.availableModelIds agentId d))
    as Hfallbacks.
  { intros Hbase. split.
    - intros Heq. pose proof (fallbackModelIds_iff st) as (Hmem & _ & Hnodup).
      rewrite <- Heq in Hmem, Hnodup. split; [done|].
      intros id Hid. apply Hmem in Hid as (_ & Hne & Havailable). by rewrite Hbase.
    - intros [Hnodup Hall]. symmetry.
      unfold AgentRoutingEditPage.fallbackModelIds, filterIndexed. simpl. fold stored.
      apply filterFrom_all. intros k id Hk.
      rewrite !andb_true_iff, !bool_decide_eq_true.
      destruct (Hall id (list_elem_of_lookup_2 _ _ _ Hk)) as [Hne Havailable].
      repeat split; [by rewrite <- Hbase|done|].
      rewrite Z.add_0_l. by apply indexOf_own_position. }
  split.
  - intros [Hnone|[Hp Hf]]; [by left|right].
    split; [by apply Hprimary|]. by apply Hfallbacks.
  - intros [Hnone|(Hp & Hf)]; [by left|right].
    apply Hprimary in Hp. split; [done|]. by apply Hfallbacks.
Qed.

(** X3. The freshly opened editor reports no unsaved changes exactly when
    it found no agent or the agent's stored routing is already what the
    editor would send: the stored primary is empty or an id of the gateway's
    catalog, and the stored fallbacks are ids of that catalog, without
    duplicates and without the primary. *)
Theorem opens_saved_iff_normalized :
  AgentRoutingEditPage.hasUnsavedChanges agentId d AgentRoutingEditPage.initialState = false
  ↔ AgentRoutingEditPage.agent agentId d = None
    ∨ NormalizedRouting agentId d
        (AgentRoutingEditPage.baselinePrimaryModelId agentId d)
        (AgentRoutingEditPage.baselineFallbackModelIds agentId d).
Proof. exact (hasUnsavedChanges_initial). Qed.

Lemma handleSave_result (st : AgentRoutingEditPage.State) :
  match AgentRoutingEditPage.agent agentId d with
  | Some a =>
      AgentRoutingEditPage.handleSave agentId d st
      = (AgentRoutingEditPage.setError st None,
         [ {| AgentRoutingEditPage.request_agentId := AgentRead.id a;
              AgentRoutingEditPage.force := true;
              AgentRoutingEditPage.primary_model_id :=
                if decide (AgentRoutingEditPage.primaryModelId agentId d st = "")
                then None else Some (AgentRoutingEditPage.primaryModelId agentId d st);
              AgentRoutingEditPage.fallback_model_ids :=
                if decide (AgentRoutingEditPage.fallbackModelIds agentId d st = [])
                then None else Some (AgentRoutingEditPage.fallbackModelIds agentId d st) |} ])
  | None =>
      AgentRoutingEditPage.handleSave agentId d st
      = (AgentRoutingEditPage.setError st (Some "Agent not found."), [])
  end.
Proof.
  unfold AgentRoutingEditPage.handleSave.
  destruct (AgentRoutingEditPage.agent agentId d) as [a|]; [|done].
  assert (truthy (AgentRoutingEditPage.primaryModelId agentId d st)
          && negb (bool_decide (AgentRoutingEditPage.primaryModelId agentId d st
                                  ∈ AgentRoutingEditPage.availableModelIds agentId d))
          = false) as ->.
  { destruct (primaryModelId_cases agentId d st) as [->|[_ Havailable]]; [done|].
    by rewrite (bool_decide_eq_true_2 _ Havailable), andb_false_r. }
  do 3 f_equal.
  - destruct (decide _) as [Hempty|Hne].
    + by rewrite (proj2 (truthy_false _) Hempty).
    + by rewrite (proj2 (truthy_true _) Hne).
  - destruct (AgentRoutingEditPage.fallbackModelIds agentId d st); [done|].
    by destruct (decide _).
Qed.

(** X5. Saving sends exactly one request, for the agent the editor found,
    and clears the error; the guard on a primary outside the gateway's
    catalog never fires, so the only refusal is a missing agent. *)
Theorem handleSave_outcome (st : AgentRoutingEditPage.State) :
  match AgentRoutingEditPage.agent agentId d with
  | Some a =>
      AgentRoutingEditPage.handleSave agentId d st
      = (AgentRoutingEditPage.setError st None,
         [ {| AgentRoutingEditPage.request_agentId := AgentRead.id a;
              AgentRoutingEditPage.force := true;
              AgentRoutingEditPage.primary_model_id :=
                if decide (AgentRoutingEditPage.primaryModelId agentId d st = "")
                then None else Some (AgentRoutingEditPage.primaryModelId agentId d st);
              AgentRoutingEditPage.fallback_model_ids :=
                if decide (AgentRoutingEditPage.fallbackModelIds agentId d st = [])
                then None else Some (AgentRoutingEditPage.fallbackModelIds agentId d st) |} ])
  | None =>
      AgentRoutingEditPage.handleSave agentId d st
      = (AgentRoutingEditPage.setError st (Some "Agent not found."), [])
  end.
Proof. exact (handleSave_result st). Qed.

End routing_editor.

Lemma omap_inverse {A B : Type} (f : A → option B) (g : B → A) (l : list A) :
  (∀ x, x ∈ l → ∃ y, f x = Some y ∧ g y = x) → g <$> omap f l = l.
Proof.
  induction l as [|x l IH]; intros Hresolve; [done|].
  destruct (Hresolve x) as (y & Hy & Hx); [left|].
  cbn. rewrite Hy. cbn. rewrite Hx. f_equal. apply IH.
  intros x' Hx'. apply Hresolve. by right.
Qed.

Section routing_editor_events.
Context (agentId : string) (d : AgentRoutingEditPage.Fetched).

Lemma availableModelIds_same (d' : AgentRoutingEditPage.Fetched) (a a' : AgentRead.t) :
  AgentRoutingEditPage.agent agentId d = Some a →
  AgentRoutingEditPage.agent agentId d' = Some a' →
  AgentRoutingEditPage.models d' = AgentRoutingEditPage.models d →
  AgentRead.gateway_id a' = AgentRead.gateway_id a →
  AgentRoutingEditPage.availableModelIds agentId d'
  = AgentRoutingEditPage.availableModelIds agentId d.
Proof.
  intros Hagent Hagent' Hmodels Hgateway.
  unfold AgentRoutingEditPage.availableModelIds, AgentRoutingEditPage.modelsForGateway.
  by rewrite Hagent, Hagent', Hmodels, Hgateway.
Qed.

(** X4. A save round trip: when the agent comes back from the server with
    exactly the primary_model_id and fallback_model_ids of a save request,
    and the gateway's catalog is unchanged, the reopened editor reports no
    unsaved changes. *)
Theorem saved_routing_reopens_saved (d' : AgentRoutingEditPage.Fetched)
    (st : AgentRoutingEditPage.State) (a a' : AgentRead.t)
    (request : AgentRoutingEditPage.UpdateAgentRequest) :
  AgentRoutingEditPage.agent agentId d = Some a →
  request ∈ (AgentRoutingEditPage.handleSave agentId d st).2 →
  AgentRoutingEditPage.agent agentId d' = Some a' →
  AgentRoutingEditPage.models d' = AgentRoutingEditPage.models d →
  AgentRead.gateway_id a' = AgentRead.gateway_id a →
  AgentRead.primary_model_id a' = AgentRoutingEditPage.primary_model_id request →
  AgentRead.fallback_model_ids a' = AgentRoutingEditPage.fallback_model_ids request →
  AgentRoutingEditPage.hasUnsavedChanges agentId d' AgentRoutingEditPage.initialState = false.
Proof.
  intros Hagent Hrequest Hagent' Hmodels Hgateway Hprimary Hfallbacks.
  pose proof (handleSave_result agentId d st) as Hsave. rewrite Hagent in Hsave.
  rewrite Hsave in Hrequest. simpl in Hrequest.
  apply list_elem_of_singleton in Hrequest. subst request. simpl in *.
  apply hasUnsavedChanges_initial. right.
  unfold NormalizedRouting, AgentRoutingEditPage.baselinePrimaryModelId,
    AgentRoutingEditPage.baselineFallbackModelIds.
  rewrite Hagent', Hprimary, Hfallbacks,
    (availableModelIds_same d' a a' Hagent Hagent' Hmodels Hgateway).
  pose proof (fallbackModelIds_iff agentId d st) as (Hmem & _ & Hnodup).
  assert (default "" (if decide (AgentRoutingEditPage.primaryModelId agentId d st = "")
                      then None
                      else Some (AgentRoutingEditPage.primaryModelId agentId d st))
          = AgentRoutingEditPage.primaryModelId agentId d st) as ->.
  { destruct (decide (AgentRoutingEditPage.primaryModelId agentId d st = ""));
      simpl; congruence. }
  assert (default [] (if decide (AgentRoutingEditPage.fallbackModelIds agentId d st = [])
                      then None
                      else Some (AgentRoutingEditPage.fallbackModelIds agentId d st))
          = AgentRoutingEditPage.fallbackModelIds agentId d st) as ->.
  { destruct (decide (AgentRoutingEditPage.fallbackModelIds agentId d st = []));
      simpl; congruence. }
  split; [|split; [done|]].
  - destruct (primaryModelId_cases agentId d st) as [?|[_ ?]]; auto.
  - intros id Hid. by apply Hmem in Hid as (_ & ? & ?).
Qed.

(** X6. Choosing a non-empty id of the gateway's catalog in the primary
    selector makes it the primary: the status becomes override and the
    effective primary is a catalog model with that id. Any other value
    (the empty string, an id outside the catalog) leaves no override and
    the gateway default as the effective primary. *)
Theorem primary_selection (st : AgentRoutingEditPage.State) (value : string) :
  (value ∈ AgentRoutingEditPage.availableModelIds agentId d → value ≠ "" →
   AgentRoutingEditPage.primaryModelId agentId d
     (AgentRoutingEditPage.handlePrimaryChange agentId d st value) = value
   ∧ AgentRoutingEditPage.status agentId d
       (AgentRoutingEditPage.handlePrimaryChange agentId d st value) = RoutingStatus.override
   ∧ ∃ model,
       AgentRoutingEditPage.effectivePrimaryModel agentId d
         (AgentRoutingEditPage.handlePrimaryChange agentId d st value) = Some model
       ∧ LlmModelRead.id model = value
       ∧ model ∈ AgentRoutingEditPage.modelsForGateway agentId d)
  ∧ (value ∉ AgentRoutingEditPage.availableModelIds agentId d ∨ value = "" →
     AgentRoutingEditPage.primaryModelId agentId d
       (AgentRoutingEditPage.handlePrimaryChange agentId d st value) = ""
     ∧ AgentRoutingEditPage.status agentId d
         (AgentRoutingEditPage.handlePrimaryChange agentId d st value) ≠ RoutingStatus.override
     ∧ AgentRoutingEditPage.effectivePrimaryModel agentId d
         (AgentRoutingEditPage.handlePrimaryChange agentId d st value)
       = AgentRoutingEditPage.defaultPrimaryModel agentId d).
Proof.
  set (st' := AgentRoutingEditPage.handlePrimaryChange agentId d st value).
  assert (AgentRoutingEditPage.primaryModelId agentId d st'
          = if bool_decide (value ∈ AgentRoutingEditPage.availableModelIds agentId d)
            then value else "") as Hpm by done.
  unfold AgentRoutingEditPage.status, AgentRoutingEditPage.effectivePrimaryModel,
    AgentRoutingEditPage.selectedPrimary.
  rewrite Hpm. split.
  - intros Havailable Hne. rewrite (bool_decide_eq_true_2 _ Havailable).
    rewrite (proj2 (truthy_true _) Hne). split; [done|]. split; [done|].
    destruct (modelsById_lookup_available agentId d _ Havailable) as [model Hmodel].
    rewrite Hmodel. exists model. split; [done|].
    apply modelsById_lookup_Some in Hmodel as [Hin Hid]. done.
  - intros Hother.
    assert ((if bool_decide (value ∈ AgentRoutingEditPage.availableModelIds agentId d)
             then value else "") = "") as ->.
    { case_bool_decide; [|done]. by destruct Hother. }
    rewrite (proj2 (truthy_false "") eq_refl).
    split; [done|]. split; [|done].
    destruct (bool_decide (is_Some (AgentRoutingEditPage.defaultPrimaryModel agentId d)));
      discriminate.
Qed.

(** X7. Ticking a fallback checkbox adds its value to the displayed
    fallbacks when the value is an id of the catalog other than the primary,
    unticking removes it, and neither touches another value. *)
Theorem fallback_toggle (st : AgentRoutingEditPage.State) (value : string) :
  (∀ id,
     id ∈ AgentRoutingEditPage.fallbackModelIds agentId d
            (AgentRoutingEditPage.handleFallbackChange agentId d st value true)
     ↔ id ∈ AgentRoutingEditPage.fallbackModelIds agentId d st
       ∨ (id = value
          ∧ value ≠ AgentRoutingEditPage.primaryModelId agentId d st
          ∧ value ∈ AgentRoutingEditPage.availableModelIds agentId d))
  ∧ (∀ id,
       id ∈ AgentRoutingEditPage.fallbackModelIds agentId d
              (AgentRoutingEditPage.handleFallbackChange agentId d st value false)
       ↔ id ∈ AgentRoutingEditPage.fallbackModelIds agentId d st ∧ id ≠ value).
Proof.
  pose proof (fallbackModelIds_iff agentId d st) as [Hmem _].
  set (source := default (AgentRoutingEditPage.baselineFallbackModelIds agentId d)
                   (AgentRoutingEditPage.fallbackModelDraft st)) in *.
  split; intros id.
  - pose proof (fallbackModelIds_iff agentId d
                  (AgentRoutingEditPage.handleFallbackChange agentId d st value true))
      as [Hmem' _].
    rewrite Hmem', Hmem.
    change (AgentRoutingEditPage.primaryModelId agentId d
              (AgentRoutingEditPage.handleFallbackChange agentId d st value true))
      with (AgentRoutingEditPage.primaryModelId agentId d st).
    simpl. fold source.
    assert (id ∈ (if bool_decide (value ∈ source) then source else (source ++ [value])%list)
            ↔ id ∈ source ∨ id = value) as ->.
    { case_bool_decide as Hin.
      - split; [by left|]. by intros [?| ->].
      - by rewrite elem_of_app, list_elem_of_singleton. }
    split.
    + intros ([?| ->] & ? & ?); auto.
    + intros [(? & ? & ?)|(-> & ? & ?)]; auto.
  - pose proof (fallbackModelIds_iff agentId d
                  (AgentRoutingEditPage.handleFallbackChange agentId d st value false))
      as [Hmem' _].
    rewrite Hmem', Hmem.
    change (AgentRoutingEditPage.primaryModelId agentId d
              (AgentRoutingEditPage.handleFallbackChange agentId d st value false))
      with (AgentRoutingEditPage.primaryModelId agentId d st).
    simpl. fold source. rewrite list_elem_of_filter. tauto.
Qed.

(** X8. The fallback badges are the catalog models of the displayed
    fallback ids, one for each id and in the same order. *)
Theorem selectedFallbackModels_ids (st : AgentRoutingEditPage.State) :
  LlmModelRead.id <$> AgentRoutingEditPage.selectedFallbackModels agentId d st
  = AgentRoutingEditPage.fallbackModelIds agentId d st.
Proof.
  unfold AgentRoutingEditPage.selectedFallbackModels.
  assert (∀ id, id ∈ AgentRoutingEditPage.fallbackModelIds agentId d st →
                ∃ model, AgentRoutingEditPage.modelsById agentId d !! id = Some model
                         ∧ LlmModelRead.id model = id) as Hresolve.
  { intros id [_ Havailable]%fallbackModelIds_elem.
    destruct (modelsById_lookup_available agentId d id Havailable) as [model Hmodel].
    exists model. split; [done|]. by apply modelsById_lookup_Some in Hmodel as [_ ?]. }
  by apply omap_inverse.
Qed.

(** X9. The status badge and the effective-primary cell agree in every
    state of the editor: override exactly when the selected primary
    resolves to a catalog model, default exactly when it does not and the
    gateway default is shown, unconfigured exactly when no model is shown. *)
Theorem status_matches_effective_primary (st : AgentRoutingEditPage.State) :
  (AgentRoutingEditPage.status agentId d st = RoutingStatus.override
   ↔ is_Some (AgentRoutingEditPage.selectedPrimary agentId d st))
  ∧ (AgentRoutingEditPage.status agentId d st = RoutingStatus.default
     ↔ AgentRoutingEditPage.selectedPrimary agentId d st = None
       ∧ is_Some (AgentRoutingEditPage.effectivePrimaryModel agentId d st))
  ∧ (AgentRoutingEditPage.status agentId d st = RoutingStatus.unconfigured
     ↔ AgentRoutingEditPage.effectivePrimaryModel agentId d st = None).
Proof.
  unfold AgentRoutingEditPage.status, AgentRoutingEditPage.effectivePrimaryModel,
    AgentRoutingEditPage.selectedPrimary.
  destruct (truthy (AgentRoutingEditPage.primaryModelId agentId d st)) eqn:Htruthy.
  - apply truthy_true in Htruthy.
    destruct (primaryModelId_cases agentId d st) as [?|[_ Havailable]]; [done|].
    destruct (modelsById_lookup_available agentId d _ Havailable) as [model ->].
    repeat split; try done; try (by intros [? ?]).
  - destruct (AgentRoutingEditPage.defaultPrimaryModel agentId d) as [model|]; simpl.
    + repeat split; try done; try (by intros [? ?]).
    + repeat split; try done; try (by intros [? ?]); try (by intros [_ [? ?]]).
Qed.

(** X10. With no save pending, "Clear override" followed by "Save
    routing" sends one request with null for both the primary and the
    fallbacks exactly when the agent has a stored primary or stored
    fallbacks. When nothing is stored, "Save routing" stays disabled after
    the clear and nothing is sent; when the page found no agent, both
    buttons are disabled and nothing changes. *)
Theorem clear_then_save (st : AgentRoutingEditPage.State) :
  match AgentRoutingEditPage.agent agentId d with
  | Some a =>
      AgentRoutingEditPage.clickSave agentId d
        (AgentRoutingEditPage.clickClearOverride agentId d st false) false
      = (AgentRoutingEditPage.handleClearOverride,
         if decide (AgentRoutingEditPage.baselinePrimaryModelId agentId d = ""
                    ∧ AgentRoutingEditPage.baselineFallbackModelIds agentId d = [])
         then []
         else [AgentRoutingEditPage.mkRequest (AgentRead.id a) true None None])
  | None =>
      AgentRoutingEditPage.clickSave agentId d
        (AgentRoutingEditPage.clickClearOverride agentId d st false) false
      = (st, [])
  end.
Proof.
  pose proof (handleSave_result agentId d AgentRoutingEditPage.handleClearOverride) as Hsave.
  pose proof (hasUnsavedChanges_false agentId d AgentRoutingEditPage.handleClearOverride)
    as Hsaved.
  unfold AgentRoutingEditPage.clickSave, AgentRoutingEditPage.clickClearOverride,
    AgentRoutingEditPage.saveDisabled, AgentRoutingEditPage.clearDisabled.
  destruct (AgentRoutingEditPage.agent agentId d) as [a|] eqn:Hagent; simpl; [|done].
  assert (AgentRoutingEditPage.primaryModelId agentId d
            AgentRoutingEditPage.handleClearOverride = "") as Hprimary.
  { unfold AgentRoutingEditPage.primaryModelId. simpl. by case_bool_decide. }
  assert (AgentRoutingEditPage.fallbackModelIds agentId d
            AgentRoutingEditPage.handleClearOverride = []) as Hfallbacks by done.
  rewrite Hprimary, Hfallbacks in Hsaved, Hsave.
  destruct (decide (AgentRoutingEditPage.baselinePrimaryModelId agentId d = ""
                    ∧ AgentRoutingEditPage.baselineFallbackModelIds agentId d = []))
    as [Hnothing|Hstored].
  - by rewrite (proj2 Hsaved (or_intror Hnothing)).
  - destruct (AgentRoutingEditPage.hasUnsavedChanges agentId d
                AgentRoutingEditPage.handleClearOverride) eqn:Hunsaved; simpl.
    + by rewrite Hsave.
    + destruct (proj1 Hsaved eq_refl) as [?|?]; [done|by destruct Hstored].
Qed.

End routing_editor_events.

Example pinned_opens_unsaved :
  AgentRoutingEditPage.hasUnsavedChanges "a-2" (routingEditFetched newestFirstApi)
    AgentRoutingEditPage.initialState = true.
Proof. vm_compute. reflexivity. Qed.

Lemma saved_routing_reopens_saved_witness :
  AgentRoutingEditPage.hasUnsavedChanges "a-2" (routingEditFetched savedApi)
    AgentRoutingEditPage.initialState = false.
Proof.
  apply (saved_routing_reopens_saved "a-2" (routingEditFetched newestFirstApi)
           (routingEditFetched savedApi)
           (AgentRoutingEditPage.handlePrimaryChange "a-2" (routingEditFetched newestFirstApi)
              AgentRoutingEditPage.initialState "m-new")
           pinnedAgent savedAgent
           (AgentRoutingEditPage.mkRequest "a-2" true (Some "m-new") (Some ["m-old"]))).
  - reflexivity.
  - apply list_elem_of_In. vm_compute. left. reflexivity.
  - reflexivity.
  - reflexivity.
  - reflexivity.
  - reflexivity.
  - reflexivity.
Defined.

Lemma clear_then_save_witness :
  AgentRoutingEditPage.clickSave "a-2" (routingEditFetched newestFirstApi)
    (AgentRoutingEditPage.clickClearOverride "a-2" (routingEditFetched newestFirstApi)
       AgentRoutingEditPage.initialState false) false
  = (AgentRoutingEditPage.handleClearOverride,
     [AgentRoutingEditPage.mkRequest "a-2" true None None]).
Proof.
  exact (clear_then_save "a-2" (routingEditFetched newestFirstApi)
           AgentRoutingEditPage.initialState).
Defined.

(** For an agent with nothing stored the two clicks send nothing: "Save
    routing" is disabled after the clear. *)
Example clear_then_save_nothing_stored :
  AgentRoutingEditPage.saveDisabled "a-1" (routingEditFetched newestFirstApi)
    AgentRoutingEditPage.handleClearOverride false = true
  ∧ AgentRoutingEditPage.clickSave "a-1" (routingEditFetched newestFirstApi)
      (AgentRoutingEditPage.clickClearOverride "a-1" (routingEditFetched newestFirstApi)
         AgentRoutingEditPage.initialState false) false
    = (AgentRoutingEditPage.handleClearOverride, []).
Proof. split; vm_compute; reflexivity. Qed.

Lemma primary_selection_witness :
  AgentRoutingEditPage.status "a-1" (routingEditFetched newestFirstApi)
    (AgentRoutingEditPage.handlePrimaryChange "a-1" (routingEditFetched newestFirstApi)
       AgentRoutingEditPage.initialState "m-old") = RoutingStatus.override.
Proof.
  apply (proj1 (primary_selection "a-1" (routingEditFetched newestFirstApi)
                  AgentRoutingEditPage.initialState "m-old")).
  - vm_compute. reflexivity.
  - discriminate.
Defined.

(** * Further properties of the forms and the sync page *)

Lemma GatewayChoice_Names (gateways : list GatewayRead.t) (itemGateway draft : option string)
    (requested result : string) :
  GatewayChoice gateways itemGateway draft requested result →
  gateways ≠ [] → Names gateways result ∨ itemGateway = Some result.
Proof.
  unfold GatewayChoice. destruct gateways as [|first rest]; [done|].
  intros [[-> _]|[_ [[_ Hnames]|[_ [[_ Hnames]|[_ ->]]]]]] _; auto.
  left. exists first. split; [left|done].
Qed.

(** A selection made without an edited item that is not the empty string
    names a fetched gateway. *)
Lemma resolveGatewayId_fetched (gateways : list GatewayRead.t) (draft : option string)
    (requested : string) :
  resolveGatewayId gateways None draft requested ≠ "" →
  Names gateways (resolveGatewayId gateways None draft requested).
Proof.
  intros Hne.
  destruct (GatewayChoice_Names gateways None draft requested _
              (resolveGatewayId_choice gateways None draft requested)) as [?|?]; try done.
  intros ->. by apply Hne.
Qed.

Section provider_auth_form_outcome.
Context `{JsRuntime} (mode : FormMode) (d : ProviderAuthFormPage.Fetched)
  (st : ProviderAuthFormPage.State).

Lemma provider_auth_submit_iff_lemma :
  (ProviderAuthSubmittable mode d st →
   ProviderAuthFormPage.handleSubmit mode d st
   = (ProviderAuthFormPage.setError st None, [expectedProviderAuthRequest mode d st]))
  ∧ (¬ ProviderAuthSubmittable mode d st →
     ∃ message,
       ProviderAuthFormPage.handleSubmit mode d st
       = (ProviderAuthFormPage.setError st (Some message), [])).
Proof.
  unfold ProviderAuthSubmittable, ProviderAuthFormPage.handleSubmit,
    expectedProviderAuthRequest. cbv zeta.
  rewrite normalizedConfigPath_spec.
  set (gateway := ProviderAuthFormPage.gatewayId mode d st).
  set (provider := trim (ProviderAuthFormPage.provider mode d st)).
  split.
  - intros (Hgateway & Hprovider & Hmode).
    assert (toLowerCase provider ≠ "") as Hlower by (by rewrite toLowerCase_empty).
    rewrite (proj2 (truthy_true _) Hgateway), (proj2 (truthy_true _) Hlower). simpl.
    destruct mode as [|providerAuthId].
    + by rewrite (proj2 (truthy_true _) Hmode).
    + rewrite (proj2 (truthy_true _) Hmode). simpl.
      destruct (decide (trim (ProviderAuthFormPage.secret st) = "")) as [Hblank|Hfilled].
      * by rewrite (proj2 (truthy_false _) Hblank).
      * by rewrite (proj2 (truthy_true _) Hfilled).
  - intros Hno.
    destruct (truthy gateway) eqn:Hgateway; simpl; [|by eexists].
    destruct (truthy (toLowerCase provider)) eqn:Hprovider; simpl; [|by eexists].
    apply truthy_true in Hgateway, Hprovider. rewrite toLowerCase_empty in Hprovider.
    destruct mode as [|providerAuthId].
    + destruct (truthy (trim (ProviderAuthFormPage.secret st))) eqn:Hsecret; simpl;
        [|by eexists].
      apply truthy_true in Hsecret. by destruct Hno.
    + destruct (truthy providerAuthId) eqn:Hid; simpl; [|by eexists].
      apply truthy_true in Hid. by destruct Hno.
Qed.

(** X11. The provider auth form sends its request exactly when a gateway
    is resolved, the trimmed provider is non-empty and, in create mode, the
    trimmed secret is non-empty or, in edit mode, the entry's identifier is
    non-empty. The request then carries the normalized fields and the
    error is cleared; otherwise a message is set and nothing is sent. The
    drafts are never changed. *)
Theorem provider_auth_submit_iff :
  (ProviderAuthSubmittable mode d st →
   ProviderAuthFormPage.handleSubmit mode d st
   = (ProviderAuthFormPage.setError st None, [expectedProviderAuthRequest mode d st]))
  ∧ (¬ ProviderAuthSubmittable mode d st →
     ∃ message,
       ProviderAuthFormPage.handleSubmit mode d st
       = (ProviderAuthFormPage.setError st (Some message), [])).
Proof. exact provider_auth_submit_iff_lemma. Qed.

End provider_auth_form_outcome.

Section submit_handlers.
Context `{JsRuntime}.

(** X12. Every handler that may send a request leaves either a message
    and no request, or a cleared message and exactly one request, and
    changes no other cell of its page: the two form submits, the routing
    save, and the pull and push of the sync page. *)
Theorem handlers_error_or_one_request :
  (∀ mode d st,
     ErrorOrOneRequest CatalogModelFormPage.setError st
       (CatalogModelFormPage.handleSubmit mode d st))
  ∧ (∀ mode d st,
       ErrorOrOneRequest ProviderAuthFormPage.setError st
         (ProviderAuthFormPage.handleSubmit mode d st))
  ∧ (∀ agentId d st,
       ErrorOrOneRequest AgentRoutingEditPage.setError st
         (AgentRoutingEditPage.handleSave agentId d st))
  ∧ (∀ d st,
       ErrorOrOneRequest ModelsSyncPage.setSyncMessage st (ModelsSyncPage.runGatewayPull d st)
       ∧ ErrorOrOneRequest ModelsSyncPage.setSyncMessage st
           (ModelsSyncPage.runGatewaySync d st)).
Proof.
  unfold ErrorOrOneRequest. split; [|split; [|split]].
  - intros mode d st. unfold CatalogModelFormPage.handleSubmit. cbv zeta.
    destruct (truthy (CatalogModelFormPage.gatewayId mode d st)); simpl; [|left; by eexists].
    destruct (_ || _); [left; by eexists|].
    destruct (CatalogModelFormPage.submittedSettings mode d st); [|left; by eexists].
    destruct mode as [|modelIdParam]; [right; by eexists|].
    destruct (truthy modelIdParam); simpl; [right; by eexists|left; by eexists].
  - intros mode d st. unfold ProviderAuthFormPage.handleSubmit. cbv zeta.
    destruct (truthy (ProviderAuthFormPage.gatewayId mode d st)); simpl; [|left; by eexists].
    destruct (truthy (toLowerCase _)); simpl; [|left; by eexists].
    destruct mode as [|providerAuthId].
    + destruct (truthy (trim _)); simpl; [right; by eexists|left; by eexists].
    + destruct (truthy providerAuthId); simpl; [right; by eexists|left; by eexists].
  - intros agentId d st. pose proof (handleSave_result agentId d st) as Hsave.
    destruct (AgentRoutingEditPage.agent agentId d); rewrite Hsave;
      [right|left]; by eexists.
  - intros d st. unfold ModelsSyncPage.runGatewayPull, ModelsSyncPage.runGatewaySync.
    destruct (truthy (ModelsSyncPage.activeGatewayId d st)); simpl;
      split; ((left; by eexists) || (right; by eexists)).
Qed.

(** X13. A create request of either form targets a fetched gateway: the
    gateway_id it carries is non-empty and is the id of a gateway the
    gateway query returned. *)
Theorem create_requests_target_fetched_gateway :
  (∀ d st data,
     CatalogModelFormPage.CreateModel data
       ∈ (CatalogModelFormPage.handleSubmit create d st).2 →
     CatalogModelFormPage.CreateData.gateway_id data ≠ ""
     ∧ Names (CatalogModelFormPage.gateways d) (CatalogModelFormPage.CreateData.gateway_id data))
  ∧ (∀ d st data,
       ProviderAuthFormPage.CreateProviderAuth data
         ∈ (ProviderAuthFormPage.handleSubmit create d st).2 →
       ProviderAuthFormPage.CreateData.gateway_id data ≠ ""
       ∧ Names (ProviderAuthFormPage.gateways d)
           (ProviderAuthFormPage.CreateData.gateway_id data)).
Proof.
  split; intros d st data.
  - unfold CatalogModelFormPage.handleSubmit. cbv zeta.
    destruct (truthy (CatalogModelFormPage.gatewayId create d st)) eqn:Hgateway; simpl;
      [|by intros ?%not_elem_of_nil].
    destruct (_ || _); [by intros ?%not_elem_of_nil|].
    destruct (CatalogModelFormPage.submittedSettings create d st);
      [|by intros ?%not_elem_of_nil].
    intros [= ->]%list_elem_of_singleton. simpl.
    apply truthy_true in Hgateway. split; [done|].
    by apply resolveGatewayId_fetched.
  - unfold ProviderAuthFormPage.handleSubmit. cbv zeta.
    destruct (truthy (ProviderAuthFormPage.gatewayId create d st)) eqn:Hgateway; simpl;
      [|by intros ?%not_elem_of_nil].
    destruct (truthy (toLowerCase _)); simpl; [|by intros ?%not_elem_of_nil].
    destruct (truthy (trim _)); simpl; [|by intros ?%not_elem_of_nil].
    intros [= ->]%list_elem_of_singleton. simpl.
    apply truthy_true in Hgateway. split; [done|].
    by apply resolveGatewayId_fetched.
Qed.

(** X14. An edit form mounted by a route whose identifier is missing (no
    parameter, an empty array, or an empty string) never sends a request,
    whatever was fetched and whatever the user typed. *)
Theorem route_without_identifier_never_submits (param : RouteParam) :
  routeId param = "" →
  (∀ d st, (CatalogModelFormPage.handleSubmit (ModelsCatalogEditPage param) d st).2 = [])
  ∧ (∀ d st,
       (ProviderAuthFormPage.handleSubmit (ModelsProviderAuthEditPage param) d st).2 = []).
Proof.
  intros Hid. unfold ModelsCatalogEditPage, ModelsProviderAuthEditPage. rewrite Hid.
  split; intros d st.
  - unfold CatalogModelFormPage.handleSubmit. cbv zeta.
    destruct (truthy (CatalogModelFormPage.gatewayId _ d st)); simpl; [|done].
    destruct (_ || _); [done|].
    by destruct (CatalogModelFormPage.submittedSettings _ d st).
  - unfold ProviderAuthFormPage.handleSubmit. cbv zeta.
    destruct (truthy (ProviderAuthFormPage.gatewayId _ d st)); simpl; [|done].
    by destruct (truthy (toLowerCase _)).
Qed.

End submit_handlers.

(** ** The sync page *)

Lemma find_Names (gateways : list GatewayRead.t) (id : string) :
  Names gateways id →
  ∃ gateway,
    List.find (λ gateway, bool_decide (GatewayRead.id gateway = id)) gateways = Some gateway
    ∧ gateway ∈ gateways ∧ GatewayRead.id gateway = id.
Proof.
  intros (named & Hin & Hid).
  destruct (List.find _ gateways) as [gateway|] eqn:Hfind.
  - apply find_some in Hfind as [Hfound Hsame]. exists gateway.
    split; [done|]. split; [by apply list_elem_of_In|by apply bool_decide_eq_true in Hsame].
  - apply list_elem_of_In in Hin. pose proof (find_none _ _ Hfind _ Hin) as Hno.
    simpl in Hno. by apply bool_decide_eq_false in Hno.
Qed.

Lemma activeGatewayId_Names (d : ModelsSyncPage.Fetched) (st : ModelsSyncPage.State) :
  ModelsSyncPage.gateways d ≠ [] →
  Names (ModelsSyncPage.gateways d) (ModelsSyncPage.activeGatewayId d st).
Proof.
  intros Hsome. rewrite activeGatewayId_resolve.
  by destruct (GatewayChoice_Names _ None (ModelsSyncPage.activeGatewayDraft st) "" _
                 (resolveGatewayId_choice _ _ _ _) Hsome).
Qed.

(** X15. The gateway the sync page works on is one of the fetched
    gateways whenever any was fetched: the lookup of the active gateway
    succeeds and returns a gateway with the active id, which is the draft
    when the draft names a gateway. With no gateway fetched there is no
    active gateway and the active id is empty. *)
Theorem active_gateway_found (d : ModelsSyncPage.Fetched) (st : ModelsSyncPage.State) :
  (ModelsSyncPage.gateways d ≠ [] →
   ∃ gateway,
     ModelsSyncPage.activeGateway d st = Some gateway
     ∧ gateway ∈ ModelsSyncPage.gateways d
     ∧ GatewayRead.id gateway = ModelsSyncPage.activeGatewayId d st
     ∧ ∀ draft, ModelsSyncPage.activeGatewayDraft st = Some draft → draft ≠ "" →
         Names (ModelsSyncPage.gateways d) draft → GatewayRead.id gateway = draft)
  ∧ (ModelsSyncPage.gateways d = [] →
     ModelsSyncPage.activeGateway d st = None ∧ ModelsSyncPage.activeGatewayId d st = "").
Proof.
  split.
  - intros Hsome.
    destruct (find_Names _ _ (activeGatewayId_Names d st Hsome)) as (gateway & Hfind & Hin & Hid).
    exists gateway. repeat split; try done.
    intros draft Hdraft Hfilled Hnames. rewrite Hid.
    unfold ModelsSyncPage.activeGatewayId. rewrite Hdraft. simpl.
    by rewrite (proj2 (truthy_true _) Hfilled), (proj2 (someGateway_Names _ _) Hnames).
  - intros Hnone. unfold ModelsSyncPage.activeGateway, ModelsSyncPage.activeGatewayId.
    rewrite Hnone. simpl. by rewrite andb_false_r.
Qed.


(** X17. The summary counts of the sync page are consistent: the agents
    with a primary override are counted among the agents of the active
    gateway, and no count exceeds the number of fetched items. *)
Theorem sync_counts_bounded (d : ModelsSyncPage.Fetched) (st : ModelsSyncPage.State) :
  (ModelsSyncPage.primaryOverrideCount d st ≤ ModelsSyncPage.agentCount d st
   ∧ ModelsSyncPage.agentCount d st ≤ List.length (ModelsSyncPage.agents d)
   ∧ ModelsSyncPage.modelCount d st ≤ List.length (ModelsSyncPage.models d)
   ∧ ModelsSyncPage.providerCount d st ≤ List.length (ModelsSyncPage.providerAuth d))%nat.
Proof.
  unfold ModelsSyncPage.primaryOverrideCount, ModelsSyncPage.agentCount,
    ModelsSyncPage.modelCount, ModelsSyncPage.providerCount.
  repeat split; try apply length_filter.
  etrans; [|apply (length_filter
                     (λ item, truthyOpt (AgentRead.primary_model_id item) = true))].
  rewrite list_filter_filter. apply Nat.eq_le_incl. f_equal.
  apply list_filter_iff. tauto.
Qed.

(** ** The tables of the workspace *)

Lemma StronglySorted_reverse {A : Type} (R : A → A → Prop) (l : list A) :
  StronglySorted R l → StronglySorted (λ a b, R b a) (reverse l).
Proof.
  induction 1 as [|x l Hsorted IH Hall]; [constructor|].
  rewrite reverse_cons. apply StronglySorted_app_2; [|exact IH|repeat constructor].
  intros a b Ha Hb. apply list_elem_of_singleton in Hb as ->.
  rewrite elem_of_reverse in Ha. rewrite Forall_forall in Hall. exact (Hall _ Ha).
Qed.

Section table_order.
Context `{JsRuntime} {A : Type} (column : Column A) (tieName : A → string).

Lemma tableCompare_Tied (direction : SortDirection) (left right : A) :
  tableCompare direction (columnCompare column)
    (λ a b, localeCompare (tieName a) (tieName b)) left right = 0%Z
  ↔ Tied column tieName left right.
Proof.
  unfold tableCompare, Tied, ModelsWorkspace.directed.
  destruct direction; case_bool_decide; lia.
Qed.

Lemma OrderedBy_flip (direction : SortDirection) (left right : A) :
  OrderedBy direction column tieName left right →
  OrderedBy (ModelsWorkspace.flipDirection direction) column tieName right left.
Proof.
  pose proof (consistent_sym _ (columnCompare_Consistent column) left right).
  pose proof (consistent_sym _ (columnCompare_Consistent column) right left).
  pose proof (localeCompare_sym (tieName left) (tieName right)).
  pose proof (localeCompare_sym (tieName right) (tieName left)).
  unfold OrderedBy. destruct direction; simpl; lia.
Qed.

Lemma sort_tableCompare_stable (direction : SortDirection) (cmp : A → A → Z)
    (rows : list A) (row : A) :
  (∀ a b, cmp a b = tableCompare direction (columnCompare column)
                      (λ a b, localeCompare (tieName a) (tieName b)) a b) →
  filter (Tied column tieName row) (sort cmp rows) = filter (Tied column tieName row) rows.
Proof.
  intros Hshape. rewrite (sort_ext _ _ _ Hshape).
  rewrite <- !(list_filter_iff _ _ _ (λ other, tableCompare_Tied direction row other)).
  apply sort_stable, tableCompare_Consistent.
  - apply columnCompare_Consistent.
  - apply localeCompare_Consistent.
Qed.

Lemma sort_tableCompare_mirror (direction : SortDirection) (cmp : A → A → Z)
    (rows : list A) :
  (∀ a b, cmp a b = tableCompare direction (columnCompare column)
                      (λ a b, localeCompare (tieName a) (tieName b)) a b) →
  StronglySorted (OrderedBy (ModelsWorkspace.flipDirection direction) column tieName)
    (reverse (sort cmp rows)).
Proof.
  intros Hshape.
  eapply StronglySorted_weaken;
    [|apply StronglySorted_reverse, (sort_tableCompare direction column tieName cmp rows Hshape)].
  intros a b. apply OrderedBy_flip.
Qed.

End table_order.

Section workspace_tables.
Context `{JsRuntime} (d : ModelsWorkspace.Fetched) (st : ModelsWorkspace.State).

(** X18. The three sorted views are stable: rows that agree on the sorted
    column and on the tie-break name appear in the order in which they
    were fetched (for the routing table, the order of the fetched
    agents). *)
Theorem sorted_views_stable :
  (∀ row,
     filter (Tied (providerColumn d (ModelsWorkspace.providerSortKey st))
               LlmProviderAuthRead.provider row) (ModelsWorkspace.providerRows d st)
     = filter (Tied (providerColumn d (ModelsWorkspace.providerSortKey st))
                 LlmProviderAuthRead.provider row) (ModelsWorkspace.providerAuth d))
  ∧ (∀ row,
       filter (Tied (modelColumn d (ModelsWorkspace.modelSortKey st))
                 LlmModelRead.display_name row) (ModelsWorkspace.modelRows d st)
       = filter (Tied (modelColumn d (ModelsWorkspace.modelSortKey st))
                   LlmModelRead.display_name row) (ModelsWorkspace.models d))
  ∧ (∀ row,
       filter (Tied (routingColumn (ModelsWorkspace.routingSortKey st))
                 (λ row, AgentRead.name (ModelsWorkspace.agent row)) row)
         (ModelsWorkspace.sortedRoutingRows d st)
       = filter (Tied (routingColumn (ModelsWorkspace.routingSortKey st))
                   (λ row, AgentRead.name (ModelsWorkspace.agent row)) row)
           (ModelsWorkspace.routingRows d)).
Proof.
  split; [|split]; intros row.
  - eapply sort_tableCompare_stable, providerCompare_shape.
  - eapply sort_tableCompare_stable, modelCompare_shape.
  - eapply sort_tableCompare_stable, routingCompare_shape.
Qed.

(** X19. Clicking the header of the column a table is sorted on asks for
    the same column in the other direction, and the current view read from
    the bottom up is already in that order. *)
Theorem same_header_click_mirrors :
  (let st' := ModelsWorkspace.setProviderSort st (ModelsWorkspace.providerSortKey st) in
   StronglySorted
     (OrderedBy (ModelsWorkspace.providerSortDirection st')
        (providerColumn d (ModelsWorkspace.providerSortKey st')) LlmProviderAuthRead.provider)
     (reverse (ModelsWorkspace.providerRows d st)))
  ∧ (let st' := ModelsWorkspace.setModelSort st (ModelsWorkspace.modelSortKey st) in
     StronglySorted
       (OrderedBy (ModelsWorkspace.modelSortDirection st')
          (modelColumn d (ModelsWorkspace.modelSortKey st')) LlmModelRead.display_name)
       (reverse (ModelsWorkspace.modelRows d st)))
  ∧ (let st' := ModelsWorkspace.setRoutingSort st (ModelsWorkspace.routingSortKey st) in
     StronglySorted
       (OrderedBy (ModelsWorkspace.routingSortDirection st')
          (routingColumn (ModelsWorkspace.routingSortKey st'))
          (λ row, AgentRead.name (ModelsWorkspace.agent row)))
       (reverse (ModelsWorkspace.sortedRoutingRows d st))).
Proof.
  cbv zeta. unfold ModelsWorkspace.setProviderSort, ModelsWorkspace.setModelSort,
    ModelsWorkspace.setRoutingSort.
  rewrite !bool_decide_eq_true_2 by done. simpl.
  split; [|split].
  - eapply sort_tableCompare_mirror, providerCompare_shape.
  - eapply sort_tableCompare_mirror, modelCompare_shape.
  - eapply sort_tableCompare_mirror, routingCompare_shape.
Qed.

End workspace_tables.


Section gateway_default.
Context `{JsRuntime}.

Lemma createdAt_ties (a b : LlmModelRead.t) :
  ModelsWorkspace.createdAtCompare a b = 0%Z →
  ∀ other, ModelsWorkspace.createdAtCompare a other = 0%Z
           ↔ ModelsWorkspace.createdAtCompare b other = 0%Z.
Proof.
  unfold ModelsWorkspace.createdAtCompare. intros Hab other.
  pose proof (localeCompare_sym (LlmModelRead.created_at a) (LlmModelRead.created_at b)).
  pose proof (localeCompare_sym (LlmModelRead.created_at b) (LlmModelRead.created_at a)).
  pose proof (localeCompare_sym (LlmModelRead.created_at a) (LlmModelRead.created_at other)).
  pose proof (localeCompare_sym (LlmModelRead.created_at other) (LlmModelRead.created_at a)).
  pose proof (localeCompare_sym (LlmModelRead.created_at b) (LlmModelRead.created_at other)).
  pose proof (localeCompare_sym (LlmModelRead.created_at other) (LlmModelRead.created_at b)).
  pose proof (localeCompare_trans (LlmModelRead.created_at a) (LlmModelRead.created_at b)
                (LlmModelRead.created_at other)).
  pose proof (localeCompare_trans (LlmModelRead.created_at b) (LlmModelRead.created_at a)
                (LlmModelRead.created_at other)).
  pose proof (localeCompare_trans (LlmModelRead.created_at other) (LlmModelRead.created_at a)
                (LlmModelRead.created_at b)).
  pose proof (localeCompare_trans (LlmModelRead.created_at other) (LlmModelRead.created_at b)
                (LlmModelRead.created_at a)).
  lia.
Qed.

(** The head of a sorted bucket is the first of the bucket among the
    models that tie with it. *)
Lemma sort_head_first_tie (bucket : list LlmModelRead.t) (model : LlmModelRead.t) :
  head (sort ModelsWorkspace.createdAtCompare bucket) = Some model →
  head (filter (λ other, ModelsWorkspace.createdAtCompare model other = 0%Z) bucket)
  = Some model.
Proof.
  unfold ModelsWorkspace.createdAtCompare. intros Hhead.
  rewrite <- (sort_stable _ (localeCompare_Consistent LlmModelRead.created_at) model bucket).
  destruct (sort _ bucket) as [|first rest]; [done|].
  injection Hhead as ->. rewrite filter_cons_True; [done|].
  apply localeCompare_refl.
Qed.

(** X21. The default model of a gateway in the routing table is
    determined by the fetched catalog: it is the model of that gateway
    with the smallest [created_at] and, among the models of the gateway
    created at that same instant, the one fetched first. *)
Theorem gateway_default_is_first_earliest (d : ModelsWorkspace.Fetched)
    (gateway_id : string) (model : LlmModelRead.t) :
  ModelsWorkspace.gatewayDefaultById d !! gateway_id = Some model
  ↔ EarliestCreated (ModelsWorkspace.models d) gateway_id model
    ∧ FirstOfItsInstant (ModelsWorkspace.models d) gateway_id model.
Proof.
  rewrite gatewayDefaultById_lookup. unfold FirstOfItsInstant.
  set (bucket := filter (λ other, LlmModelRead.gateway_id other = gateway_id)
                   (ModelsWorkspace.models d)).
  assert (head (filter (λ other, localeCompare (LlmModelRead.created_at model)
                                   (LlmModelRead.created_at other) = 0%Z ) bucket)
          = head (filter (λ other, LlmModelRead.gateway_id other = gateway_id
                                   ∧ localeCompare (LlmModelRead.created_at model)
                                       (LlmModelRead.created_at other) = 0%Z)
                    (ModelsWorkspace.models d))) as <-.
  { unfold bucket. rewrite list_filter_filter. f_equal. apply list_filter_iff. tauto. }
  split.
  - intros Hhead. split; [|by apply sort_head_first_tie].
    apply sort_head in Hhead as [Hin Hmin];
      [|apply (localeCompare_Consistent LlmModelRead.created_at)].
    split; [by apply OfGateway_filter|].
    intros other Hother. apply Hmin. by apply OfGateway_filter.
  - intros [[Hmodel Hmin] Hfirst].
    destruct (head (sort ModelsWorkspace.createdAtCompare bucket)) as [first|] eqn:Hhead.
    + pose proof (sort_head_first_tie _ _ Hhead) as Hfirst'.
      apply sort_head in Hhead as [Hin Hleast];
        [|apply (localeCompare_Consistent LlmModelRead.created_at)].
      assert (ModelsWorkspace.createdAtCompare model first = 0%Z) as Htie.
      { pose proof (Hmin first (proj1 (OfGateway_filter _ _ _) Hin)) as Hle.
        pose proof (Hleast model (proj2 (OfGateway_filter _ _ _) Hmodel)) as Hge.
        unfold ModelsWorkspace.createdAtCompare in *.
        pose proof (localeCompare_sym (LlmModelRead.created_at model)
                      (LlmModelRead.created_at first)). lia. }
      rewrite (list_filter_iff _ _ _ (createdAt_ties _ _ Htie)) in Hfirst.
      congruence.
    + apply head_None, sort_nil_inv in Hhead.
      apply OfGateway_filter in Hmodel. fold bucket in Hmodel. rewrite Hhead in Hmodel.
      by apply not_elem_of_nil in Hmodel.
Qed.

End gateway_default.

(** ** Editing a catalog entry *)

Section catalog_edit.
Context `{JsRuntime} (d : CatalogModelFormPage.Fetched) (st : CatalogModelFormPage.State).

Lemma currentItem_found (modelId : string) (item : LlmModelRead.t) :
  CatalogModelFormPage.currentItem (edit modelId) d = Some item →
  modelId ≠ "" ∧ LlmModelRead.id item = modelId ∧ item ∈ CatalogModelFormPage.models d.
Proof.
  unfold CatalogModelFormPage.currentItem.
  destruct (truthy modelId) eqn:Hid; [|done]. apply truthy_true in Hid.
  intros [Hin Hsame]%find_some. apply bool_decide_eq_true in Hsame.
  by rewrite list_elem_of_In.
Qed.

(** X22. Saving a catalog entry that was opened for editing and left
    untouched sends one update for that entry which carries its own
    provider, model id and display name, normalized, and its own settings:
    the stored object as the runtime reads it back from the text the form
    shows, and an empty object for an entry without settings. *)
Theorem untouched_edit_resubmits_entry (modelId : string) (item : LlmModelRead.t) :
  CatalogModelFormPage.currentItem (edit modelId) d = Some item →
  CatalogModelFormPage.providerDraft st = None →
  CatalogModelFormPage.modelIdDraft st = None →
  CatalogModelFormPage.displayNameDraft st = None →
  CatalogModelFormPage.settingsDraft st = None →
  CatalogModelFormPage.gateways d ≠ [] →
  LlmModelRead.gateway_id item ≠ "" →
  trim (LlmModelRead.provider item) ≠ "" →
  trim (LlmModelRead.model_id item) ≠ "" →
  trim (LlmModelRead.display_name item) ≠ "" →
  SettingsReadBack item →
  CatalogModelFormPage.handleSubmit (edit modelId) d st
  = (CatalogModelFormPage.setError st None,
     [CatalogModelFormPage.UpdateModel (LlmModelRead.id item)
        {| CatalogModelFormPage.UpdateData.provider :=
             toLowerCase (trim (LlmModelRead.provider item));
           CatalogModelFormPage.UpdateData.model_id := trim (LlmModelRead.model_id item);
           CatalogModelFormPage.UpdateData.display_name :=
             trim (LlmModelRead.display_name item);
           CatalogModelFormPage.UpdateData.settings :=
             Some (JObject (default [] (LlmModelRead.settings item))) |}]).
Proof.
  intros Hitem Hprovider Hmodel Hname Hsettings Hgateways Hgateway Hp Hm Hn Hread.
  destruct (currentItem_found _ _ Hitem) as (Hid & Hsame & _).
  assert (toLowerCase (trim (LlmModelRead.provider item)) ≠ "") as Hlower
    by (by rewrite toLowerCase_empty).
  unfold CatalogModelFormPage.handleSubmit, CatalogModelFormPage.gatewayId,
    CatalogModelFormPage.provider, CatalogModelFormPage.modelId,
    CatalogModelFormPage.displayName, CatalogModelFormPage.fieldValue,
    CatalogModelFormPage.submittedSettings, CatalogModelFormPage.settingsText,
    resolveGatewayId.
  cbv zeta. rewrite Hitem, Hprovider, Hmodel, Hname, Hsettings. simpl.
  destruct (CatalogModelFormPage.gateways d) as [|first rest]; [done|].
  rewrite (proj2 (truthy_true _) Hgateway). simpl.
  rewrite (proj2 (truthy_true _) Hgateway), (proj2 (truthy_true _) Hlower),
    (proj2 (truthy_true _) Hm), (proj2 (truthy_true _) Hn),
    (proj2 (truthy_true _) Hid).
  simpl. unfold SettingsReadBack in Hread.
  destruct (LlmModelRead.settings item) as [entries|]; simpl.
  - destruct Hread as [Hfilled Hparse].
    rewrite (proj2 (truthy_true _) Hfilled), Hparse. simpl. by rewrite Hsame.
  - rewrite Hread. rewrite (proj2 (truthy_false "") eq_refl). by rewrite Hsame.
Qed.

End catalog_edit.

Section catalog_edit_examples.
#[local] Existing Instance AsciiRuntime.runtime.

Lemma untouched_edit_resubmits_entry_witness :
  CatalogModelFormPage.handleSubmit (edit "m-7") tunedData untouchedForm
  = (untouchedForm,
     [CatalogModelFormPage.UpdateModel "m-7"
        {| CatalogModelFormPage.UpdateData.provider := "openai";
           CatalogModelFormPage.UpdateData.model_id := "gpt-t";
           CatalogModelFormPage.UpdateData.display_name := "GPT T";
           CatalogModelFormPage.UpdateData.settings :=
             Some (JObject [("temperature", JNumber (inject_Z 1));
                            ("tags", JArray [JString "fast"])]) |}]).
Proof.
  etrans; [apply (untouched_edit_resubmits_entry tunedData untouchedForm "m-7" tunedModel)|];
    try done; try (vm_compute; congruence).
Defined.

End catalog_edit_examples.

(** ** The selectors of the routing editor *)

Section routing_selectors.
Context (agentId : string) (d : AgentRoutingEditPage.Fetched) (st : AgentRoutingEditPage.State).

Lemma modelOptions_values :
  (AgentRoutingEditPage.modelOptions agentId d).*1
  = LlmModelRead.id <$> AgentRoutingEditPage.modelsForGateway agentId d.
Proof.
  unfold AgentRoutingEditPage.modelOptions. rewrite <- list_fmap_compose.
  by apply list_fmap_ext.
Qed.

Lemma availableModelIds_options (id : string) :
  id ∈ AgentRoutingEditPage.availableModelIds agentId d
  ↔ id ∈ (AgentRoutingEditPage.modelOptions agentId d).*1.
Proof.
  rewrite modelOptions_values. unfold AgentRoutingEditPage.availableModelIds.
  apply elem_of_list_to_set.
Qed.

(** X23. What the routing editor holds as selected is always on offer:
    a non-empty primary id and every fallback id is the value of one of
    the options of the selectors, whatever the agent's saved routing and
    the drafts are; with no option to offer, nothing is selected. *)
Theorem selections_are_offered :
  (AgentRoutingEditPage.primaryModelId agentId d st ≠ "" →
   AgentRoutingEditPage.primaryModelId agentId d st
     ∈ (AgentRoutingEditPage.modelOptions agentId d).*1)
  ∧ (∀ id, id ∈ AgentRoutingEditPage.fallbackModelIds agentId d st →
       id ∈ (AgentRoutingEditPage.modelOptions agentId d).*1)
  ∧ (AgentRoutingEditPage.modelOptions agentId d = [] →
     AgentRoutingEditPage.primaryModelId agentId d st = ""
     ∧ AgentRoutingEditPage.fallbackModelIds agentId d st = []).
Proof.
  assert (∀ id, id ∈ AgentRoutingEditPage.fallbackModelIds agentId d st →
            id ∈ (AgentRoutingEditPage.modelOptions agentId d).*1) as Hfallbacks.
  { intros id Hin. apply availableModelIds_options.
    by apply (proj1 (fallbackModelIds_iff agentId d st)) in Hin as (_ & _ & Havailable). }
  assert (AgentRoutingEditPage.primaryModelId agentId d st ≠ "" →
          AgentRoutingEditPage.primaryModelId agentId d st
            ∈ (AgentRoutingEditPage.modelOptions agentId d).*1) as Hprimary.
  { intros Hfilled. apply availableModelIds_options.
    by destruct (primaryModelId_cases agentId d st) as [Hempty|[_ Havailable]]. }
  split; [done|]. split; [done|].
  intros Hnone. rewrite Hnone in Hprimary, Hfallbacks. split.
  - destruct (decide (AgentRoutingEditPage.primaryModelId agentId d st = ""))
      as [Hempty|Hfilled]; [done|].
    by apply Hprimary, not_elem_of_nil in Hfilled.
  - destruct (AgentRoutingEditPage.fallbackModelIds agentId d st) as [|id rest]; [done|].
    by destruct (not_elem_of_nil _ (Hfallbacks id (list_elem_of_here _ _))).
Qed.

End routing_selectors.

(** ** Editing a provider auth entry *)

Section provider_auth_edit.
Context `{JsRuntime} (d : ProviderAuthFormPage.Fetched) (st : ProviderAuthFormPage.State).

(** X24. Saving a provider auth entry that was opened for editing, with
    the provider and config path left alone and no secret typed, sends one
    update for that entry which carries no secret, so that the stored
    secret is kept, together with the entry's normalized provider and its
    trimmed config path, or the path derived from the provider when the
    stored path is blank. *)
Theorem untouched_provider_auth_edit_keeps_secret (providerAuthId : string)
    (item : LlmProviderAuthRead.t) :
  ProviderAuthFormPage.currentItem (edit providerAuthId) d = Some item →
  ProviderAuthFormPage.providerDraft st = None →
  ProviderAuthFormPage.configPathDraft st = None →
  trim (ProviderAuthFormPage.secret st) = "" →
  ProviderAuthFormPage.gateways d ≠ [] →
  LlmProviderAuthRead.gateway_id item ≠ "" →
  trim (LlmProviderAuthRead.provider item) ≠ "" →
  ProviderAuthFormPage.handleSubmit (edit providerAuthId) d st
  = (ProviderAuthFormPage.setError st None,
     [ProviderAuthFormPage.UpdateProviderAuth (LlmProviderAuthRead.id item)
        {| ProviderAuthFormPage.UpdateData.provider :=
             toLowerCase (trim (LlmProviderAuthRead.provider item));
           ProviderAuthFormPage.UpdateData.config_path :=
             if decide (trim (LlmProviderAuthRead.config_path item) = "")
             then "providers." ++ toLowerCase (trim (LlmProviderAuthRead.provider item))
                  ++ ".apiKey"
             else trim (LlmProviderAuthRead.config_path item);
           ProviderAuthFormPage.UpdateData.secret := None |}]).
Proof.
  intros Hitem Hprovider Hpath Hsecret Hgateways Hgateway Hp.
  assert (providerAuthId ≠ "" ∧ LlmProviderAuthRead.id item = providerAuthId) as [Hid Hsame].
  { unfold ProviderAuthFormPage.currentItem in Hitem.
    destruct (truthy providerAuthId) eqn:Hid; [|done]. apply truthy_true in Hid.
    apply find_some in Hitem as [_ Hsame]. by apply bool_decide_eq_true in Hsame. }
  assert (toLowerCase (trim (LlmProviderAuthRead.provider item)) ≠ "") as Hlower
    by (by rewrite toLowerCase_empty).
  unfold ProviderAuthFormPage.handleSubmit, ProviderAuthFormPage.gatewayId,
    ProviderAuthFormPage.provider, ProviderAuthFormPage.configPath,
    ProviderAuthFormPage.fieldValue, resolveGatewayId.
  cbv zeta. rewrite Hitem, Hprovider, Hpath, Hsecret. simpl.
  destruct (ProviderAuthFormPage.gateways d) as [|first rest]; [done|].
  rewrite (proj2 (truthy_true _) Hgateway). simpl.
  rewrite (proj2 (truthy_true _) Hgateway), (proj2 (truthy_true _) Hlower),
    (proj2 (truthy_true _) Hid).
  simpl. rewrite Hsame.
  destruct (decide (trim (LlmProviderAuthRead.config_path item) = "")) as [Hblank|Hfilled].
  - by rewrite Hblank, (proj2 (truthy_false "") eq_refl).
  - by rewrite (proj2 (truthy_true _) Hfilled).
Qed.

End provider_auth_edit.

Section provider_auth_edit_examples.
#[local] Existing Instance AsciiRuntime.runtime.

Lemma untouched_provider_auth_edit_keeps_secret_witness :
  ProviderAuthFormPage.handleSubmit (edit "pa-1") providerAuthData
    (ProviderAuthFormPage.mkState None None None "  " (Some "Provider is required."))
  = (ProviderAuthFormPage.mkState None None None "  " None,
     [ProviderAuthFormPage.UpdateProviderAuth "pa-1"
        {| ProviderAuthFormPage.UpdateData.provider := "openai";
           ProviderAuthFormPage.UpdateData.config_path := "providers.openai.apiKey";
           ProviderAuthFormPage.UpdateData.secret := None |}]).
Proof.
  etrans;
    [apply (untouched_provider_auth_edit_keeps_secret providerAuthData _ "pa-1"
              (LlmProviderAuthRead.mk "pa-1" "gw-1" "openai" "providers.openai.apiKey" true
                 "2024-01-01T00:00:00Z"))|];
    try done; try (vm_compute; congruence).
Defined.

End provider_auth_edit_examples.

Section route_examples.
#[local] Existing Instance AsciiRuntime.runtime.

Lemma route_without_identifier_never_submits_witness :
  (CatalogModelFormPage.handleSubmit (ModelsCatalogEditPage (ManyParams [])) catalogData
     catalogDraft).2 = []
  ∧ (ProviderAuthFormPage.handleSubmit (ModelsProviderAuthEditPage NoParam) providerAuthData
       (providerAuthDraft "sk-1")).2 = [].
Proof.
  split.
  - apply (route_without_identifier_never_submits (ManyParams []) eq_refl).
  - apply (route_without_identifier_never_submits NoParam eq_refl).
Defined.

End route_examples.

Section request_target_examples.
#[local] Existing Instance AsciiRuntime.runtime.

Lemma create_requests_target_fetched_gateway_witness :
  "gw-1" ≠ "" ∧ Names oneGateway "gw-1".
Proof.
  apply (proj1 create_requests_target_fetched_gateway catalogData catalogDraft
           (CatalogModelFormPage.CreateData.mk "gw-1" "openai" "gpt-4o" "GPT-4o" None)).
  vm_compute. apply list_elem_of_here.
Defined.


End request_target_examples.
